(** * AIChatApp backend: relay, history reconciliation and histogram extraction

    A shallow embedding of the FastAPI gateway found under [backend/]:
    the three routers ([chat_router], [csv_router], [image_router]), the
    service functions they call ([gemini_service], [csv_service]) and the
    message schema ([models/schemas.py]).

    Python strings are sequences of Unicode code points, so [str] is
    [list N].  Library code the handlers call (the JSON decoder, pydantic's
    field parsers, pandas, the generative model) is collected in the class
    [Externals]; the handlers are written once, against that interface, and
    take the reading of the clock as an argument. *)

From Stdlib Require Import String Ascii NArith ZArith QArith Bool Lia Lqa List.
Import ListNotations.

Close Scope Q_scope.
Set Warnings "-register-all".

Open Scope list_scope.

(* ================================================================= *)
(** ** Strings *)

Definition str := list N.

(** An ASCII literal of the source, as code points. *)
Definition lit (s : string) : str := map N_of_ascii (list_ascii_of_string s).

(** Non-ASCII literals of the source. *)
Definition cross_mark : str := [10060%N].                      (* U+274C *)
Definition router_error_prefix : str := [8218; 249; 229]%N.    (* csv_router.py, line 98 *)
Definition histogram_banner : str := [63743; 252; 236; 228]%N. (* csv_router.py, line 92 *)
Definition dquote : str := [34%N].

(** [Py_UNICODE_ISSPACE]: the characters [str.strip()] removes and the
    regular-expression class [\s] accepts. *)
Definition isspace (c : N) : bool :=
  ((9 <=? c) && (c <=? 13) || (28 <=? c) && (c <=? 32) || (c =? 133) || (c =? 160)
   || (c =? 5760) || (8192 <=? c) && (c <=? 8202) || (c =? 8232) || (c =? 8233)
   || (c =? 8239) || (c =? 8287) || (c =? 12288))%N.

Fixpoint lstrip (s : str) : str :=
  match s with
  | c :: s' => if isspace c then lstrip s' else s
  | [] => []
  end.

Definition rstrip (s : str) : str := rev (lstrip (rev s)).

(** [s.strip()] *)
Definition strip (s : str) : str := rstrip (lstrip s).

(** Truth value of a Python string: non-empty. *)
Definition truthy (s : str) : bool :=
  match s with [] => false | _ :: _ => true end.

Fixpoint eqb_str (a b : str) : bool :=
  match a, b with
  | [], [] => true
  | x :: a', y :: b' => (x =? y)%N && eqb_str a' b'
  | _, _ => false
  end.

(** [s.startswith(p)] *)
Fixpoint startswith (s p : str) : bool :=
  match p, s with
  | [], _ => true
  | y :: p', x :: s' => (x =? y)%N && startswith s' p'
  | _ :: _, [] => false
  end.

(** [sep.join(parts)] *)
Fixpoint join (sep : str) (parts : list str) : str :=
  match parts with
  | [] => []
  | [p] => p
  | p :: rest => p ++ sep ++ join sep rest
  end.

(* ================================================================= *)
(** ** Values, exceptions, messages *)

(** What [json.loads] produces. *)
Inductive json : Type :=
| JNull
| JBool (b : bool)
| JNum (q : Q)
| JStr (s : str)
| JArr (items : list json)
| JObj (members : list (str * json)).

Fixpoint lookup (key : str) (members : list (str * json)) : option json :=
  match members with
  | [] => None
  | (k, v) :: rest => if eqb_str k key then Some v else lookup key rest
  end.

Inductive exn : Type :=
| HTTPException (status_code : nat) (detail : str)  (* fastapi.HTTPException *)
| JSONDecodeError
| TypeError
| ValidationError
| AttributeError
| UnicodeDecodeError
| ResponseValidationError  (* fastapi.exceptions.ResponseValidationError *)
| Exception (msg : str).

(** [datetime]: whole seconds and the microsecond field. *)
Record datetime : Type := { seconds : Z; microsecond : Z }.

(** [t.replace(microsecond=0)] *)
Definition replace_microsecond_0 (t : datetime) : datetime :=
  {| seconds := seconds t; microsecond := 0 |}.

(** [ChatMessage], [ImageChatMessage] and [CSVChatMessage] of
    [models/schemas.py] declare the same five fields. *)
Record ChatMessage : Type := {
  role : str;
  content : str;
  timestamp : option datetime;
  image_url : option str;
  file_url : option str
}.

(** The request handed to the model: the role/content list of text chat, or
    the single prompt string of CSV analysis. *)
Inductive prompt : Type :=
| Messages (messages : list (str * str))
| FullPrompt (text : str).

(** Outcome of an atomic [generate_content]: it raises, or it returns a
    response whose [text] may be empty (the empty string also stands for a
    missing response). *)
Inductive generation : Type :=
| GenRaise (e : str)
| GenText (text : str).

(** One step of iterating a streamed response: a chunk with its [text], or
    the exception that ends the iteration. *)
Inductive stream_item : Type :=
| Frag (text : str)
| Abort (e : str).

(** The dict each [yield] serialises. *)
Inductive event : Type :=
| EvChunk (chunk : str)
| EvReply (reply : str)
| EvHistory (history : list json) (status : str)
| EvError (error : str).

(** A number in a cell: a finite value, or one of the two infinities a
    float column can hold. *)
Inductive number : Type :=
| Finite (q : Q)
| Infinite (negative : bool).

(** The order of floats on these numbers. *)
Definition number_le (x y : number) : bool :=
  match x, y with
  | Infinite true, _ | _, Infinite false => true
  | Finite p, Finite q => Qle_bool p q
  | _, _ => false
  end.


(** A Series as [read_csv] types it: numbers (int or float dtype, a missing
    cell, NaN, is [None]), booleans (bool dtype, which has no missing cell),
    or object. *)
Inductive series : Type :=
| Numeric (values : list (option number))
| Boolean (values : list bool)
| Object (values : list (option str)).

Record DataFrame : Type := {
  index_len : nat;
  columns : list (str * series)
}.

Inductive read_csv_result : Type :=
| EmptyDataError
| ParserError (msg : str)
| Parsed (df : DataFrame).

(** [{"column": ..., "bins": ..., "counts": ...}] or [{"error": ...}] *)
Inductive hist_data : Type :=
| HistError (error : str)
| Hist (column : str) (bins : list Q) (counts : list nat).

Record UploadFile : Type := {
  filename : option str;
  content_bytes : list N
}.

(* ================================================================= *)
(** ** Library code and the outside world *)

Class Externals : Type := {
  (** [json.loads]; [None] is [json.JSONDecodeError] *)
  json_loads : str -> option json;
  (** pydantic's parsers for a [str] and a [datetime] field *)
  pydantic_str : json -> option str;
  pydantic_datetime : json -> option datetime;
  (** [datetime.isoformat] and [str(e)] *)
  isoformat : datetime -> str;
  str_of_exn : exn -> str;
  (** the generative model *)
  generate_content : prompt -> generation;
  generate_content_stream : prompt -> list stream_item;
  (** [str.lower] and [str.isalnum] on one character *)
  lower : str -> str;
  isalnum : N -> bool;
  (** [bytes.decode("utf-8-sig")], [requests.get(url).text], the file write
      of [save_uploaded_csv] ([Some e] when it fails) *)
  decode_utf8_sig : list N -> option str;
  requests_get : str -> option str;
  write_file : str -> list N -> option str;
  (** pandas: the parser and the renderings [summarize_csv] concatenates *)
  read_csv : str -> read_csv_result;
  str_shape : DataFrame -> str;
  str_dtypes : DataFrame -> str;
  str_isna_sum : DataFrame -> str;
  str_describe : list (str * series) -> str;
  str_value_counts_head3 : list (option str) -> str;
  (** numpy: [np.histogram(a, bins=10)], the counts and the bin edges, or
      the text of the exception it raises *)
  np_histogram : list number -> str + (list nat * list Q);
  (** [json.dumps(hist_data, indent=2)] *)
  dumps_hist : hist_data -> str;
  (** [image_service], which the repository imports from a module of its own *)
  save_uploaded_image : UploadFile -> exn + str;
  basename : str -> str;
  ask_gemini_with_image : str -> str -> str;
  ask_gemini_with_image_streaming : str -> str -> list str * option exn
}.

(* ================================================================= *)
(** ** Generators and handlers as computations

    A computation threads the record of what happened so far (the prompts
    sent to the model, and the value of [updated_history] once the
    history-update step has run), emits events, and ends normally, with an
    exception, or with a bare [return]. *)

Record run_state : Type := {
  calls : list prompt;
  updated_history : option (list ChatMessage)
}.

Definition initial : run_state := {| calls := []; updated_history := None |}.

Inductive outcome (A : Type) : Type :=
| Normal (a : A)
| Raised (e : exn)
| Returned.
Arguments Normal {A} a.
Arguments Raised {A} e.
Arguments Returned {A}.

Definition gen (A : Type) : Type := run_state -> list event * outcome A * run_state.

Definition ret {A} (a : A) : gen A := fun s => ([], Normal a, s).

Definition bind {A B} (m : gen A) (k : A -> gen B) : gen B :=
  fun s =>
    match m s with
    | (evs, Normal a, s') =>
        match k a s' with
        | (evs', o, s'') => (evs ++ evs', o, s'')
        end
    | (evs, Raised e, s') => (evs, Raised e, s')
    | (evs, Returned, s') => (evs, Returned, s')
    end.

Notation "x <- m ;; k" := (bind m (fun x => k))
  (at level 61, m at next level, right associativity).
Notation "m ;;; k" := (bind m (fun _ => k))
  (at level 61, right associativity).

Definition yield (ev : event) : gen unit := fun s => ([ev], Normal tt, s).
Definition raise {A} (e : exn) : gen A := fun s => ([], Raised e, s).
Definition return_ {A} : gen A := fun s => ([], Returned, s).

(** [try: m  except Exception as e: h e] *)
Definition try_except {A} (m : gen A) (h : exn -> gen A) : gen A :=
  fun s =>
    match m s with
    | (evs, Raised e, s') =>
        match h e s' with
        | (evs', o, s'') => (evs ++ evs', o, s'')
        end
    | r => r
    end.

(** The model is called: the prompt joins the record. *)
Definition invoke (p : prompt) : gen unit :=
  fun s => ([], Normal tt,
            {| calls := calls s ++ [p]; updated_history := updated_history s |}).

(** The assignment to [updated_history]. *)
Definition assign_updated_history (h : list ChatMessage) : gen unit :=
  fun s => ([], Normal tt, {| calls := calls s; updated_history := Some h |}).

Fixpoint for_each {A B} (f : A -> gen B) (xs : list A) : gen (list B) :=
  match xs with
  | [] => ret []
  | x :: rest => y <- f x ;; ys <- for_each f rest ;; ret (y :: ys)
  end.

(* ================================================================= *)
(** ** services/gemini_service.py *)

Section Services.
Context {E : Externals}.

Definition no_response : str := lit "(No response from Gemini)".
Definition text_error (e : str) : str :=
  cross_mark ++ lit " Error while generating text: " ++ e.

(** What [ask_gemini_text] returns for each outcome of the call: the
    stripped text, the placeholder when there is none, the error text when
    the call raised. *)
Definition text_reply (g : generation) : str :=
  match g with
  | GenText text => if truthy text then strip text else no_response
  | GenRaise e => text_error e
  end.

Definition ask_gemini_text (messages : list (str * str)) : gen str :=
  invoke (Messages messages) ;;;
  ret (text_reply (generate_content (Messages messages))).

(** The chunks [ask_gemini_text_streaming] yields while it walks the
    response: the stripped text of each chunk that has text and, when the
    iteration raises, the error text as a last chunk. *)
Fixpoint text_chunks (response : list stream_item) : list str :=
  match response with
  | [] => []
  | Frag text :: rest =>
      if truthy text then strip text :: text_chunks rest else text_chunks rest
  | Abort e :: _ => [text_error e]
  end.

Definition ask_gemini_text_streaming (messages : list (str * str)) : gen (list str) :=
  invoke (Messages messages) ;;;
  ret (text_chunks (generate_content_stream (Messages messages))).

(* ================================================================= *)
(** ** Reading the [history] form field *)

(** [json.loads(history) if history else []], inside
    [try ... except json.JSONDecodeError: raise HTTPException(422, ...)] *)
Definition invalid_history : exn :=
  HTTPException 422 (lit "Invalid JSON in history").

Definition loads_history_guarded (history : str) : gen json :=
  if truthy history then
    match json_loads history with
    | Some v => ret v
    | None => raise invalid_history
    end
  else ret (JArr []).

(** The same expression without the guard, as [image_router] has it. *)
Definition loads_history (history : str) : gen json :=
  if truthy history then
    match json_loads history with
    | Some v => ret v
    | None => raise JSONDecodeError
    end
  else ret (JArr []).

(** [for msg in history_list]: a list gives its items, a dict its keys, a
    string its characters; nothing else can be iterated. *)
Definition iterate (v : json) : gen (list json) :=
  match v with
  | JArr items => ret items
  | JObj members => ret (map (fun kv => JStr (fst kv)) members)
  | JStr s => ret (map (fun c => JStr [c]) s)
  | _ => raise TypeError
  end.

Definition optional {A} (parse : json -> option A) (v : option json) : gen (option A) :=
  match v with
  | None | Some JNull => ret None
  | Some j => match parse j with
              | Some a => ret (Some a)
              | None => raise ValidationError
              end
  end.

Definition required {A} (parse : json -> option A) (v : option json) : gen A :=
  match v with
  | Some j => match parse j with
              | Some a => ret a
              | None => raise ValidationError
              end
  | None => raise ValidationError
  end.

(** The constructor call that unpacks [msg] as keyword arguments: [msg]
    must be a mapping; [role] and [content] are required, the other fields
    default to [None]. *)
Definition validate_message (msg : json) : gen ChatMessage :=
  match msg with
  | JObj members =>
      r <- required pydantic_str (lookup (lit "role") members) ;;
      c <- required pydantic_str (lookup (lit "content") members) ;;
      t <- optional pydantic_datetime (lookup (lit "timestamp") members) ;;
      i <- optional pydantic_str (lookup (lit "image_url") members) ;;
      f <- optional pydantic_str (lookup (lit "file_url") members) ;;
      ret {| role := r; content := c; timestamp := t; image_url := i; file_url := f |}
  | _ => raise TypeError
  end.

(** The list comprehension that builds [history_messages] from [history_list]. *)
Definition history_messages_of (history_list : json) : gen (list ChatMessage) :=
  items <- iterate history_list ;;
  for_each validate_message items.

(** [msg.timestamp.isoformat()] *)
Definition timestamp_isoformat (msg : ChatMessage) : gen str :=
  match timestamp msg with
  | Some t => ret (isoformat t)
  | None => raise AttributeError
  end.

Definition opt_json (o : option str) : json :=
  match o with Some s => JStr s | None => JNull end.

(* ================================================================= *)
(** ** routers/chat_router.py *)

Definition user_turn (text : str) (image file : option str) (t : datetime) : ChatMessage :=
  {| role := lit "user"; content := text; timestamp := Some t;
     image_url := image; file_url := file |}.

Definition assistant_turn (text : str) (t : datetime) : ChatMessage :=
  {| role := lit "assistant"; content := text; timestamp := Some t;
     image_url := None; file_url := None |}.

(** The role/content list prepared for the model. *)
Definition gemini_messages (history_messages : list ChatMessage) (message : str)
  : list (str * str) :=
  map (fun m => (if eqb_str (role m) (lit "assistant") then lit "model" else role m,
                 content m)) history_messages
  ++ [(lit "user", message)].

(** The loop [async for chunk in ...: full_response += chunk + " "; yield ...] *)
Fixpoint relay_spaced (chunks : list str) (full_response : str) : gen str :=
  match chunks with
  | [] => ret full_response
  | chunk :: rest =>
      yield (EvChunk chunk) ;;;
      relay_spaced rest (full_response ++ chunk ++ lit " ")
  end.

(** [response if response else full_response.strip()] *)
Definition reply_or_stripped (response : option str) (full_response : str) : str :=
  match response with
  | Some r => if truthy r then r else strip full_response
  | None => strip full_response
  end.

Definition chat_history_entry (msg : ChatMessage) : gen json :=
  t <- timestamp_isoformat msg ;;
  ret (JObj [(lit "role", JStr (role msg));
             (lit "content", JStr (content msg));
             (lit "timestamp", JStr t)]).

Definition chat_stream_response (message : str) (stream : bool) (history : str)
    (now : datetime) : gen unit :=
  try_except
    (history_list <- loads_history_guarded history ;;
     history_messages <- history_messages_of history_list ;;
     let messages := gemini_messages history_messages message in
     rf <- (if stream then
              chunks <- ask_gemini_text_streaming messages ;;
              full_response <- relay_spaced chunks [] ;;
              ret (None, full_response)
            else
              response <- ask_gemini_text messages ;;
              yield (EvReply response) ;;;
              ret (Some response, [])) ;;
     let current_time := replace_microsecond_0 now in
     let updated := history_messages ++
       [user_turn message None None current_time;
        assistant_turn (reply_or_stripped (fst rf) (snd rf)) current_time] in
     assign_updated_history updated ;;;
     history_dict <- for_each chat_history_entry updated ;;
     yield (EvHistory history_dict (lit "complete")))
    (fun e => yield (EvError (str_of_exn e))).

(** What the endpoint hands back: the event stream, the response model, or
    the exception that left the handler. *)
Inductive http_response : Type :=
| StreamingResponse (events : list event)
| Response (reply : str) (history : list ChatMessage)
| Unhandled (e : exn).

(** FastAPI's status line: an [HTTPException] carries its own code, any
    other exception is a 500. *)
Definition status (r : http_response) : nat :=
  match r with
  | Unhandled (HTTPException code _) => code
  | Unhandled _ => 500
  | _ => 200
  end.

(** [StreamingResponse(stream_response(), ...)]: the client receives what
    the generator yields. *)
Definition respond_stream (g : gen unit) : http_response * run_state :=
  (StreamingResponse (fst (fst (g initial))), snd (g initial)).

(** A handler body that is no generator: it returns its response or lets
    an exception out (it has no bare [return]; that case is there for
    totality). *)
Definition respond (g : gen http_response) : http_response * run_state :=
  match g initial with
  | (_, Normal r, s) => (r, s)
  | (_, Raised e, s) => (Unhandled e, s)
  | (_, Returned, s) => (Unhandled (Exception []), s)
  end.

Definition chat (message : str) (stream : bool) (history : str) (now : datetime)
  : http_response * run_state :=
  if stream then respond_stream (chat_stream_response message stream history now)
  else respond
    (history_list <- loads_history_guarded history ;;
     history_messages <- history_messages_of history_list ;;
     let messages := gemini_messages history_messages message in
     response <- ask_gemini_text messages ;;
     let current_time := replace_microsecond_0 now in
     let updated := history_messages ++
       [{| role := lit "user"; content := message; timestamp := Some current_time;
           image_url := None; file_url := None |};
        {| role := lit "assistant"; content := response; timestamp := Some current_time;
           image_url := None; file_url := None |}] in
     assign_updated_history updated ;;;
     history_dict <- for_each chat_history_entry updated ;;
     ret (Response response updated)).

(* ================================================================= *)
(** ** Regular expressions, as [re.search] runs them

    A backtracking matcher in continuation-passing style: alternatives
    are tried left to right, [*] and [?] are greedy, [+?] is lazy.  The
    pattern of [csv_router] repeats character classes only, so repetition
    is defined on classes. *)

Inductive regex : Type :=
| Eps
| Lit (s : str)
| Star (p : N -> bool)
| Opt (p : N -> bool)
| PlusLazy (p : N -> bool)
| Seq (r1 r2 : regex)
| Alt (r1 r2 : regex)
| Group (n : nat) (r : regex)
| EndAnchor
| WordBoundary.

(** Where the matcher stands: the character just behind, the text ahead,
    the groups captured so far. *)
Record cursor : Type := {
  behind : option N;
  ahead : str;
  groups : list (nat * str)
}.

Fixpoint last_or (d : option N) (s : str) : option N :=
  match s with
  | [] => d
  | c :: s' => last_or (Some c) s'
  end.

Fixpoint greedy_star {A} (p : N -> bool) (b : option N) (s : str) (g : list (nat * str))
    (k : cursor -> option A) : option A :=
  match s with
  | c :: s' =>
      if p c then
        match greedy_star p (Some c) s' g k with
        | Some r => Some r
        | None => k {| behind := b; ahead := s; groups := g |}
        end
      else k {| behind := b; ahead := s; groups := g |}
  | [] => k {| behind := b; ahead := s; groups := g |}
  end.

Fixpoint lazy_star {A} (p : N -> bool) (b : option N) (s : str) (g : list (nat * str))
    (k : cursor -> option A) : option A :=
  match k {| behind := b; ahead := s; groups := g |} with
  | Some r => Some r
  | None =>
      match s with
      | c :: s' => if p c then lazy_star p (Some c) s' g k else None
      | [] => None
      end
  end.

Fixpoint group (n : nat) (g : list (nat * str)) : option str :=
  match g with
  | [] => None
  | (m, s) :: rest => if Nat.eqb m n then Some s else group n rest
  end.

Section Matcher.
Variable word : N -> bool.

Definition is_word (c : option N) : bool :=
  match c with Some x => word x | None => false end.

Fixpoint run {A} (r : regex) (c : cursor) (k : cursor -> option A) : option A :=
  match r with
  | Eps => k c
  | Lit s =>
      if startswith (ahead c) s then
        k {| behind := last_or (behind c) s;
             ahead := skipn (length s) (ahead c);
             groups := groups c |}
      else None
  | Star p => greedy_star p (behind c) (ahead c) (groups c) k
  | Opt p =>
      match ahead c with
      | x :: s' =>
          if p x then
            match k {| behind := Some x; ahead := s'; groups := groups c |} with
            | Some res => Some res
            | None => k c
            end
          else k c
      | [] => k c
      end
  | PlusLazy p =>
      match ahead c with
      | x :: s' => if p x then lazy_star p (Some x) s' (groups c) k else None
      | [] => None
      end
  | Seq r1 r2 => run r1 c (fun c' => run r2 c' k)
  | Alt r1 r2 =>
      match run r1 c k with
      | Some res => Some res
      | None => run r2 c k
      end
  | Group n r1 =>
      run r1 c (fun c' =>
        k {| behind := behind c';
             ahead := ahead c';
             groups := (n, firstn (length (ahead c) - length (ahead c')) (ahead c))
                       :: groups c' |})
  | EndAnchor =>
      match ahead c with
      | [] => k c
      | [x] => if (x =? 10)%N then k c else None
      | _ => None
      end
  | WordBoundary =>
      if xorb (is_word (behind c)) (is_word (hd_error (ahead c))) then k c else None
  end.

(** [re.search]: the first position, left to right, where the pattern
    matches; the result is the table of groups. *)
Fixpoint search_from (r : regex) (b : option N) (s : str) : option (list (nat * str)) :=
  match run r {| behind := b; ahead := s; groups := [] |} (fun c => Some (groups c)) with
  | Some g => Some g
  | None =>
      match s with
      | c :: s' => search_from r (Some c) s'
      | [] => None
      end
  end.

Definition search (r : regex) (s : str) : option (list (nat * str)) :=
  search_from r None s.

End Matcher.

Fixpoint seq_of (rs : list regex) : regex :=
  match rs with
  | [] => Eps
  | [r] => r
  | r :: rest => Seq r (seq_of rest)
  end.

Fixpoint alt_of (r : regex) (rs : list regex) : regex :=
  match rs with
  | [] => r
  | r' :: rest => Alt r (alt_of r' rest)
  end.

Definition is_quote (c : N) : bool := ((c =? 39) || (c =? 34))%N.

(** The pattern of [csv_router.py] (lines 81 and 178), with the non-ASCII
    alternatives as the file has them. *)
Definition trigger_words : regex :=
  alt_of (Lit (lit "histogram"))
    [Lit [118; 183; 8747; 937; 32; 98; 105; 183; 170; 201; 117; 32; 402; 235; 183; 170; 236]%N;
     Lit [98; 105; 183; 170; 201; 117; 32; 402; 235; 183; 170; 236; 32; 112; 104; 8730; 162;
          110; 32; 112; 104; 183; 170; 235; 105]%N;
     Lit [112; 104; 8730; 162; 110; 32; 112; 104; 183; 170; 235; 105]%N;
     Lit [118; 183; 8747; 937; 32; 104; 105; 115; 116; 111; 103; 114; 97; 109]%N;
     Lit (lit "plot"); Lit (lit "chart"); Lit (lit "graph")].

Definition connectives : regex :=
  alt_of (Lit [99; 183; 170; 244; 116; 32]%N)
    [Lit (lit "cho "); Lit [99; 183; 170; 223; 97; 32]%N; Lit [118; 183; 170; 197; 32]%N;
     Lit (lit "for "); Lit (lit "of "); Eps].

Definition column_words : regex :=
  alt_of (Lit [99; 183; 170; 244; 116; 32]%N) [Lit (lit "column "); Eps].

Definition closing : regex :=
  Seq (Star isspace)
    (alt_of (Lit [100; 8730; 960; 109; 32; 116; 8730; 165; 105]%N)
       [Lit (lit "nha"); Lit (lit "please"); Seq (Star isspace) EndAnchor; WordBoundary]).

Definition histogram_pattern (word : N -> bool) : regex :=
  seq_of [trigger_words; Star isspace; connectives; Star isspace; column_words;
          Star isspace; Opt is_quote;
          Group 1 (PlusLazy (fun c => word c || isspace c));
          Opt is_quote; Group 2 closing].

(* ================================================================= *)
(** ** The values handed to [np.histogram], and the bins the specification
    describes *)

(** [Series.dropna()] *)
Fixpoint dropna (values : list (option number)) : list number :=
  match values with
  | [] => []
  | Some v :: rest => v :: dropna rest
  | None :: rest => dropna rest
  end.

(** [pd.api.types.is_numeric_dtype] holds for int, float and bool columns;
    what [dropna()] then hands to [np.histogram] ([True] counts as 1). *)
Definition numeric_values (data : series) : option (list number) :=
  match data with
  | Numeric values => Some (dropna values)
  | Boolean values => Some (map (fun b : bool => Finite (if b then 1%Q else 0%Q)) values)
  | Object _ => None
  end.

Definition Qmin_list (x : Q) (xs : list Q) : Q :=
  fold_left (fun m v => if Qle_bool v m then v else m) xs x.
Definition Qmax_list (x : Q) (xs : list Q) : Q :=
  fold_left (fun m v => if Qle_bool m v then v else m) xs x.

Definition outer_edges (a : list Q) : Q * Q :=
  match a with
  | [] => (0, 1)%Q
  | x :: xs =>
      let lo := Qmin_list x xs in
      let hi := Qmax_list x xs in
      if Qeq_bool lo hi then (lo - (1 # 2), hi + (1 # 2))%Q else (lo, hi)
  end.

Definition edge (lo hi : Q) (i : nat) : Q :=
  (lo + inject_Z (Z.of_nat i) * (hi - lo) / 10)%Q.

Definition bin_edges (lo hi : Q) : list Q := map (edge lo hi) (seq 0 11).

Definition in_bin (lo hi : Q) (i : nat) (v : Q) : bool :=
  Qle_bool (edge lo hi i) v &&
  (if Nat.eqb i 9 then Qle_bool v (edge lo hi 10)
   else negb (Qle_bool (edge lo hi (S i)) v)).

Definition count_in (lo hi : Q) (a : list Q) (i : nat) : nat :=
  length (filter (in_bin lo hi i) a).

(** Modelled from the spec: what [np.histogram(a, bins=10)] returns belongs
    to numpy, which is not part of the repository; section 4.2 gives it as
    [bin_edges[i] = min + i * (max-min)/10] for [i] in 0..10 and [counts[i]]
    the number of values in [[bin_edges[i], bin_edges[i+1])], the last bin
    closed on both ends.  [ten_bins] is that description computed in exact
    arithmetic on finite values; the code itself calls [np_histogram], which
    may round differently or raise.  For an empty or constant input, which
    the spec leaves open, [outer_edges] follows numpy's rule (0 and 1, or
    half a unit either side of the value). *)
Definition ten_bins (a : list Q) : list nat * list Q :=
  let '(lo, hi) := outer_edges a in
  (map (count_in lo hi a) (seq 0 10), bin_edges lo hi).

(* ================================================================= *)
(** ** services/csv_service.py *)

Definition MAX_CSV_SIZE : N := (50 * 1024 * 1024)%N.

Definition fmt (o : option str) : str :=
  match o with Some s => s | None => lit "None" end.

(** [x or default] on an optional string *)
Definition or_else (o : option str) (default : str) : str :=
  match o with
  | Some s => if truthy s then s else default
  | None => default
  end.

(** [csv_service] imports [HTTPException] from [http.client]; calling that
    class with keyword arguments is itself a [TypeError]. *)
Definition save_uploaded_csv (file : UploadFile) (bytes : list N) : gen str :=
  if (MAX_CSV_SIZE <? N.of_nat (length bytes))%N then raise TypeError
  else
    let file_path := lit "data/processed/" ++ fmt (filename file) in
    match write_file file_path bytes with
    | None => ret file_path
    | Some e => raise (Exception (lit "Failed to save CSV: " ++ e))
    end.

Definition download_csv_from_url (url : str) : gen str :=
  match requests_get url with
  | Some text => ret text
  | None => raise TypeError
  end.

(** [df.select_dtypes(include='number')]: bool is not a number there. *)
Definition numeric_columns (cols : list (str * series)) : list (str * series) :=
  filter (fun c => match snd c with Numeric _ => true | _ => false end) cols.

Definition nl : str := [10%N].

Definition top_values (c : str * series) : str :=
  match snd c with
  | Object values =>
      nl ++ lit "Top values for " ++ fst c ++ lit ":" ++ nl
      ++ str_value_counts_head3 values ++ nl
  | _ => []
  end.

Definition is_empty (df : DataFrame) : bool :=
  Nat.eqb (index_len df) 0 || Nat.eqb (length (columns df)) 0.

Definition summarize_csv (file_content : str) : str :=
  match read_csv file_content with
  | Parsed df =>
      if is_empty df then
        cross_mark ++ lit " CSV file tr"
        ++ [7889; 110; 103; 32; 104; 111; 7863; 99; 32; 107; 104; 244; 110; 103; 32; 99; 243;
            32; 100; 7919; 32; 108; 105; 7879; 117; 32; 104; 7907; 112; 32; 108; 7879; 46]%N
      else
        lit "Dataset shape: " ++ str_shape df ++ nl
        ++ lit "Columns: " ++ join (lit ", ") (map fst (columns df)) ++ nl
        ++ nl ++ lit "Column types:" ++ nl ++ str_dtypes df ++ nl
        ++ nl ++ lit "Missing values per column:" ++ nl ++ str_isna_sum df ++ nl
        ++ (match numeric_columns (columns df) with
            | [] => []
            | _ :: _ => nl ++ lit "Statistics for numeric columns:" ++ nl
                        ++ str_describe (numeric_columns (columns df)) ++ nl
            end)
        ++ concat (map top_values (columns df))
  | EmptyDataError =>
      cross_mark ++ lit " Failed to summarize CSV: No columns to parse from file"
  | ParserError e => cross_mark ++ lit " Failed to summarize CSV: " ++ e
  end.

(** [next((col for col in df.columns if col.lower() == column_lower), None)] *)
Fixpoint find_column (column_lower : str) (cols : list (str * series))
  : option (str * series) :=
  match cols with
  | [] => None
  | c :: rest =>
      if eqb_str (lower (fst c)) column_lower then Some c
      else find_column column_lower rest
  end.

Definition quoted (s : str) : str := lit "'" ++ s ++ lit "'".

Definition generate_histogram_data (file_content column : str) : hist_data :=
  match read_csv file_content with
  | Parsed df =>
      if is_empty df then HistError (lit "CSV file is empty or contains no valid data.")
      else
        match find_column (lower column) (columns df) with
        | None => HistError (lit "Column " ++ quoted column ++ lit " not found in CSV.")
        | Some (matching_column, data) =>
            match numeric_values data with
            | None =>
                HistError (lit "Column " ++ quoted matching_column ++ lit " is not numeric.")
            | Some a =>
                match np_histogram a with
                | inr (hist, bins) => Hist matching_column bins hist
                | inl e => HistError (lit "Failed to generate histogram: " ++ e)
                end
            end
        end
  | EmptyDataError => HistError (lit "No columns to parse from file.")
  | ParserError e => HistError (lit "Failed to generate histogram: " ++ e)
  end.

Definition indent : str := lit "                        ".

Definition full_prompt (prompt csv_summary : str) (file_name : option str) : str :=
  let file_reference :=
    match file_name with
    | Some n => if truthy n then lit "File: **" ++ n ++ lit "**" else lit "Uploaded CSV file"
    | None => lit "Uploaded CSV file"
    end in
  let name := or_else file_name (lit "CSV file") in
  nl ++ indent ++ lit "**ANALYZE THE FOLLOWING CSV FILE: " ++ file_reference ++ lit "**" ++ nl
  ++ nl ++ indent ++ lit "User Question: " ++ prompt ++ nl
  ++ nl ++ indent ++ lit "Dataset Summary from " ++ name ++ lit ":" ++ nl
  ++ indent ++ (if truthy csv_summary then csv_summary else lit "No data summary provided.") ++ nl
  ++ nl ++ indent ++ lit "**IMPORTANT: In your answer, ALWAYS reference the file "
  ++ dquote ++ name ++ dquote ++ lit " specifically. " ++ nl
  ++ indent ++ lit "Mention the file name when explaining results, trends, or insights.**" ++ nl
  ++ nl ++ indent ++ lit "Provide detailed analysis based on the data." ++ nl
  ++ indent.

Definition data_error (file_name : option str) (e : str) : str :=
  cross_mark ++ lit " Error analyzing **" ++ fmt file_name ++ lit "**: " ++ e.

Definition no_data_response (file_name : option str) : str :=
  lit "(No response from Gemini about " ++ fmt file_name ++ lit ")".

Definition data_reply (file_name : option str) (g : generation) : str :=
  match g with
  | GenText text => if truthy text then strip text else no_data_response file_name
  | GenRaise e => data_error file_name e
  end.

Definition ask_gemini_about_data (prompt csv_summary : str) (file_name : option str)
  : gen str :=
  let p := FullPrompt (full_prompt prompt csv_summary file_name) in
  invoke p ;;;
  ret (data_reply file_name (generate_content p)).

(** The chunks [ask_gemini_about_data_streaming] yields: each chunk's text
    as it comes, then, when the iteration ends without raising, the stripped
    [full_text] once more if it is not empty; the error text when it
    raises. *)
Fixpoint data_chunks (file_name : option str) (response : list stream_item)
    (full_text : str) : list str :=
  match response with
  | [] => if truthy (strip full_text) then [strip full_text] else []
  | Frag text :: rest =>
      if truthy text then text :: data_chunks file_name rest (full_text ++ text)
      else data_chunks file_name rest full_text
  | Abort e :: _ => [data_error file_name e]
  end.

Definition ask_gemini_about_data_streaming (prompt csv_summary : str)
    (file_name : option str) : gen (list str) :=
  let p := FullPrompt (full_prompt prompt csv_summary file_name) in
  invoke p ;;;
  ret (data_chunks file_name (generate_content_stream p) []).

(* ================================================================= *)
(** ** routers/csv_router.py *)

Definition word_char (c : N) : bool := (isalnum c || (c =? 95)%N).

(** [re.search(pattern, question.lower())] and [group(1).strip()] *)
Definition histogram_match (question : str) : option str :=
  match search word_char (histogram_pattern word_char) (lower question) with
  | Some g => Some (strip (match group 1 g with Some s => s | None => [] end))
  | None => None
  end.

(** [url.split('/')[-1]] *)
Fixpoint last_segment (s acc : str) : str :=
  match s with
  | [] => acc
  | c :: s' => if (c =? 47)%N then last_segment s' [] else last_segment s' (acc ++ [c])
  end.

Definition histogram_reply (column : str) (h : hist_data) : str :=
  match h with
  | HistError e => e
  | Hist _ _ _ =>
      histogram_banner ++ lit " Histogram data for " ++ quoted column ++ lit ":" ++ nl
      ++ dumps_hist h
  end.

(** The loop [async for chunk in ...: full_response += chunk; yield ...] *)
Fixpoint relay_plain (chunks : list str) (full_response : str) : gen str :=
  match chunks with
  | [] => ret full_response
  | chunk :: rest =>
      yield (EvChunk chunk) ;;;
      relay_plain rest (full_response ++ chunk)
  end.

(** [full_response if not response else response] *)
Definition full_or_reply (response : option str) (full_response : str) : str :=
  match response with
  | Some r => if truthy r then r else full_response
  | None => full_response
  end.

Definition csv_history_entry (msg : ChatMessage) : gen json :=
  t <- timestamp_isoformat msg ;;
  ret (JObj [(lit "role", JStr (role msg));
             (lit "content", JStr (content msg));
             (lit "file_url", opt_json (file_url msg));
             (lit "timestamp", JStr t)]).

(** The block that loads the CSV text, in the generator: a missing or blank
    file is reported as an error event and the generator returns. *)
Definition load_csv_streaming (file : option UploadFile) (url : option str)
  : gen (str * str * str) :=
  match file with
  | Some f =>
      match decode_utf8_sig (content_bytes f) with
      | None => raise UnicodeDecodeError
      | Some content_text =>
          let file_name := or_else (filename f) (lit "uploaded_file.csv") in
          if negb (truthy (strip content_text)) then
            yield (EvError (lit "The CSV file is empty or contains no data.")) ;;;
            return_
          else
            file_url <- save_uploaded_csv f (content_bytes f) ;;
            ret (content_text, file_name, file_url)
      end
  | None =>
      match url with
      | Some u =>
          if truthy u then
            content_text <- download_csv_from_url u ;;
            ret (content_text, or_else (Some (last_segment u [])) (lit "remote_file.csv"), u)
          else
            yield (EvError (lit "Must provide either file or URL.")) ;;; return_
      | None => yield (EvError (lit "Must provide either file or URL.")) ;;; return_
      end
  end.

(** The same block outside the generator: the two conditions are HTTP 400. *)
Definition load_csv (file : option UploadFile) (url : option str)
  : gen (str * str * str) :=
  match file with
  | Some f =>
      match decode_utf8_sig (content_bytes f) with
      | None => raise UnicodeDecodeError
      | Some content_text =>
          let file_name := or_else (filename f) (lit "uploaded_file.csv") in
          if negb (truthy (strip content_text)) then
            raise (HTTPException 400 (lit "The CSV file is empty or contains no data."))
          else
            file_url <- save_uploaded_csv f (content_bytes f) ;;
            ret (content_text, file_name, file_url)
      end
  | None =>
      match url with
      | Some u =>
          if truthy u then
            content_text <- download_csv_from_url u ;;
            ret (content_text, or_else (Some (last_segment u [])) (lit "remote_file.csv"), u)
          else raise (HTTPException 400 (lit "Must provide either file or URL."))
      | None => raise (HTTPException 400 (lit "Must provide either file or URL."))
      end
  end.

(** The block from [histogram_match] to the end of the analysis: it leaves
    [response] and [full_response]. *)
Definition answer_streaming (question content_text file_name : str) (stream : bool)
  : gen (option str * str) :=
  match histogram_match question with
  | Some column =>
      let response := histogram_reply column (generate_histogram_data content_text column) in
      yield (EvReply response) ;;;
      ret (Some response, response)
  | None =>
      let summary := summarize_csv content_text in
      if startswith summary router_error_prefix then
        yield (EvError summary) ;;; return_
      else if stream then
        chunks <- ask_gemini_about_data_streaming question summary (Some file_name) ;;
        full_response <- relay_plain chunks [] ;;
        ret (None, full_response)
      else
        response <- ask_gemini_about_data question summary (Some file_name) ;;
        yield (EvReply response) ;;;
        ret (Some response, response)
  end.

Definition answer (question content_text file_name : str) : gen str :=
  match histogram_match question with
  | Some column =>
      ret (histogram_reply column (generate_histogram_data content_text column))
  | None =>
      let summary := summarize_csv content_text in
      if startswith summary router_error_prefix then raise (HTTPException 400 summary)
      else ask_gemini_about_data question summary (Some file_name)
  end.

Definition csv_stream_response (question : str) (file : option UploadFile)
    (url : option str) (stream : bool) (history : str) (now : datetime) : gen unit :=
  try_except
    (history_list <- loads_history_guarded history ;;
     history_messages <- history_messages_of history_list ;;
     loaded <- load_csv_streaming file url ;;
     rf <- answer_streaming question (fst (fst loaded)) (snd (fst loaded)) stream ;;
     let current_time := replace_microsecond_0 now in
     let updated := history_messages ++
       [user_turn question None (Some (snd loaded)) current_time;
        assistant_turn (full_or_reply (fst rf) (snd rf)) current_time] in
     assign_updated_history updated ;;;
     history_dict <- for_each csv_history_entry updated ;;
     yield (EvHistory history_dict (lit "complete")))
    (fun e => yield (EvError (str_of_exn e))).

Definition chat_with_csv (question : str) (file : option UploadFile) (url : option str)
    (stream : bool) (history : str) (now : datetime) : http_response * run_state :=
  if stream then respond_stream (csv_stream_response question file url stream history now)
  else respond
    (history_list <- loads_history_guarded history ;;
     history_messages <- history_messages_of history_list ;;
     loaded <- load_csv file url ;;
     response <- answer question (fst (fst loaded)) (snd (fst loaded)) ;;
     let current_time := replace_microsecond_0 now in
     let updated := history_messages ++
       [user_turn question None (Some (snd loaded)) current_time;
        assistant_turn response current_time] in
     assign_updated_history updated ;;;
     ret (Response response updated)).

(* ================================================================= *)
(** ** routers/image_router.py *)

Definition image_history_entry (msg : ChatMessage) : gen json :=
  t <- timestamp_isoformat msg ;;
  ret (JObj [(lit "role", JStr (role msg));
             (lit "content", JStr (content msg));
             (lit "image_url", opt_json (image_url msg));
             (lit "timestamp", JStr t)]).

Definition uploads_url (image_path : str) : str :=
  lit "http://127.0.0.1:8000/temp_uploads/" ++ basename image_path.

Definition image_stream_response (question : str) (file : UploadFile) (stream : bool)
    (history : str) (now : datetime) : gen unit :=
  try_except
    (history_list <- loads_history history ;;
     history_messages <- history_messages_of history_list ;;
     image_path <- match save_uploaded_image file with
                   | inr path => ret path
                   | inl e => raise e
                   end ;;
     let image_url := uploads_url image_path in
     rf <- (if stream then
              let '(chunks, failure) := ask_gemini_with_image_streaming question image_path in
              full_response <- relay_plain chunks [] ;;
              match failure with
              | Some e => raise e
              | None => ret (None, full_response)
              end
            else
              let response := ask_gemini_with_image question image_path in
              yield (EvReply response) ;;;
              ret (Some response, [])) ;;
     let current_time := replace_microsecond_0 now in
     let updated := history_messages ++
       [user_turn question (Some image_url) None current_time;
        assistant_turn (reply_or_stripped (fst rf) (snd rf)) current_time] in
     assign_updated_history updated ;;;
     history_dict <- for_each image_history_entry updated ;;
     yield (EvHistory history_dict (lit "complete")))
    (fun e => yield (EvError (str_of_exn e))).

(** FastAPI checks the dict a handler returns against its
    [response_model]: every item of [history] has to validate as a message;
    when one does not, the response is a 500. *)
Definition validated_as_response (reply : str) (history : list json) : gen http_response :=
  try_except
    (history_messages <- for_each validate_message history ;;
     ret (Response reply history_messages))
    (fun _ => raise ResponseValidationError).

(** The non-streaming branch keeps the decoded JSON as it is and appends
    two dicts; [list + list] needs a list on the left. *)
Definition chat_with_image (question : str) (file : UploadFile) (stream : bool)
    (history : str) (now : datetime) : http_response * run_state :=
  if stream then respond_stream (image_stream_response question file stream history now)
  else respond
    (history_list <- loads_history history ;;
     image_path <- match save_uploaded_image file with
                   | inr path => ret path
                   | inl e => raise e
                   end ;;
     let image_url := uploads_url image_path in
     let response := ask_gemini_with_image question image_path in
     let current_time := isoformat (replace_microsecond_0 now) in
     match history_list with
     | JArr history_messages =>
         validated_as_response response
           (history_messages ++
            [JObj [(lit "role", JStr (lit "user"));
                   (lit "content", JStr question);
                   (lit "image_url", JStr image_url);
                   (lit "timestamp", JStr current_time)];
             JObj [(lit "role", JStr (lit "assistant"));
                   (lit "content", JStr response);
                   (lit "image_url", JNull);
                   (lit "timestamp", JStr current_time)]])
     | _ => raise TypeError
     end).

End Services.

(* ================================================================= *)
(** ** A concrete world for the examples

    ASCII instances of the library functions, a decoder for the few
    [history] payloads the examples send, a parser for their one CSV file,
    and a model whose answers are scripted. *)

Module Demo.

Definition ascii_lower (s : str) : str :=
  map (fun c => if ((65 <=? c) && (c <=? 90))%N then (c + 32)%N else c) s.

Definition ascii_isalnum (c : N) : bool :=
  ((48 <=? c) && (c <=? 57) || (65 <=? c) && (c <=? 90) || (97 <=? c) && (c <=? 122))%N.

Fixpoint digits (fuel : nat) (n : N) (acc : str) : str :=
  match fuel with
  | O => acc
  | S fuel' =>
      let acc' := (48 + n mod 10)%N :: acc in
      if (n / 10 =? 0)%N then acc' else digits fuel' (n / 10)%N acc'
  end.

Definition decimal (n : N) : str := digits 40 n [].

(** [{"role": "user", "content": "hi"}] inside a list: a turn the client
    sends back without its timestamp. *)
Definition bare_turn : json :=
  JObj [(lit "role", JStr (lit "user")); (lit "content", JStr (lit "hi"))].

Definition bare_history : str :=
  lit "[{" ++ dquote ++ lit "role" ++ dquote ++ lit ": " ++ dquote ++ lit "user" ++ dquote
  ++ lit ", " ++ dquote ++ lit "content" ++ dquote ++ lit ": " ++ dquote ++ lit "hi" ++ dquote
  ++ lit "}]".

Definition stamped_turn : json :=
  JObj [(lit "role", JStr (lit "assistant")); (lit "content", JStr (lit "yo"));
        (lit "timestamp", JNum (1700000000 # 1)%Q)].

Definition stamped_history : str :=
  lit "[{" ++ dquote ++ lit "role" ++ dquote ++ lit ": " ++ dquote ++ lit "assistant" ++ dquote
  ++ lit ", " ++ dquote ++ lit "content" ++ dquote ++ lit ": " ++ dquote ++ lit "yo" ++ dquote
  ++ lit ", " ++ dquote ++ lit "timestamp" ++ dquote ++ lit ": 1700000000}]".

Definition loads (s : str) : option json :=
  if eqb_str s (lit "[]") then Some (JArr [])
  else if eqb_str s bare_history then Some (JArr [bare_turn])
  else if eqb_str s stamped_history then Some (JArr [stamped_turn])
  else None.

Definition exn_text (e : exn) : str :=
  match e with
  | HTTPException code detail => decimal (N.of_nat code) ++ lit ": " ++ detail
  | JSONDecodeError => lit "Expecting value"
  | TypeError => lit "TypeError"
  | ValidationError => lit "validation error"
  | AttributeError => lit "'NoneType' object has no attribute 'isoformat'"
  | UnicodeDecodeError => lit "'utf-8' codec can't decode"
  | ResponseValidationError => lit "response validation error"
  | Exception m => m
  end.

(** [Name,Price] with three rows. *)
Definition prices_csv : str :=
  lit "Name,Price" ++ nl ++ lit "a,10" ++ nl ++ lit "b,20" ++ nl ++ lit "c,35" ++ nl.

Definition prices : DataFrame :=
  {| index_len := 3;
     columns := [(lit "Name", Object [Some (lit "a"); Some (lit "b"); Some (lit "c")]);
                 (lit "Price", Numeric [Some (Finite (10 # 1)); Some (Finite (20 # 1));
                                        Some (Finite (35 # 1))])] |}.

Definition parse_csv (s : str) : read_csv_result :=
  if eqb_str s prices_csv then Parsed prices
  else if truthy (strip s) then ParserError (lit "Error tokenizing data")
  else EmptyDataError.

Definition render_counts (counts : list nat) : str :=
  join (lit ", ") (map (fun n => decimal (N.of_nat n)) counts).

Definition render_Q (q : Q) : str :=
  decimal (Z.to_N (Qnum q)) ++ lit "/" ++ decimal (Npos (Qden q)).

Definition render_hist (h : hist_data) : str :=
  match h with
  | HistError e => lit "{error: " ++ e ++ lit "}"
  | Hist column bins counts =>
      lit "{column: " ++ column ++ lit ", bins: [" ++ join (lit ", ") (map render_Q bins)
      ++ lit "], counts: [" ++ render_counts counts ++ lit "]}"
  end.

Fixpoint finite_values (a : list number) : option (list Q) :=
  match a with
  | [] => Some []
  | Finite q :: rest =>
      match finite_values rest with
      | Some qs => Some (q :: qs)
      | None => None
      end
  | Infinite _ :: _ => None
  end.

Definition least (x : number) (xs : list number) : number :=
  fold_left (fun m v => if number_le v m then v else m) xs x.
Definition greatest (x : number) (xs : list number) : number :=
  fold_left (fun m v => if number_le m v then v else m) xs x.

(** A float as Python prints it, for whole numbers and infinities. *)
Definition render_number (x : number) : str :=
  match x with
  | Infinite false => lit "inf"
  | Infinite true => lit "-inf"
  | Finite q =>
      if (Qden q =? 1)%positive then
        (if (Qnum q <? 0)%Z then lit "-" else [])
        ++ decimal (Z.abs_N (Qnum q)) ++ lit ".0"
      else render_Q q
  end.

(** numpy where it computes exactly: the bins of the specification on
    finite values, and its [ValueError] when the range is not finite. *)
Definition histogram (a : list number) : str + (list nat * list Q) :=
  match finite_values a with
  | Some qs => inr (ten_bins qs)
  | None =>
      match a with
      | x :: xs =>
          inl (lit "autodetected range of [" ++ render_number (least x xs) ++ lit ", "
               ++ render_number (greatest x xs) ++ lit "] is not finite")
      | [] => inr (ten_bins [])
      end
  end.

(** The world, given what the model does when it is asked. *)
Definition world (answer : generation) (streamed : list stream_item) : Externals :=
  {| json_loads := loads;
     pydantic_str := fun j => match j with JStr s => Some s | _ => None end;
     pydantic_datetime := fun j =>
       match j with
       | JNum q => Some {| seconds := (Qnum q / Zpos (Qden q))%Z; microsecond := 0 |}
       | _ => None
       end;
     isoformat := fun t => lit "@" ++ decimal (Z.to_N (seconds t));
     str_of_exn := exn_text;
     generate_content := fun _ => answer;
     generate_content_stream := fun _ => streamed;
     lower := ascii_lower;
     isalnum := ascii_isalnum;
     decode_utf8_sig := fun bytes =>
       if forallb (fun b => (b <? 128)%N) bytes then Some bytes else None;
     requests_get := fun _ => None;
     write_file := fun _ _ => None;
     read_csv := parse_csv;
     str_shape := fun df => lit "(" ++ decimal (N.of_nat (index_len df)) ++ lit ", "
                            ++ decimal (N.of_nat (length (columns df))) ++ lit ")";
     str_dtypes := fun _ => lit "dtypes";
     str_isna_sum := fun _ => lit "isna";
     str_describe := fun _ => lit "describe";
     str_value_counts_head3 := fun _ => lit "value_counts";
     np_histogram := histogram;
     dumps_hist := render_hist;
     save_uploaded_image := fun _ => inr (lit "data/temp_uploads/cat.png");
     basename := fun p => last_segment p [];
     ask_gemini_with_image := fun _ _ => lit "a cat";
     ask_gemini_with_image_streaming := fun _ _ => ([lit "a "; lit "cat"], None) |}.

Definition noon : datetime := {| seconds := 1700000600; microsecond := 123456 |}.

(** The model streams two chunks. *)
Definition two_chunks : Externals :=
  world (GenText (lit " Hello world ")) [Frag (lit "Hello "); Frag (lit " world")].

(** The model streams one chunk, then the iteration raises. *)
Definition aborting : Externals :=
  world (GenRaise (lit "quota exceeded")) [Frag (lit "Hello"); Abort (lit "boom")].

(** The model answers with no text. *)
Definition silent : Externals := world (GenText []) [Frag (lit " ")].

Definition prices_upload : UploadFile :=
  {| filename := Some (lit "prices.csv"); content_bytes := prices_csv |}.

End Demo.

(* ================================================================= *)
(** ** What a run shows *)

(** The result of a computation started with nothing recorded. *)
Definition eval {A} (m : gen A) : outcome A := snd (fst (m initial)).

Definition events_of (r : http_response) : list event :=
  match r with
  | StreamingResponse evs => evs
  | _ => []
  end.

(** The fragments relayed to the client, in order. *)
Fixpoint chunks_of (evs : list event) : list str :=
  match evs with
  | [] => []
  | EvChunk c :: rest => c :: chunks_of rest
  | _ :: rest => chunks_of rest
  end.

Fixpoint replies_of (evs : list event) : list str :=
  match evs with
  | [] => []
  | EvReply r :: rest => r :: replies_of rest
  | _ :: rest => replies_of rest
  end.

Definition is_history (ev : event) : bool :=
  match ev with EvHistory _ _ => true | _ => false end.

Definition has_timestamp (m : ChatMessage) : Prop := timestamp m <> None.

(** The content of the last turn of [updated_history], once assigned. *)
Definition committed_content (s : run_state) : option str :=
  match updated_history s with
  | Some h => match rev h with
              | a :: _ => Some (content a)
              | [] => None
              end
  | None => None
  end.

(** Each fragment followed by one space, as [chat_router] accumulates them. *)
Definition spaced (chunks : list str) : str :=
  concat (map (fun c => c ++ lit " ") chunks).

Section Reading.
Context {E : Externals}.

(** The two statements that turn the [history] field into messages. *)
Definition read_history (history : str) : gen (list ChatMessage) :=
  history_list <- loads_history_guarded history ;;
  history_messages_of history_list.

(** What ends a stream after the history-update step: the terminal event
    when every timestamp serialises, the error event of the handler
    otherwise. *)
Definition closing_events (o : outcome (list json)) : list event :=
  match o with
  | Normal history_dict => [EvHistory history_dict (lit "complete")]
  | Raised e => [EvError (str_of_exn e)]
  | Returned => []
  end.

End Reading.

(* ================================================================= *)
(** ** The properties under study *)


(** A cell that is not missing. *)
Definition present {A} (cell : option A) : bool :=
  match cell with Some _ => true | None => false end.

(** The number of non-missing values of a column. *)
Definition non_missing (data : series) : nat :=
  match data with
  | Numeric values => length (filter present values)
  | Boolean values => length values
  | Object values => length (filter present values)
  end.

(** [cells] are the non-missing values of the numeric column [data], in
    the order of the rows ([True] as 1 and [False] as 0). *)
Definition non_missing_values (data : series) (cells : list number) : Prop :=
  match data with
  | Numeric values => filter present values = map Some cells
  | Boolean values => cells = map (fun b : bool => Finite (if b then 1%Q else 0%Q)) values
  | Object _ => False
  end.


Section Properties.
Context {E : Externals}.

(** An uploaded file that decodes, is not blank, is within the size limit
    and is written without error. *)
Definition upload_accepted (f : UploadFile) (content_text : str) : Prop :=
  decode_utf8_sig (content_bytes f) = Some content_text /\
  truthy (strip content_text) = true /\
  (MAX_CSV_SIZE <? N.of_nat (length (content_bytes f)))%N = false /\
  write_file (lit "data/processed/" ++ fmt (filename f)) (content_bytes f) = None.

(** A request that failed before the model was asked anything: nothing was
    sent to the model, and the client got a lone error event or an error
    status. *)
Definition early_failure (r : http_response * run_state) : Prop :=
  calls (snd r) = [] /\
  match fst r with
  | StreamingResponse evs => exists e, evs = [EvError e]
  | Unhandled _ => True
  | _ => False
  end.

(** Reconciliation, for the result [r] of a request whose form field was
    [history]: once [updated_history] is assigned it is the prior messages
    followed by a user turn and an assistant turn; the history a client
    receives is that list; an early failure assigns nothing. *)
Definition appends_two_turns (history : str) (r : http_response * run_state) : Prop :=
  (forall h, updated_history (snd r) = Some h ->
     exists H u a,
       eval (read_history history) = Normal H /\
       h = H ++ [u; a] /\ role u = lit "user" /\ role a = lit "assistant" /\
       length h = length H + 2)
  /\ (forall history_dict st, In (EvHistory history_dict st) (events_of (fst r)) ->
        exists h, updated_history (snd r) = Some h /\ length history_dict = length h)
  /\ (forall reply h, fst r = Response reply h -> updated_history (snd r) = Some h)
  /\ (early_failure r ->
        updated_history (snd r) = None /\
        forall history_dict st, ~ In (EvHistory history_dict st) (events_of (fst r))).

(** [j] is a dict a stream can send for the turn [m]: it holds the turn's
    role, its content, and its timestamp as text. *)
Definition serialises (m : ChatMessage) (j : json) : Prop :=
  exists members t,
    j = JObj members /\
    lookup (lit "role") members = Some (JStr (role m)) /\
    lookup (lit "content") members = Some (JStr (content m)) /\
    timestamp m = Some t /\
    lookup (lit "timestamp") members = Some (JStr (isoformat t)).

(** The client receives the history [h]: as the body of the response, or
    serialised, turn by turn, in the event that ends the stream. *)
Definition history_returned (r : http_response) (h : list ChatMessage) : Prop :=
  match r with
  | StreamingResponse evs =>
      exists body history_dict,
        evs = body ++ [EvHistory history_dict (lit "complete")] /\
        Forall2 serialises h history_dict
  | Response _ h' => h' = h
  | Unhandled _ => False
  end.

(** The roles of the history the client receives, entry by entry. *)
Definition entry_has_role (r : str) (j : json) : Prop :=
  exists members, j = JObj members /\ lookup (lit "role") members = Some (JStr r).

Definition roles_returned (r : http_response) (roles : list str) : Prop :=
  match r with
  | StreamingResponse evs =>
      exists body history_dict,
        evs = body ++ [EvHistory history_dict (lit "complete")] /\
        Forall2 entry_has_role roles history_dict
  | Response _ h => map role h = roles
  | Unhandled _ => False
  end.

(** C1 as it is stated: once the handler has reached the history-update
    step, the history the client receives has two entries more than the
    prior history, the two with roles [user] then [assistant]. *)
Definition returns_two_more (history : str) (r : http_response * run_state) : Prop :=
  forall h, updated_history (snd r) = Some h ->
    exists H roles,
      eval (read_history history) = Normal H /\
      roles_returned (fst r) roles /\
      length roles = length H + 2 /\
      skipn (length H) roles = [lit "user"; lit "assistant"].


(** The committed assistant text is the relayed fragments put together with
    nothing between them. *)
Definition commits_concatenation (r : http_response * run_state) : Prop :=
  forall text, committed_content (snd r) = Some text ->
               text = concat (chunks_of (events_of (fst r))).

(** The committed assistant text is the relayed fragments, each followed by
    a space, stripped. *)
Definition commits_spaced (r : http_response * run_state) : Prop :=
  forall text, committed_content (snd r) = Some text ->
               text = strip (spaced (chunks_of (events_of (fst r)))).

(** A text-chat stream whose model iteration raises [e] after the
    fragments [texts], some of them relayed: no history event is emitted. *)
Definition abort_ends_stream (message history : str) (now : datetime) : Prop :=
  forall H texts e,
    eval (read_history history) = Normal H ->
    generate_content_stream (Messages (gemini_messages H message))
      = map Frag texts ++ [Abort e] ->
    text_chunks (map Frag texts) <> [] ->
    existsb is_history (events_of (fst (chat message true history now))) = false.

(** The model call failed or produced no text. *)
Definition failed_or_silent (g : generation) : Prop :=
  g = GenText [] \/ exists e, g = GenRaise e.

(** A non-streaming text chat whose model call fails or is silent answers
    with a text that starts with the error marker, and commits it. *)
Definition failure_reply_marked (message history : str) (now : datetime) : Prop :=
  forall H,
    eval (read_history history) = Normal H ->
    failed_or_silent (generate_content (Messages (gemini_messages H message))) ->
    exists reply h,
      fst (chat message false history now) = Response reply h /\
      startswith reply cross_mark = true /\
      committed_content (snd (chat message false history now)) = Some reply.

(** A CSV stream that ends without raising, with at least one non-empty
    chunk, yields the chunks and then their stripped concatenation. *)
Definition repeats_answer (file_name : option str) (texts : list str) : Prop :=
  (exists t, In t texts /\ t <> []) ->
  data_chunks file_name (map Frag texts) []
    = filter truthy texts ++ [strip (concat texts)].

(** A CSV analysis request that reaches the model: the upload is accepted
    and the question is no histogram request. *)
Definition reaches_model (question : str) (f : UploadFile) (content_text : str) : Prop :=
  upload_accepted f content_text /\ histogram_match question = None.

(** The prompt such a request sends. *)
Definition analysis_prompt (question : str) (f : UploadFile) (content_text : str) : prompt :=
  FullPrompt (full_prompt question (summarize_csv content_text)
                (Some (or_else (filename f) (lit "uploaded_file.csv")))).

End Properties.

(** Decoding, validation and serialisation emit nothing and leave the
    record alone: such a computation is [quiet], and its result is its
    [eval]. *)
Definition quiet {A} (m : gen A) : Prop := forall s, m s = ([], eval m, s).

(** The step that closes the goals about the two appended turns. *)
Ltac new_turns H0 :=
  let h := fresh "h" in let Hh := fresh "Hh" in
  intros h Hh; simpl in Hh; first [discriminate Hh | injection Hh as <-];
  eexists H0, _, _; repeat split; try eassumption;
  rewrite length_app; simpl; lia.

(* ================================================================= *)
(** ** Further properties of the handlers *)

(** The events that end a stream. *)
Definition is_terminal (ev : event) : bool :=
  match ev with
  | EvHistory _ _ | EvError _ => true
  | _ => false
  end.

(** A stream in order: fragments only, or one reply, or nothing, and then
    one terminal event. *)
Definition orderly (evs : list event) : Prop :=
  exists body final,
    evs = body ++ [final] /\ is_terminal final = true /\
    ((exists chunks, body = map EvChunk chunks) \/ (exists r, body = [EvReply r])).

(** A computation that ends normally or raises an exception among [P]. *)
Definition raises_only {A} (P : exn -> Prop) (m : gen A) : Prop :=
  match eval m with
  | Normal _ => True
  | Raised e => P e
  | Returned => False
  end.

(** An item of a decoded [history] that cannot become a message: it is no
    dict, or it is a dict without [role] or without [content]. *)
Definition no_message (item : json) : Prop :=
  match item with
  | JObj members =>
      lookup (lit "role") members = None \/ lookup (lit "content") members = None
  | _ => True
  end.

(** A decoded [history] that is no list of messages: a number, a boolean
    or [null], which cannot be iterated; a non-empty string or dict, whose
    characters or keys are no dicts; a list with an item that cannot become
    a message. *)
Definition no_message_list (v : json) : Prop :=
  match v with
  | JNull | JBool _ | JNum _ => True
  | JStr s => s <> []
  | JObj members => members <> []
  | JArr items => Exists no_message items
  end.

(** What turning decoded JSON into messages can raise, and what reading the
    [history] field can raise. *)
Definition validation_error (e : exn) : Prop := e = TypeError \/ e = ValidationError.

Definition reading_error (e : exn) : Prop :=
  e = HTTPException 422 (lit "Invalid JSON in history") \/ validation_error e.

(** [t] occurs in [s]. *)
Definition contains (s t : str) : Prop := exists before after, s = before ++ t ++ after.

(** The literals of [trigger_words], in order. *)
Definition trigger_literals : list str :=
  [lit "histogram";
   [118; 183; 8747; 937; 32; 98; 105; 183; 170; 201; 117; 32; 402; 235; 183; 170; 236]%N;
   [98; 105; 183; 170; 201; 117; 32; 402; 235; 183; 170; 236; 32; 112; 104; 8730; 162;
    110; 32; 112; 104; 183; 170; 235; 105]%N;
   [112; 104; 8730; 162; 110; 32; 112; 104; 183; 170; 235; 105]%N;
   [118; 183; 8747; 937; 32; 104; 105; 115; 116; 111; 103; 114; 97; 109]%N;
   lit "plot"; lit "chart"; lit "graph"].

(** A pattern that captures nothing. *)
Fixpoint groupless (r : regex) : Prop :=
  match r with
  | Group _ _ => False
  | Seq r1 r2 | Alt r1 r2 => groupless r1 /\ groupless r2
  | _ => True
  end.

Section MoreProperties.
Context {E : Externals}.

(** The two statements of [image_router] that turn the [history] field
    into messages. *)
Definition read_history_unguarded (history : str) : gen (list ChatMessage) :=
  history_list <- loads_history history ;;
  history_messages_of history_list.

End MoreProperties.

(** Worlds for further examples: [base] with another decoder, another
    download, another byte decoder and another image service. *)
Module Cases.

Definition variant (base : Externals) (loads : str -> option json)
    (get : str -> option str) (decode : list N -> option str)
    (image : str -> str -> list str * option exn) : Externals :=
  {| json_loads := loads;
     pydantic_str := @pydantic_str base;
     pydantic_datetime := @pydantic_datetime base;
     isoformat := @isoformat base;
     str_of_exn := @str_of_exn base;
     generate_content := @generate_content base;
     generate_content_stream := @generate_content_stream base;
     lower := @lower base;
     isalnum := @isalnum base;
     decode_utf8_sig := decode;
     requests_get := get;
     write_file := @write_file base;
     read_csv := @read_csv base;
     str_shape := @str_shape base;
     str_dtypes := @str_dtypes base;
     str_isna_sum := @str_isna_sum base;
     str_describe := @str_describe base;
     str_value_counts_head3 := @str_value_counts_head3 base;
     np_histogram := @np_histogram base;
     dumps_hist := @dumps_hist base;
     save_uploaded_image := @save_uploaded_image base;
     basename := @basename base;
     ask_gemini_with_image := @ask_gemini_with_image base;
     ask_gemini_with_image_streaming := image |}.

(** A decoder that also knows three payloads that are JSON but no list of
    messages: [5], [[5]] and [[{}]]. *)
Definition loose_loads (s : str) : option json :=
  if eqb_str s (lit "5") then Some (JNum (5 # 1)%Q)
  else if eqb_str s (lit "[5]") then Some (JArr [JNum (5 # 1)%Q])
  else if eqb_str s (lit "[{}]") then Some (JArr [JObj []])
  else Demo.loads s.

Definition loose : Externals :=
  variant Demo.two_chunks loose_loads (@requests_get Demo.two_chunks)
    (@decode_utf8_sig Demo.two_chunks) (@ask_gemini_with_image_streaming Demo.two_chunks).

(** Every URL serves the price table. *)
Definition online : Externals :=
  variant Demo.two_chunks Demo.loads (fun _ => Some Demo.prices_csv)
    (@decode_utf8_sig Demo.two_chunks) (@ask_gemini_with_image_streaming Demo.two_chunks).

(** The image service yields one chunk and raises. *)
Definition blurred : Externals :=
  variant Demo.two_chunks Demo.loads (@requests_get Demo.two_chunks)
    (@decode_utf8_sig Demo.two_chunks)
    (fun _ _ => ([lit "a "], Some (Exception (lit "image unreadable")))).

(** Whatever the bytes, they decode to one line of text. *)
Definition lenient : Externals :=
  variant Demo.two_chunks Demo.loads (@requests_get Demo.two_chunks)
    (fun _ => Some (lit "a,b")) (@ask_gemini_with_image_streaming Demo.two_chunks).

(** An upload of one byte more than fifty mebibytes. *)
Definition huge_upload : UploadFile :=
  {| filename := Some (lit "huge.csv");
     content_bytes := repeat 0%N (N.to_nat (MAX_CSV_SIZE + 1)) |}.

(** A table whose one numeric column holds an infinity, and a world that
    reads it. *)
Definition unbounded_csv : str := lit "x" ++ nl ++ lit "1" ++ nl ++ lit "inf" ++ nl.

Definition unbounded_table : DataFrame :=
  {| index_len := 2;
     columns := [(lit "x", Numeric [Some (Finite (1 # 1)); Some (Infinite false)])] |}.

Definition unbounded : Externals :=
  {| json_loads := @json_loads Demo.two_chunks;
     pydantic_str := @pydantic_str Demo.two_chunks;
     pydantic_datetime := @pydantic_datetime Demo.two_chunks;
     isoformat := @isoformat Demo.two_chunks;
     str_of_exn := @str_of_exn Demo.two_chunks;
     generate_content := @generate_content Demo.two_chunks;
     generate_content_stream := @generate_content_stream Demo.two_chunks;
     lower := @lower Demo.two_chunks;
     isalnum := @isalnum Demo.two_chunks;
     decode_utf8_sig := @decode_utf8_sig Demo.two_chunks;
     requests_get := @requests_get Demo.two_chunks;
     write_file := @write_file Demo.two_chunks;
     read_csv := fun s => if eqb_str s unbounded_csv then Parsed unbounded_table
                          else Demo.parse_csv s;
     str_shape := @str_shape Demo.two_chunks;
     str_dtypes := @str_dtypes Demo.two_chunks;
     str_isna_sum := @str_isna_sum Demo.two_chunks;
     str_describe := @str_describe Demo.two_chunks;
     str_value_counts_head3 := @str_value_counts_head3 Demo.two_chunks;
     np_histogram := @np_histogram Demo.two_chunks;
     dumps_hist := @dumps_hist Demo.two_chunks;
     save_uploaded_image := @save_uploaded_image Demo.two_chunks;
     basename := @basename Demo.two_chunks;
     ask_gemini_with_image := @ask_gemini_with_image Demo.two_chunks;
     ask_gemini_with_image_streaming := @ask_gemini_with_image_streaming Demo.two_chunks |}.

Definition unbounded_upload : UploadFile :=
  {| filename := Some (lit "unbounded.csv"); content_bytes := unbounded_csv |}.

(** An upload with blank content. *)
Definition blank_upload : UploadFile :=
  {| filename := Some (lit "empty.csv"); content_bytes := lit "  " ++ nl |}.

(** An upload that is no CSV the parser accepts. *)
Definition garbled_upload : UploadFile :=
  {| filename := Some (lit "notes.csv"); content_bytes := lit "a,b" ++ nl ++ lit "1,2,3" |}.

End Cases.


(** What a match of a pattern is: [reaches word r c c'] holds when [r] can
    take the matcher from [c] to [c'].  [run] is checked against it. *)
Fixpoint reaches (word : N -> bool) (r : regex) (c c' : cursor) : Prop :=
  match r with
  | Eps => c' = c
  | Lit s =>
      startswith (ahead c) s = true /\
      c' = {| behind := last_or (behind c) s;
              ahead := skipn (length s) (ahead c);
              groups := groups c |}
  | Star p =>
      exists w, Forall (fun x => p x = true) w /\
                ahead c = w ++ ahead c' /\ groups c' = groups c
  | Opt p =>
      c' = c \/
      exists x, p x = true /\ ahead c = x :: ahead c' /\ groups c' = groups c
  | PlusLazy p =>
      exists w, w <> [] /\ Forall (fun x => p x = true) w /\
                ahead c = w ++ ahead c' /\ groups c' = groups c
  | Seq r1 r2 => exists c1, reaches word r1 c c1 /\ reaches word r2 c1 c'
  | Alt r1 r2 => reaches word r1 c c' \/ reaches word r2 c c'
  | Group n r1 =>
      exists c1, reaches word r1 c c1 /\
                 c' = {| behind := behind c1;
                         ahead := ahead c1;
                         groups := (n, firstn (length (ahead c) - length (ahead c1)) (ahead c))
                                   :: groups c1 |}
  | EndAnchor => c' = c /\ (ahead c = [] \/ ahead c = [10%N])
  | WordBoundary =>
      c' = c /\ xorb (is_word word (behind c)) (is_word word (hd_error (ahead c))) = true
  end.

(** What reading back a serialised turn keeps: every endpoint writes the
    role, the content and the timestamp; [image] and [file] tell whether it
    also writes [image_url] and [file_url]. *)
Definition kept (image file : bool) (m : ChatMessage) : ChatMessage :=
  {| role := role m;
     content := content m;
     timestamp := timestamp m;
     image_url := if image then image_url m else None;
     file_url := if file then file_url m else None |}.

Section RoundTrip.
Context {E : Externals}.

(** The validator reads the written form of the turn's timestamp as that
    timestamp. *)
Definition timestamp_round_trips (m : ChatMessage) : Prop :=
  exists t, timestamp m = Some t /\ pydantic_datetime (JStr (isoformat t)) = Some t.

(** A string field accepts every string. *)
Definition strings_validate : Prop := forall s, pydantic_str (JStr s) = Some s.

(** The next request's [history] field holds the list [history_dict]. *)
Definition sent_back (history : str) (history_dict : list json) : Prop :=
  truthy history = true /\ json_loads history = Some (JArr history_dict).

End RoundTrip.

(** A world whose validator reads the time stamps its serialiser writes,
    and whose decoder knows one history event sent back. *)
Module Echo.

Fixpoint number (s : str) (acc : N) : option N :=
  match s with
  | [] => Some acc
  | c :: s' =>
      if ((48 <=? c) && (c <=? 57))%N then number s' (10 * acc + (c - 48))%N else None
  end.

Definition read_time (j : json) : option datetime :=
  match j with
  | JStr (64%N :: digits) =>
      match number digits 0 with
      | Some n => Some {| seconds := Z.of_N n; microsecond := 0 |}
      | None => None
      end
  | _ => None
  end.

Definition turn : ChatMessage :=
  {| role := lit "user"; content := lit "mean of price?";
     timestamp := Some {| seconds := 1700000600; microsecond := 0 |};
     image_url := Some (lit "http://127.0.0.1:8000/temp_uploads/cat.png");
     file_url := Some (lit "data/processed/prices.csv") |}.

Definition written : list json :=
  [JObj [(lit "role", JStr (lit "user"));
         (lit "content", JStr (lit "mean of price?"));
         (lit "file_url", JStr (lit "data/processed/prices.csv"));
         (lit "timestamp", JStr (lit "@1700000600"))]].

Definition in_quotes (s : str) : str := dquote ++ s ++ dquote.

(** [written] as JSON text. *)
Definition echo : str :=
  lit "[{" ++ in_quotes (lit "role") ++ lit ": " ++ in_quotes (lit "user")
  ++ lit ", " ++ in_quotes (lit "content") ++ lit ": " ++ in_quotes (lit "mean of price?")
  ++ lit ", " ++ in_quotes (lit "file_url") ++ lit ": "
  ++ in_quotes (lit "data/processed/prices.csv")
  ++ lit ", " ++ in_quotes (lit "timestamp") ++ lit ": " ++ in_quotes (lit "@1700000600")
  ++ lit "}]".

Definition world : Externals :=
  {| json_loads := fun s => if eqb_str s echo then Some (JArr written) else Demo.loads s;
     pydantic_str := @pydantic_str Demo.two_chunks;
     pydantic_datetime := read_time;
     isoformat := @isoformat Demo.two_chunks;
     str_of_exn := @str_of_exn Demo.two_chunks;
     generate_content := @generate_content Demo.two_chunks;
     generate_content_stream := @generate_content_stream Demo.two_chunks;
     lower := @lower Demo.two_chunks;
     isalnum := @isalnum Demo.two_chunks;
     decode_utf8_sig := @decode_utf8_sig Demo.two_chunks;
     requests_get := @requests_get Demo.two_chunks;
     write_file := @write_file Demo.two_chunks;
     read_csv := @read_csv Demo.two_chunks;
     str_shape := @str_shape Demo.two_chunks;
     str_dtypes := @str_dtypes Demo.two_chunks;
     str_isna_sum := @str_isna_sum Demo.two_chunks;
     str_describe := @str_describe Demo.two_chunks;
     str_value_counts_head3 := @str_value_counts_head3 Demo.two_chunks;
     np_histogram := @np_histogram Demo.two_chunks;
     dumps_hist := @dumps_hist Demo.two_chunks;
     save_uploaded_image := @save_uploaded_image Demo.two_chunks;
     basename := @basename Demo.two_chunks;
     ask_gemini_with_image := @ask_gemini_with_image Demo.two_chunks;
     ask_gemini_with_image_streaming := @ask_gemini_with_image_streaming Demo.two_chunks |}.

End Echo.
(* ================================================================= *)
(** ** Computations that only compute *)

Lemma quiet_ret {A} (a : A) : quiet (ret a).
Proof. intro s. reflexivity. Qed.

Lemma quiet_raise {A} (e : exn) : quiet (@raise A e).
Proof. intro s. reflexivity. Qed.

Lemma bind_quiet_run {A B} (m : gen A) (k : A -> gen B) (s : run_state) :
  quiet m ->
  bind m k s = match eval m with
               | Normal a => k a s
               | Raised e => ([], Raised e, s)
               | Returned => ([], Returned, s)
               end.
Proof.
  intro Hm. unfold bind. rewrite (Hm s).
  destruct (eval m); [ destruct (k a s) as [[evs o] s'] | | ]; reflexivity.
Qed.

Lemma eval_bind {A B} (m : gen A) (k : A -> gen B) :
  quiet m ->
  eval (bind m k) = match eval m with
                    | Normal a => eval (k a)
                    | Raised e => Raised e
                    | Returned => Returned
                    end.
Proof.
  intro Hm. unfold eval at 1. rewrite bind_quiet_run by assumption.
  destruct (eval m); reflexivity.
Qed.

Lemma quiet_bind {A B} (m : gen A) (k : A -> gen B) :
  quiet m -> (forall a, quiet (k a)) -> quiet (bind m k).
Proof.
  intros Hm Hk s. rewrite bind_quiet_run, eval_bind by assumption.
  destruct (eval m); try reflexivity. apply Hk.
Qed.

Lemma quiet_for_each {A B} (f : A -> gen B) (xs : list A) :
  (forall x, quiet (f x)) -> quiet (for_each f xs).
Proof.
  intro Hf. induction xs as [|x xs IH]; simpl.
  - apply quiet_ret.
  - apply quiet_bind; [apply Hf|]. intro y.
    apply quiet_bind; [apply IH|]. intro ys. apply quiet_ret.
Qed.

Lemma eval_for_each_cons {A B} (f : A -> gen B) (x : A) (xs : list A) :
  (forall x, quiet (f x)) ->
  eval (for_each f (x :: xs)) =
  match eval (f x) with
  | Normal y => match eval (for_each f xs) with
                | Normal ys => Normal (y :: ys)
                | Raised e => Raised e
                | Returned => Returned
                end
  | Raised e => Raised e
  | Returned => Returned
  end.
Proof.
  intro Hf. simpl. rewrite eval_bind by apply Hf.
  destruct (eval (f x)); try reflexivity.
  rewrite eval_bind by (apply quiet_for_each, Hf).
  destruct (eval (for_each f xs)); reflexivity.
Qed.

Lemma for_each_length {A B} (f : A -> gen B) (xs : list A) (ys : list B) :
  (forall x, quiet (f x)) ->
  eval (for_each f xs) = Normal ys -> length ys = length xs.
Proof.
  intro Hf. revert ys. induction xs as [|x xs IH]; intros ys H.
  - cbv in H. injection H as <-. reflexivity.
  - rewrite eval_for_each_cons in H by assumption.
    destruct (eval (f x)); try discriminate.
    destruct (eval (for_each f xs)) as [ys'| |]; try discriminate.
    injection H as <-. simpl. f_equal. apply IH. reflexivity.
Qed.

Section ReadingFacts.
Context {E : Externals}.

Lemma quiet_loads_history_guarded (history : str) : quiet (loads_history_guarded history).
Proof.
  unfold loads_history_guarded.
  destruct (truthy history); [destruct (json_loads history)|];
    first [apply quiet_ret | apply quiet_raise].
Qed.

Lemma quiet_loads_history (history : str) : quiet (loads_history history).
Proof.
  unfold loads_history.
  destruct (truthy history); [destruct (json_loads history)|];
    first [apply quiet_ret | apply quiet_raise].
Qed.

Lemma quiet_iterate (v : json) : quiet (iterate v).
Proof. destruct v; first [apply quiet_ret | apply quiet_raise]. Qed.

Lemma quiet_required {A} (parse : json -> option A) (v : option json) :
  quiet (required parse v).
Proof.
  destruct v as [j|]; simpl; [destruct (parse j)|];
    first [apply quiet_ret | apply quiet_raise].
Qed.

Lemma quiet_optional {A} (parse : json -> option A) (v : option json) :
  quiet (optional parse v).
Proof.
  destruct v as [j|]; simpl; [|apply quiet_ret].
  destruct j; try apply quiet_ret; simpl;
    match goal with |- context [parse ?j] => destruct (parse j) end;
    first [apply quiet_ret | apply quiet_raise].
Qed.

Lemma quiet_validate_message (msg : json) : quiet (validate_message msg).
Proof.
  destruct msg; try apply quiet_raise. simpl.
  repeat (apply quiet_bind;
          [first [apply quiet_required | apply quiet_optional] | intro]).
  apply quiet_ret.
Qed.

Lemma quiet_history_messages_of (v : json) : quiet (history_messages_of v).
Proof.
  apply quiet_bind; [apply quiet_iterate|]. intro items.
  apply quiet_for_each, quiet_validate_message.
Qed.

(** Binding the two reading statements is binding [read_history]. *)
Lemma read_history_bind {B} (history : str) (k : list ChatMessage -> gen B) (s : run_state) :
  bind (loads_history_guarded history)
       (fun history_list => bind (history_messages_of history_list) k) s
  = match eval (read_history history) with
    | Normal H => k H s
    | Raised e => ([], Raised e, s)
    | Returned => ([], Returned, s)
    end.
Proof.
  rewrite bind_quiet_run by apply quiet_loads_history_guarded.
  unfold read_history. rewrite eval_bind by apply quiet_loads_history_guarded.
  destruct (eval (loads_history_guarded history)); try reflexivity.
  apply bind_quiet_run, quiet_history_messages_of.
Qed.

(** The messages read are as many as the items of the decoded list. *)
Lemma read_history_length (history : str) (items : list json) (H : list ChatMessage) :
  truthy history = true ->
  json_loads history = Some (JArr items) ->
  eval (read_history history) = Normal H ->
  length H = length items.
Proof.
  intros Ht Hj. unfold read_history.
  rewrite eval_bind by apply quiet_loads_history_guarded.
  unfold loads_history_guarded. rewrite Ht, Hj.
  change (eval (ret (JArr items))) with (@Normal json (JArr items)). cbv iota.
  unfold history_messages_of. rewrite eval_bind by apply quiet_iterate.
  change (eval (iterate (JArr items))) with (@Normal (list json) items). cbv iota.
  apply for_each_length, quiet_validate_message.
Qed.

Lemma quiet_timestamp_isoformat (msg : ChatMessage) : quiet (timestamp_isoformat msg).
Proof.
  unfold timestamp_isoformat. destruct (timestamp msg);
    first [apply quiet_ret | apply quiet_raise].
Qed.

Lemma quiet_chat_history_entry (msg : ChatMessage) : quiet (chat_history_entry msg).
Proof.
  apply quiet_bind; [apply quiet_timestamp_isoformat | intro; apply quiet_ret].
Qed.

Lemma quiet_csv_history_entry (msg : ChatMessage) : quiet (csv_history_entry msg).
Proof.
  apply quiet_bind; [apply quiet_timestamp_isoformat | intro; apply quiet_ret].
Qed.

End ReadingFacts.

Section ChatRuns.
Context {E : Externals}.

Lemma eval_chat_history_entry (msg : ChatMessage) :
  eval (chat_history_entry msg) =
  match timestamp msg with
  | Some t => Normal (JObj [(lit "role", JStr (role msg));
                            (lit "content", JStr (content msg));
                            (lit "timestamp", JStr (isoformat t))])
  | None => Raised AttributeError
  end.
Proof.
  unfold chat_history_entry. rewrite eval_bind by apply quiet_timestamp_isoformat.
  unfold timestamp_isoformat. destruct (timestamp msg); reflexivity.
Qed.

Lemma relay_spaced_run (chunks : list str) (acc : str) (s : run_state) :
  relay_spaced chunks acc s = (map EvChunk chunks, Normal (acc ++ spaced chunks), s).
Proof.
  revert acc. induction chunks as [|c chunks IH]; intro acc; simpl.
  - unfold ret, spaced. simpl. now rewrite app_nil_r.
  - unfold bind, yield. rewrite IH. unfold spaced. simpl.
    now rewrite <- !app_assoc.
Qed.

Lemma chat_stream_response_run (message history : str) (now : datetime) :
  chat_stream_response message true history now initial =
  match eval (read_history history) with
  | Normal H =>
      let messages := gemini_messages H message in
      let chunks := text_chunks (generate_content_stream (Messages messages)) in
      let updated := H ++ [user_turn message None None (replace_microsecond_0 now);
                            assistant_turn (strip (spaced chunks)) (replace_microsecond_0 now)] in
      (map EvChunk chunks ++ closing_events (eval (for_each chat_history_entry updated)),
       match eval (for_each chat_history_entry updated) with
       | Returned => Returned
       | _ => Normal tt
       end,
       {| calls := [Messages messages]; updated_history := Some updated |})
  | Raised e => ([EvError (str_of_exn e)], Normal tt, initial)
  | Returned => ([], Returned, initial)
  end.
Proof.
  unfold chat_stream_response, try_except.
  rewrite read_history_bind.
  destruct (eval (read_history history)) as [H|e|]; try reflexivity.
  unfold ask_gemini_text_streaming, bind, invoke, ret, assign_updated_history, yield.
  simpl. rewrite relay_spaced_run. simpl.
  rewrite (quiet_for_each chat_history_entry _ quiet_chat_history_entry).
  destruct (eval (for_each chat_history_entry _)); simpl;
    rewrite ?app_nil_r; reflexivity.
Qed.
End ChatRuns.

Section MoreRuns.
Context {E : Externals}.

Lemma chat_streaming_run (message history : str) (now : datetime) :
  chat message true history now =
  (StreamingResponse (fst (fst (chat_stream_response message true history now initial))),
   snd (chat_stream_response message true history now initial)).
Proof. reflexivity. Qed.

Lemma chat_atomic_run (message history : str) (now : datetime) :
  chat message false history now =
  match eval (read_history history) with
  | Normal H =>
      let messages := gemini_messages H message in
      let response := text_reply (generate_content (Messages messages)) in
      let updated := H ++ [user_turn message None None (replace_microsecond_0 now);
                            assistant_turn response (replace_microsecond_0 now)] in
      (match eval (for_each chat_history_entry updated) with
       | Normal _ => Response response updated
       | Raised e => Unhandled e
       | Returned => Unhandled (Exception [])
       end,
       {| calls := [Messages messages]; updated_history := Some updated |})
  | Raised e => (Unhandled e, initial)
  | Returned => (Unhandled (Exception []), initial)
  end.
Proof.
  unfold chat, respond.
  rewrite read_history_bind.
  destruct (eval (read_history history)) as [H|e|]; try reflexivity.
  unfold ask_gemini_text, bind, invoke, ret, assign_updated_history.
  simpl.
  rewrite (quiet_for_each chat_history_entry _ quiet_chat_history_entry).
  destruct (eval (for_each chat_history_entry _)); reflexivity.
Qed.

(** Serialisation succeeds exactly when every turn carries a timestamp. *)
Lemma serialise_present (entry : ChatMessage -> gen json) (l : list ChatMessage) :
  (forall m, quiet (entry m)) ->
  (forall m, has_timestamp m -> exists j, eval (entry m) = Normal j) ->
  Forall has_timestamp l ->
  exists history_dict,
    eval (for_each entry l) = Normal history_dict /\ length history_dict = length l.
Proof.
  intros Hq He Hl. induction Hl as [|m l Hm Hl IH].
  - exists []. split; reflexivity.
  - destruct IH as [hd [IH1 IH2]]. destruct (He m Hm) as [j Hj].
    exists (j :: hd). rewrite eval_for_each_cons, Hj, IH1 by assumption.
    split; [reflexivity | simpl; now rewrite IH2].
Qed.

Lemma serialise_absent (entry : ChatMessage -> gen json) (l : list ChatMessage) :
  (forall m, quiet (entry m)) ->
  (forall m, eval (entry m) = Raised AttributeError \/ exists j, eval (entry m) = Normal j) ->
  (forall m, timestamp m = None -> eval (entry m) = Raised AttributeError) ->
  Exists (fun m => timestamp m = None) l ->
  eval (for_each entry l) = Raised AttributeError.
Proof.
  intros Hq Hcases Hnone Hl. induction Hl as [m l Hm | m l Hl IH];
    rewrite eval_for_each_cons by assumption.
  - now rewrite (Hnone m Hm).
  - destruct (Hcases m) as [-> | [j ->]]; [reflexivity | now rewrite IH].
Qed.

Lemma chat_entry_present (m : ChatMessage) :
  has_timestamp m -> exists j, eval (chat_history_entry m) = Normal j.
Proof.
  unfold has_timestamp. rewrite eval_chat_history_entry.
  destruct (timestamp m); [eauto | congruence].
Qed.

Lemma chat_entry_cases (m : ChatMessage) :
  eval (chat_history_entry m) = Raised AttributeError
  \/ exists j, eval (chat_history_entry m) = Normal j.
Proof. rewrite eval_chat_history_entry. destruct (timestamp m); eauto. Qed.

Lemma chat_entry_absent (m : ChatMessage) :
  timestamp m = None -> eval (chat_history_entry m) = Raised AttributeError.
Proof. intro H. now rewrite eval_chat_history_entry, H. Qed.

Lemma new_turns_stamped (H : list ChatMessage) (u a : str) (i f : option str) (t : datetime) :
  Forall has_timestamp H ->
  Forall has_timestamp (H ++ [user_turn u i f t; assistant_turn a t]).
Proof.
  intro HH. apply Forall_app. split; [assumption|].
  repeat constructor; unfold has_timestamp; simpl; discriminate.
Qed.

Lemma old_turn_unstamped (H : list ChatMessage) (rest : list ChatMessage) :
  Exists (fun m => timestamp m = None) H ->
  Exists (fun m => timestamp m = None) (H ++ rest).
Proof. intro HH. apply Exists_app. now left. Qed.

End MoreRuns.

Section CsvRuns.
Context {E : Externals}.

Lemma eval_csv_history_entry (msg : ChatMessage) :
  eval (csv_history_entry msg) =
  match timestamp msg with
  | Some t => Normal (JObj [(lit "role", JStr (role msg));
                            (lit "content", JStr (content msg));
                            (lit "file_url", opt_json (file_url msg));
                            (lit "timestamp", JStr (isoformat t))])
  | None => Raised AttributeError
  end.
Proof.
  unfold csv_history_entry. rewrite eval_bind by apply quiet_timestamp_isoformat.
  unfold timestamp_isoformat. destruct (timestamp msg); reflexivity.
Qed.

Lemma relay_plain_run (chunks : list str) (acc : str) (s : run_state) :
  relay_plain chunks acc s = (map EvChunk chunks, Normal (acc ++ concat chunks), s).
Proof.
  revert acc. induction chunks as [|c chunks IH]; intro acc; simpl.
  - unfold ret. now rewrite app_nil_r.
  - unfold bind, yield. rewrite IH. simpl. now rewrite <- app_assoc.
Qed.

(** Loading leaves the record alone; it emits an event only when it
    returns early. *)
Lemma load_csv_streaming_shape (file : option UploadFile) (url : option str) (s : run_state) :
  exists evs o,
    load_csv_streaming file url s = (evs, o, s) /\
    match o with
    | Returned => exists e, evs = [EvError e]
    | _ => evs = []
    end.
Proof.
  unfold load_csv_streaming, save_uploaded_csv, download_csv_from_url.
  destruct file as [f|].
  - destruct (decode_utf8_sig (content_bytes f)) as [text|]; [|repeat esplit].
    destruct (truthy (strip text)); simpl; [|repeat esplit].
    destruct (MAX_CSV_SIZE <? _)%N; [repeat esplit|].
    destruct (write_file _ _); repeat esplit.
  - destruct url as [u|]; [|repeat esplit].
    destruct (truthy u); [|repeat esplit].
    destruct (requests_get u); repeat esplit.
Qed.

Lemma load_csv_shape (file : option UploadFile) (url : option str) (s : run_state) :
  exists o, load_csv file url s = ([], o, s) /\ o <> Returned.
Proof.
  unfold load_csv, save_uploaded_csv, download_csv_from_url.
  destruct file as [f|].
  - destruct (decode_utf8_sig (content_bytes f)) as [text|];
      [|eexists; split; [reflexivity | discriminate]].
    destruct (truthy (strip text)); simpl;
      [|eexists; split; [reflexivity | discriminate]].
    destruct (MAX_CSV_SIZE <? _)%N; [eexists; split; [reflexivity | discriminate]|].
    destruct (write_file _ _); eexists; (split; [reflexivity | discriminate]).
  - destruct url as [u|]; [|eexists; split; [reflexivity | discriminate]].
    destruct (truthy u); [|eexists; split; [reflexivity | discriminate]].
    destruct (requests_get u); eexists; (split; [reflexivity | discriminate]).
Qed.

Lemma load_csv_streaming_upload (f : UploadFile) (url : option str) (text : str)
    (s : run_state) :
  upload_accepted f text ->
  load_csv_streaming (Some f) url s =
  ([], Normal (text, or_else (filename f) (lit "uploaded_file.csv"),
               lit "data/processed/" ++ fmt (filename f)), s).
Proof.
  intros (Hd & Ht & Hs & Hw). unfold load_csv_streaming, save_uploaded_csv.
  rewrite Hd, Ht. cbv beta iota zeta delta [negb]. rewrite Hs. cbv zeta. unfold bind.
  rewrite Hw. reflexivity.
Qed.

Lemma load_csv_upload (f : UploadFile) (url : option str) (text : str) (s : run_state) :
  upload_accepted f text ->
  load_csv (Some f) url s =
  ([], Normal (text, or_else (filename f) (lit "uploaded_file.csv"),
               lit "data/processed/" ++ fmt (filename f)), s).
Proof.
  intros (Hd & Ht & Hs & Hw). unfold load_csv, save_uploaded_csv.
  rewrite Hd, Ht. cbv beta iota zeta delta [negb]. rewrite Hs. cbv zeta. unfold bind.
  rewrite Hw. reflexivity.
Qed.

Lemma answer_streaming_run (question content_text file_name : str) (stream : bool)
    (s : run_state) :
  answer_streaming question content_text file_name stream s =
  match histogram_match question with
  | Some column =>
      let r := histogram_reply column (generate_histogram_data content_text column) in
      ([EvReply r], Normal (Some r, r), s)
  | None =>
      let summary := summarize_csv content_text in
      let p := FullPrompt (full_prompt question summary (Some file_name)) in
      let s' := {| calls := calls s ++ [p]; updated_history := updated_history s |} in
      if startswith summary router_error_prefix then ([EvError summary], Returned, s)
      else if stream then
        let chunks := data_chunks (Some file_name) (generate_content_stream p) [] in
        (map EvChunk chunks, Normal (None, concat chunks), s')
      else
        let r := data_reply (Some file_name) (generate_content p) in
        ([EvReply r], Normal (Some r, r), s')
  end.
Proof.
  unfold answer_streaming. destruct (histogram_match question); [reflexivity|].
  cbv zeta. destruct (startswith _ _); [reflexivity|].
  destruct stream.
  - unfold ask_gemini_about_data_streaming, bind, invoke, ret. simpl.
    rewrite relay_plain_run. simpl. now rewrite app_nil_r.
  - reflexivity.
Qed.

Lemma answer_run (question content_text file_name : str) (s : run_state) :
  answer question content_text file_name s =
  match histogram_match question with
  | Some column =>
      ([], Normal (histogram_reply column (generate_histogram_data content_text column)), s)
  | None =>
      let summary := summarize_csv content_text in
      let p := FullPrompt (full_prompt question summary (Some file_name)) in
      if startswith summary router_error_prefix
      then ([], Raised (HTTPException 400 summary), s)
      else ([], Normal (data_reply (Some file_name) (generate_content p)),
            {| calls := calls s ++ [p]; updated_history := updated_history s |})
  end.
Proof.
  unfold answer. destruct (histogram_match question); [reflexivity|].
  cbv zeta. destruct (startswith _ _); reflexivity.
Qed.

Lemma csv_stream_response_run (question : str) (file : option UploadFile)
    (url : option str) (stream : bool) (history : str) (now : datetime) :
  csv_stream_response question file url stream history now initial =
  match eval (read_history history) with
  | Normal H =>
      match load_csv_streaming file url initial with
      | (evs1, Normal loaded, s1) =>
          match answer_streaming question (fst (fst loaded)) (snd (fst loaded)) stream s1 with
          | (evs2, Normal rf, s2) =>
              let updated := H ++
                [user_turn question None (Some (snd loaded)) (replace_microsecond_0 now);
                 assistant_turn (full_or_reply (fst rf) (snd rf)) (replace_microsecond_0 now)] in
              (evs1 ++ evs2 ++ closing_events (eval (for_each csv_history_entry updated)),
               match eval (for_each csv_history_entry updated) with
               | Returned => Returned
               | _ => Normal tt
               end,
               {| calls := calls s2; updated_history := Some updated |})
          | (evs2, Raised e, s2) => (evs1 ++ evs2 ++ [EvError (str_of_exn e)], Normal tt, s2)
          | (evs2, Returned, s2) => (evs1 ++ evs2, Returned, s2)
          end
      | (evs1, Raised e, s1) => (evs1 ++ [EvError (str_of_exn e)], Normal tt, s1)
      | (evs1, Returned, s1) => (evs1, Returned, s1)
      end
  | Raised e => ([EvError (str_of_exn e)], Normal tt, initial)
  | Returned => ([], Returned, initial)
  end.
Proof.
  unfold csv_stream_response, try_except.
  rewrite read_history_bind.
  destruct (eval (read_history history)) as [H|e|]; try reflexivity.
  unfold bind at 1.
  destruct (load_csv_streaming file url initial) as [[evs1 [loaded|e|]] s1]; try reflexivity.
  unfold bind at 1.
  destruct (answer_streaming _ _ _ _ s1) as [[evs2 [rf|e|]] s2];
    try (unfold yield; now rewrite <- ?app_assoc).
  unfold bind, assign_updated_history, yield. simpl.
  rewrite (quiet_for_each csv_history_entry _ quiet_csv_history_entry).
  destruct (eval (for_each csv_history_entry _)); simpl;
    rewrite <- ?app_assoc, ?app_nil_r; reflexivity.
Qed.

Lemma chat_with_csv_atomic_run (question : str) (file : option UploadFile)
    (url : option str) (history : str) (now : datetime) :
  chat_with_csv question file url false history now =
  match eval (read_history history) with
  | Normal H =>
      match load_csv file url initial with
      | (_, Normal loaded, s1) =>
          match answer question (fst (fst loaded)) (snd (fst loaded)) s1 with
          | (_, Normal response, s2) =>
              let updated := H ++
                [user_turn question None (Some (snd loaded)) (replace_microsecond_0 now);
                 assistant_turn response (replace_microsecond_0 now)] in
              (Response response updated,
               {| calls := calls s2; updated_history := Some updated |})
          | (_, Raised e, s2) => (Unhandled e, s2)
          | (_, Returned, s2) => (Unhandled (Exception []), s2)
          end
      | (_, Raised e, s1) => (Unhandled e, s1)
      | (_, Returned, s1) => (Unhandled (Exception []), s1)
      end
  | Raised e => (Unhandled e, initial)
  | Returned => (Unhandled (Exception []), initial)
  end.
Proof.
  unfold chat_with_csv, respond.
  rewrite read_history_bind.
  destruct (eval (read_history history)) as [H|e|]; try reflexivity.
  unfold bind at 1.
  destruct (load_csv file url initial) as [[evs1 [loaded|e|]] s1]; try reflexivity.
  unfold bind at 1.
  destruct (answer _ _ _ s1) as [[evs2 [rf|e|]] s2]; reflexivity.
Qed.

Lemma summary_passes_check (content_text : str) :
  startswith (summarize_csv content_text) router_error_prefix = false.
Proof.
  unfold summarize_csv.
  destruct (read_csv content_text) as [|e|df]; try reflexivity.
  destruct (is_empty df); reflexivity.
Qed.

Lemma csv_entry_cases (m : ChatMessage) :
  eval (csv_history_entry m) = Raised AttributeError
  \/ exists j, eval (csv_history_entry m) = Normal j.
Proof. rewrite eval_csv_history_entry. destruct (timestamp m); eauto. Qed.

Lemma csv_entry_absent (m : ChatMessage) :
  timestamp m = None -> eval (csv_history_entry m) = Raised AttributeError.
Proof. intro H. now rewrite eval_csv_history_entry, H. Qed.

Lemma csv_entry_present (m : ChatMessage) :
  has_timestamp m -> exists j, eval (csv_history_entry m) = Normal j.
Proof.
  unfold has_timestamp. rewrite eval_csv_history_entry.
  destruct (timestamp m); [eauto | congruence].
Qed.

Lemma csv_streaming_analysis (question : str) (f : UploadFile) (url : option str)
    (history : str) (now : datetime) (H : list ChatMessage) (content_text : str) :
  eval (read_history history) = Normal H ->
  reaches_model question f content_text ->
  csv_stream_response question (Some f) url true history now initial
  = (map EvChunk (data_chunks (Some (or_else (filename f) (lit "uploaded_file.csv")))
                    (generate_content_stream (analysis_prompt question f content_text)) [])
     ++ closing_events (eval (for_each csv_history_entry
          (H ++ [user_turn question None
                   (Some (lit "data/processed/" ++ fmt (filename f)))
                   (replace_microsecond_0 now);
                 assistant_turn
                   (concat (data_chunks (Some (or_else (filename f) (lit "uploaded_file.csv")))
                      (generate_content_stream (analysis_prompt question f content_text)) []))
                   (replace_microsecond_0 now)]))),
     match eval (for_each csv_history_entry
          (H ++ [user_turn question None
                   (Some (lit "data/processed/" ++ fmt (filename f)))
                   (replace_microsecond_0 now);
                 assistant_turn
                   (concat (data_chunks (Some (or_else (filename f) (lit "uploaded_file.csv")))
                      (generate_content_stream (analysis_prompt question f content_text)) []))
                   (replace_microsecond_0 now)])) with
     | Returned => Returned
     | _ => Normal tt
     end,
     {| calls := [analysis_prompt question f content_text];
        updated_history :=
          Some (H ++ [user_turn question None
                        (Some (lit "data/processed/" ++ fmt (filename f)))
                        (replace_microsecond_0 now);
                      assistant_turn
                        (concat (data_chunks
                           (Some (or_else (filename f) (lit "uploaded_file.csv")))
                           (generate_content_stream (analysis_prompt question f content_text))
                           []))
                        (replace_microsecond_0 now)]) |}).
Proof.
  intros HH (Hup & Hmatch).
  rewrite csv_stream_response_run, HH, (load_csv_streaming_upload f url content_text _ Hup).
  simpl fst; simpl snd. rewrite answer_streaming_run, Hmatch. cbv zeta.
  rewrite (summary_passes_check content_text). reflexivity.
Qed.

Lemma csv_atomic_analysis (question : str) (f : UploadFile) (url : option str)
    (history : str) (now : datetime) (H : list ChatMessage) (content_text : str) :
  eval (read_history history) = Normal H ->
  reaches_model question f content_text ->
  chat_with_csv question (Some f) url false history now
  = (Response
       (data_reply (Some (or_else (filename f) (lit "uploaded_file.csv")))
          (generate_content (analysis_prompt question f content_text)))
       (H ++ [user_turn question None (Some (lit "data/processed/" ++ fmt (filename f)))
                (replace_microsecond_0 now);
              assistant_turn
                (data_reply (Some (or_else (filename f) (lit "uploaded_file.csv")))
                   (generate_content (analysis_prompt question f content_text)))
                (replace_microsecond_0 now)]),
     {| calls := [analysis_prompt question f content_text];
        updated_history :=
          Some (H ++ [user_turn question None
                        (Some (lit "data/processed/" ++ fmt (filename f)))
                        (replace_microsecond_0 now);
                      assistant_turn
                        (data_reply (Some (or_else (filename f) (lit "uploaded_file.csv")))
                           (generate_content (analysis_prompt question f content_text)))
                        (replace_microsecond_0 now)]) |}).
Proof.
  intros HH (Hup & Hmatch).
  rewrite chat_with_csv_atomic_run, HH, (load_csv_upload f url content_text _ Hup).
  simpl fst; simpl snd. rewrite answer_run, Hmatch. cbv zeta.
  rewrite (summary_passes_check content_text). reflexivity.
Qed.

End CsvRuns.

(* ================================================================= *)
(** ** Reading the events of a run *)

Lemma chunks_of_app (a b : list event) : chunks_of (a ++ b) = chunks_of a ++ chunks_of b.
Proof.
  induction a as [|ev a IH]; [reflexivity|].
  destruct ev; simpl; now rewrite IH.
Qed.

Lemma chunks_of_chunks (chunks : list str) : chunks_of (map EvChunk chunks) = chunks.
Proof. induction chunks; simpl; congruence. Qed.

Lemma no_history_in_chunks (chunks : list str) (hd : list json) (st : str) :
  ~ In (EvHistory hd st) (map EvChunk chunks).
Proof. intro H. apply in_map_iff in H. destruct H as [c [Hc _]]. discriminate. Qed.

Lemma history_in_app (a b : list event) :
  existsb is_history (a ++ b) = existsb is_history a || existsb is_history b.
Proof. apply existsb_app. Qed.

Lemma no_history_among_chunks (chunks : list str) :
  existsb is_history (map EvChunk chunks) = false.
Proof. induction chunks; simpl; congruence. Qed.

Section Closing.
Context {E : Externals}.

Lemma chunks_of_closing (o : outcome (list json)) : chunks_of (closing_events o) = [].
Proof. destruct o; reflexivity. Qed.

Lemma history_in_closing (o : outcome (list json)) (hd : list json) (st : str) :
  In (EvHistory hd st) (closing_events o) -> o = Normal hd.
Proof.
  destruct o; simpl; intro H; [destruct H as [H|[]] | destruct H as [H|[]] | destruct H];
    try discriminate.
  now injection H as -> _.
Qed.

End Closing.

(* ================================================================= *)
(** ** C1: every completed exchange appends a user and an assistant turn *)

Section Reconciliation.
Context {E : Externals}.

Lemma chat_appends_two_turns (message : str) (stream : bool) (history : str) (now : datetime) :
  appends_two_turns history (chat message stream history now).
Proof.
  destruct stream.
  - rewrite chat_streaming_run, chat_stream_response_run.
    destruct (eval (read_history history)) as [H|e|] eqn:HH; cbv zeta; simpl fst; simpl snd.
    + repeat split.
      * new_turns H.
      * intros hd st Hin. simpl in Hin. apply in_app_iff in Hin.
        destruct Hin as [Hin|Hin]; [now apply no_history_in_chunks in Hin|].
        apply history_in_closing in Hin. eexists. split; [reflexivity|].
        eapply for_each_length; [apply quiet_chat_history_entry | exact Hin].
      * discriminate.
      * destruct H0 as [Hc _]. discriminate Hc.
      * destruct H0 as [Hc _]. discriminate Hc.
    + repeat split; try discriminate.
      * intros hd st [Hin|[]]. discriminate.
      * intros hd st [Hin|[]]. discriminate.
    + repeat split; try discriminate; intros hd st [].
  - rewrite chat_atomic_run.
    destruct (eval (read_history history)) as [H|e|] eqn:HH; cbv zeta; simpl fst; simpl snd.
    + repeat split.
      * new_turns H.
      * intros hd st Hin.
        destruct (eval (for_each chat_history_entry _)); destruct Hin.
      * intros reply h.
        destruct (eval (for_each chat_history_entry _)); intro Hr; try discriminate.
        now injection Hr as _ <-.
      * destruct H0 as [Hc _]. discriminate Hc.
      * destruct H0 as [Hc _]. discriminate Hc.
    + repeat split; try discriminate; intros hd st [].
    + repeat split; try discriminate; intros hd st [].
Qed.

Lemma csv_appends_two_turns (question : str) (file : option UploadFile) (url : option str)
    (stream : bool) (history : str) (now : datetime) :
  appends_two_turns history (chat_with_csv question file url stream history now).
Proof.
  destruct stream.
  - unfold chat_with_csv, respond_stream. rewrite csv_stream_response_run.
    destruct (eval (read_history history)) as [H|e|] eqn:HH.
    2: { repeat split; try discriminate; intros hd st [Hin|[]]; discriminate. }
    2: { repeat split; try discriminate; intros hd st []. }
    destruct (load_csv_streaming_shape file url initial) as (evs1 & o1 & -> & Ho1).
    destruct o1 as [loaded|e|].
    2: { subst evs1. repeat split; try discriminate; intros hd st [Hin|[]]; discriminate. }
    2: { destruct Ho1 as [e ->].
         repeat split; try discriminate; intros hd st [Hin|[]]; discriminate. }
    subst evs1. rewrite answer_streaming_run.
    destruct (histogram_match question) as [column|]; cbv zeta.
    + repeat split; simpl fst; simpl snd.
      * new_turns H.
      * intros hd st Hin. simpl in Hin. destruct Hin as [Hin|Hin]; [discriminate|].
        apply history_in_closing in Hin. eexists. split; [reflexivity|].
        eapply for_each_length; [apply quiet_csv_history_entry | exact Hin].
      * discriminate.
      * destruct H0 as [_ [e He]]. simpl in He. discriminate He.
      * destruct H0 as [_ [e He]]. simpl in He. discriminate He.
    + destruct (startswith _ _).
      { repeat split; try discriminate; intros hd st [Hin|[]]; discriminate. }
      repeat split; simpl fst; simpl snd.
      * new_turns H.
      * intros hd st Hin. simpl in Hin. apply in_app_iff in Hin.
        destruct Hin as [Hin|Hin]; [now apply no_history_in_chunks in Hin|].
        apply history_in_closing in Hin. eexists. split; [reflexivity|].
        eapply for_each_length; [apply quiet_csv_history_entry | exact Hin].
      * discriminate.
      * destruct H0 as [Hc _]. discriminate Hc.
      * destruct H0 as [Hc _]. discriminate Hc.
  - rewrite chat_with_csv_atomic_run.
    destruct (eval (read_history history)) as [H|e|] eqn:HH.
    2, 3: repeat split; try discriminate; intros hd st [].
    destruct (load_csv_shape file url initial) as (o1 & -> & Ho1).
    destruct o1 as [loaded|e|]; [| | congruence].
    2: { repeat split; try discriminate; intros hd st []. }
    rewrite answer_run.
    destruct (histogram_match question) as [column|]; cbv zeta.
    + repeat split; simpl fst; simpl snd.
      * new_turns H.
      * intros hd st [].
      * intros reply h Hr. now injection Hr as _ <-.
      * destruct H0 as [_ []].
      * destruct H0 as [_ []].
    + destruct (startswith _ _).
      { repeat split; try discriminate; intros hd st []. }
      repeat split; simpl fst; simpl snd.
      * new_turns H.
      * intros hd st [].
      * intros reply h Hr. now injection Hr as _ <-.
      * destruct H0 as [_ []].
      * destruct H0 as [_ []].
Qed.

(** What a serialiser writes for a turn is a dict that [serialises] it. *)
Lemma serialised_entries (entry : ChatMessage -> gen json) (l : list ChatMessage) :
  (forall m, quiet (entry m)) ->
  (forall m j, eval (entry m) = Normal j -> serialises m j) ->
  forall history_dict,
    eval (for_each entry l) = Normal history_dict -> Forall2 serialises l history_dict.
Proof.
  intros Hq Hs. induction l as [|m l IH]; intros hd Hhd.
  - injection Hhd as <-. constructor.
  - rewrite eval_for_each_cons in Hhd by assumption.
    destruct (eval (entry m)) as [j| |] eqn:Hj; try discriminate.
    destruct (eval (for_each entry l)) as [js| |]; try discriminate.
    injection Hhd as <-. constructor; [now apply Hs | now apply IH].
Qed.

Lemma chat_entry_serialises (m : ChatMessage) (j : json) :
  eval (chat_history_entry m) = Normal j -> serialises m j.
Proof.
  rewrite eval_chat_history_entry. destruct (timestamp m) as [t|] eqn:Ht; [|discriminate].
  intro Hj. injection Hj as <-. eexists _, t. repeat split; try reflexivity. exact Ht.
Qed.

Lemma csv_entry_serialises (m : ChatMessage) (j : json) :
  eval (csv_history_entry m) = Normal j -> serialises m j.
Proof.
  rewrite eval_csv_history_entry. destruct (timestamp m) as [t|] eqn:Ht; [|discriminate].
  intro Hj. injection Hj as <-. eexists _, t. repeat split; try reflexivity. exact Ht.
Qed.

(** With every turn stamped, the stream ends with the history event, which
    serialises the turns one by one. *)
Lemma closing_returns (entry : ChatMessage -> gen json) (body : list event)
    (h : list ChatMessage) :
  (forall m, quiet (entry m)) ->
  (forall m, has_timestamp m -> exists j, eval (entry m) = Normal j) ->
  (forall m j, eval (entry m) = Normal j -> serialises m j) ->
  Forall has_timestamp h ->
  history_returned
    (StreamingResponse (body ++ closing_events (eval (for_each entry h)))) h.
Proof.
  intros Hq Hp Hs Hall.
  destruct (serialise_present entry h Hq Hp Hall) as (hd & Hhd & _).
  rewrite Hhd. exists body, hd. split; [reflexivity|].
  now apply (serialised_entries entry h Hq Hs).
Qed.

Lemma history_returned_roles (r : http_response) (h : list ChatMessage) :
  history_returned r h -> roles_returned r (map role h).
Proof.
  destruct r as [evs|reply h'|e]; simpl; [|now intros ->|contradiction].
  intros (body & hd & Hev & Hs). exists body, hd. split; [assumption|]. clear Hev.
  induction Hs as [|m j h hd (members & t & Hj & Hrole & _) _ IH]; simpl; constructor.
  - now exists members.
  - exact IH.
Qed.

Lemma two_more_returned (history : str) (r : http_response * run_state)
    (H : list ChatMessage) (u a : ChatMessage) :
  eval (read_history history) = Normal H ->
  role u = lit "user" -> role a = lit "assistant" ->
  history_returned (fst r) (H ++ [u; a]) ->
  exists roles,
    roles_returned (fst r) roles /\
    length roles = length H + 2 /\
    skipn (length H) roles = [lit "user"; lit "assistant"].
Proof.
  intros HH Hu Ha Hret. exists (map role (H ++ [u; a])).
  split; [now apply history_returned_roles|].
  rewrite map_app, length_app, length_map. split; [reflexivity|].
  rewrite skipn_app, length_map, Nat.sub_diag, skipn_all2 by (rewrite length_map; lia).
  simpl. now rewrite Hu, Ha.
Qed.

Lemma chat_returns_history (message : str) (stream : bool) (history : str)
    (now : datetime) (H : list ChatMessage) :
  eval (read_history history) = Normal H ->
  Forall has_timestamp H ->
  exists u a,
    role u = lit "user" /\ content u = message /\ role a = lit "assistant"
    /\ updated_history (snd (chat message stream history now)) = Some (H ++ [u; a])
    /\ history_returned (fst (chat message stream history now)) (H ++ [u; a])
    /\ length (H ++ [u; a]) = length H + 2.
Proof.
  intros HH Hall. destruct stream.
  + rewrite chat_streaming_run, chat_stream_response_run, HH. cbv zeta.
    eexists (user_turn message None None _), (assistant_turn _ _).
    split; [reflexivity|]. split; [reflexivity|]. split; [reflexivity|].
    split; [reflexivity|]. split.
    * simpl fst. apply closing_returns;
        [apply quiet_chat_history_entry | apply chat_entry_present
        | apply chat_entry_serialises | now apply new_turns_stamped].
    * rewrite length_app. reflexivity.
  + rewrite chat_atomic_run, HH. cbv zeta.
    destruct (serialise_present chat_history_entry _ quiet_chat_history_entry
                chat_entry_present
                (new_turns_stamped H message
                   (text_reply (generate_content (Messages (gemini_messages H message))))
                   None None (replace_microsecond_0 now) Hall)) as (hd & Hhd & _).
    rewrite Hhd.
    eexists (user_turn message None None _), (assistant_turn _ _).
    split; [reflexivity|]. split; [reflexivity|]. split; [reflexivity|].
    split; [reflexivity|]. split; [reflexivity|].
    rewrite length_app. reflexivity.
Qed.

Lemma csv_returns_history (question : str) (file : option UploadFile) (url : option str)
    (stream : bool) (history : str) (now : datetime) (H h : list ChatMessage) :
  eval (read_history history) = Normal H ->
  (stream = true -> Forall has_timestamp H) ->
  updated_history (snd (chat_with_csv question file url stream history now)) = Some h ->
  history_returned (fst (chat_with_csv question file url stream history now)) h
  /\ exists u a,
       h = H ++ [u; a]
       /\ role u = lit "user" /\ content u = question /\ role a = lit "assistant"
       /\ length h = length H + 2.
Proof.
  intros HH Hall. destruct stream.
  + specialize (Hall eq_refl).
    unfold chat_with_csv, respond_stream. rewrite csv_stream_response_run, HH.
    destruct (load_csv_streaming_shape file url initial) as (evs1 & o1 & -> & Ho1).
    destruct o1 as [loaded|e|]; try discriminate.
    subst evs1. rewrite answer_streaming_run.
    destruct (histogram_match question) as [column|]; cbv zeta.
    * simpl fst; simpl snd. simpl updated_history. intro Hh. injection Hh as <-. split.
      -- simpl app.
         apply (closing_returns csv_history_entry [EvReply _]);
           [apply quiet_csv_history_entry | apply csv_entry_present
           | apply csv_entry_serialises | now apply new_turns_stamped].
      -- eexists (user_turn question None _ _), (assistant_turn _ _).
         repeat split. rewrite length_app. reflexivity.
    * destruct (startswith _ _); [discriminate|].
      simpl fst; simpl snd. simpl updated_history. intro Hh. injection Hh as <-. split.
      -- simpl app.
         apply closing_returns;
           [apply quiet_csv_history_entry | apply csv_entry_present
           | apply csv_entry_serialises | now apply new_turns_stamped].
      -- eexists (user_turn question None _ _), (assistant_turn _ _).
         repeat split. rewrite length_app. reflexivity.
  + clear Hall. rewrite chat_with_csv_atomic_run, HH.
    destruct (load_csv_shape file url initial) as (o1 & -> & Ho1).
    destruct o1 as [loaded|e|]; try discriminate.
    rewrite answer_run.
    destruct (histogram_match question) as [column|]; cbv zeta.
    * simpl fst; simpl snd. simpl updated_history. intro Hh. injection Hh as <-.
      split; [reflexivity|].
      eexists (user_turn question None _ _), (assistant_turn _ _).
      repeat split. rewrite length_app. reflexivity.
    * destruct (startswith _ _); [discriminate|].
      simpl fst; simpl snd. simpl updated_history. intro Hh. injection Hh as <-.
      split; [reflexivity|].
      eexists (user_turn question None _ _), (assistant_turn _ _).
      repeat split. rewrite length_app. reflexivity.
Qed.

(** C1, amended.  For every request to the text-chat and the CSV endpoint,
    streaming or not: when the handler reaches the history-update step, the
    list it builds is the prior messages (as many as the caller's JSON
    array has items) followed by exactly two turns, with roles [user] then
    [assistant]; and a request that fails before any model call builds and
    sends none.  When the prior history reads and every prior turn carries
    a timestamp, the step is reached and the client receives that list: as
    the body of the response, or as the last event of the stream, whose
    entries hold, turn by turn, the role, the content and the timestamp of
    the list.  The CSV endpoint without streaming needs no timestamp. *)
Theorem history_grows_by_two :
  (forall message stream history now,
     appends_two_turns history (chat message stream history now))
  /\ (forall question file url stream history now,
        appends_two_turns history (chat_with_csv question file url stream history now))
  /\ (forall history items H,
        truthy history = true ->
        json_loads history = Some (JArr items) ->
        eval (read_history history) = Normal H ->
        length H = length items)
  /\ (forall message stream history now H,
        eval (read_history history) = Normal H ->
        Forall has_timestamp H ->
        exists u a,
          role u = lit "user" /\ content u = message /\ role a = lit "assistant"
          /\ updated_history (snd (chat message stream history now)) = Some (H ++ [u; a])
          /\ history_returned (fst (chat message stream history now)) (H ++ [u; a])
          /\ length (H ++ [u; a]) = length H + 2)
  /\ (forall question file url stream history now H h,
        eval (read_history history) = Normal H ->
        (stream = true -> Forall has_timestamp H) ->
        updated_history (snd (chat_with_csv question file url stream history now)) = Some h ->
        history_returned (fst (chat_with_csv question file url stream history now)) h
        /\ exists u a,
             h = H ++ [u; a]
             /\ role u = lit "user" /\ content u = question /\ role a = lit "assistant"
             /\ length h = length H + 2)
  /\ (forall message stream history now H,
        eval (read_history history) = Normal H ->
        Forall has_timestamp H ->
        returns_two_more history (chat message stream history now))
  /\ (forall question file url stream history now H,
        eval (read_history history) = Normal H ->
        (stream = true -> Forall has_timestamp H) ->
        returns_two_more history (chat_with_csv question file url stream history now))
  /\ (forall question f url stream history now H content_text,
        eval (read_history history) = Normal H ->
        upload_accepted f content_text ->
        exists h,
          updated_history (snd (chat_with_csv question (Some f) url stream history now))
          = Some h).
Proof.
  split; [|split; [|split; [|split; [|split; [|split; [|split]]]]]].
  - apply chat_appends_two_turns.
  - apply csv_appends_two_turns.
  - apply read_history_length.
  - intros message stream history now H. apply chat_returns_history.
  - intros question file url stream history now H h. apply csv_returns_history.
  - intros message stream history now H HH Hall h Hh.
    destruct (chat_returns_history message stream history now H HH Hall)
      as (u & a & Hu & _ & Ha & _ & Hret & _).
    exists H. destruct (two_more_returned history _ H u a HH Hu Ha Hret) as (roles & Hr).
    exists roles. split; [exact HH | exact Hr].
  - intros question file url stream history now H HH Hall h Hh.
    destruct (csv_returns_history question file url stream history now H h HH Hall Hh)
      as (Hret & u & a & -> & Hu & _ & Ha & _).
    exists H. destruct (two_more_returned history _ H u a HH Hu Ha Hret) as (roles & Hr).
    exists roles. split; [exact HH | exact Hr].
  - intros question f url stream history now H content_text HH Hup. destruct stream.
    + unfold chat_with_csv, respond_stream.
      rewrite csv_stream_response_run, HH, (load_csv_streaming_upload f url content_text _ Hup).
      simpl fst; simpl snd. rewrite answer_streaming_run.
      destruct (histogram_match question) as [column|]; cbv zeta.
      * eexists. reflexivity.
      * rewrite (summary_passes_check content_text). eexists. reflexivity.
    + rewrite chat_with_csv_atomic_run, HH, (load_csv_upload f url content_text _ Hup).
      simpl fst; simpl snd. rewrite answer_run.
      destruct (histogram_match question) as [column|]; cbv zeta.
      * eexists. reflexivity.
      * rewrite (summary_passes_check content_text). eexists. reflexivity.
Qed.

End Reconciliation.

(** C1 fails as stated: with a prior turn that has no timestamp, the
    streamed text chat reaches the history-update step and then ends with
    an error event; the client receives no history. *)
Lemma unstamped_history_not_returned :
  ~ returns_two_more (E := Demo.two_chunks) Demo.bare_history
      (chat (E := Demo.two_chunks) (lit "hey") true Demo.bare_history Demo.noon).
Proof.
  intro Hc.
  destruct (Hc _ eq_refl) as (H & roles & _ & Hret & _).
  let v := eval vm_compute in
    (fst (chat (E := Demo.two_chunks) (lit "hey") true Demo.bare_history Demo.noon)) in
  change (fst (chat (E := Demo.two_chunks) (lit "hey") true Demo.bare_history Demo.noon))
    with v in Hret.
  unfold roles_returned in Hret. destruct Hret as (body & hd & Hev & _).
  apply (f_equal (@rev event)) in Hev. rewrite rev_app_distr in Hev.
  simpl in Hev. discriminate Hev.
Qed.

(** The theorem at work: a one-turn history, streamed, comes back as that
    turn and two more. *)
Lemma history_grows_by_two_witness :
  exists H u a,
    eval (read_history (E := Demo.world (GenText []) [Frag (lit "Hi")])
            Demo.stamped_history) = Normal H
    /\ length H = 1
    /\ role u = lit "user" /\ role a = lit "assistant"
    /\ history_returned (E := Demo.world (GenText []) [Frag (lit "Hi")])
         (fst (chat (E := Demo.world (GenText []) [Frag (lit "Hi")])
                 (lit "hey") true Demo.stamped_history Demo.noon))
         (H ++ [u; a]).
Proof.
  assert (Hall : Forall has_timestamp
                   [{| role := lit "assistant"; content := lit "yo";
                       timestamp := Some {| seconds := 1700000000; microsecond := 0 |};
                       image_url := None; file_url := None |}]).
  { constructor; [discriminate | constructor]. }
  destruct (proj1 (proj2 (proj2 (proj2
              (history_grows_by_two (E := Demo.world (GenText []) [Frag (lit "Hi")])))))
              (lit "hey") true Demo.stamped_history Demo.noon _ eq_refl Hall)
    as (u & a & Hu & _ & Ha & _ & Hret & _).
  eexists _, u, a. split; [reflexivity|]. split; [reflexivity|].
  split; [exact Hu|]. split; [exact Ha | exact Hret].
Defined.

(* ================================================================= *)
(** ** C2: what the assistant turn holds after a streamed answer *)

Lemma last_of_two {A} (H : list A) (u a : A) : rev (H ++ [u; a]) = a :: u :: rev H.
Proof. now rewrite rev_app_distr. Qed.

Section Committed.
Context {E : Externals}.

Lemma chat_commits_spaced (message history : str) (now : datetime) :
  commits_spaced (chat message true history now).
Proof.
  rewrite chat_streaming_run, chat_stream_response_run. intros text.
  destruct (eval (read_history history)) as [H|e|]; cbv zeta;
    unfold committed_content; simpl fst; simpl snd; simpl updated_history;
    try discriminate.
  cbv iota beta. rewrite last_of_two. intro Ht. injection Ht as <-. simpl events_of.
  now rewrite chunks_of_app, chunks_of_chunks, chunks_of_closing, app_nil_r.
Qed.

Lemma csv_commits_concatenation (question : str) (file : option UploadFile)
    (url : option str) (history : str) (now : datetime) :
  replies_of (events_of (fst (chat_with_csv question file url true history now))) = [] ->
  commits_concatenation (chat_with_csv question file url true history now).
Proof.
  unfold chat_with_csv, respond_stream. rewrite csv_stream_response_run.
  intros Hno text. revert Hno.
  destruct (eval (read_history history)) as [H|e|];
    unfold committed_content; simpl fst; simpl snd; try discriminate.
  destruct (load_csv_streaming_shape file url initial) as (evs1 & o1 & -> & Ho1).
  destruct o1 as [loaded|e|]; try discriminate. subst evs1.
  rewrite answer_streaming_run.
  destruct (histogram_match question) as [column|]; cbv zeta.
  - simpl. discriminate.
  - destruct (startswith _ _); [discriminate|].
    simpl fst; simpl snd; simpl updated_history. cbv iota beta. rewrite last_of_two.
    intros _ Ht. injection Ht as <-. simpl events_of. simpl app.
    now rewrite chunks_of_app, chunks_of_chunks, chunks_of_closing, app_nil_r.
Qed.

(** C2, amended.  In a streamed text chat the assistant turn holds the
    relayed fragments, each followed by one space, with the ends stripped;
    in a streamed CSV analysis (no histogram reply) it holds the relayed
    fragments joined with nothing between them. *)
Theorem committed_text_of_relayed_chunks :
  (forall message history now, commits_spaced (chat message true history now))
  /\ (forall question file url history now,
        replies_of (events_of (fst (chat_with_csv question file url true history now))) = [] ->
        commits_concatenation (chat_with_csv question file url true history now)).
Proof. split; [apply chat_commits_spaced | apply csv_commits_concatenation]. Qed.

End Committed.

(** C2 fails as stated: two chunks, [Hello] and [world], are committed as
    [Hello world], not as [Helloworld]. *)
Lemma relayed_chunks_not_concatenated :
  ~ commits_concatenation
      (chat (E := Demo.two_chunks) (lit "hey") true (lit "[]") Demo.noon).
Proof.
  intro Hc. specialize (Hc (lit "Hello world") eq_refl).
  vm_compute in Hc. discriminate Hc.
Qed.

Lemma committed_text_of_relayed_chunks_witness :
  committed_content
    (snd (chat (E := Demo.two_chunks) (lit "hey") true (lit "[]") Demo.noon))
    = Some (lit "Hello world")
  /\ lit "Hello world"
     = strip (spaced (chunks_of (events_of
         (fst (chat (E := Demo.two_chunks) (lit "hey") true (lit "[]") Demo.noon))))).
Proof.
  split; [reflexivity|].
  apply (proj1 (committed_text_of_relayed_chunks (E := Demo.two_chunks))
           (lit "hey") (lit "[]") Demo.noon (lit "Hello world")).
  reflexivity.
Defined.

(* ================================================================= *)
(** ** C3: a stream whose model iteration raises *)

Section Aborted.
Context {E : Externals}.

Lemma text_chunks_app (texts : list str) (rest : list stream_item) :
  text_chunks (map Frag texts ++ rest) = text_chunks (map Frag texts) ++ text_chunks rest.
Proof.
  induction texts as [|t texts IH]; [reflexivity|].
  simpl. destruct (truthy t); simpl; now rewrite IH.
Qed.

Lemma data_chunks_abort (file_name : option str) (texts : list str) (e acc : str) :
  data_chunks file_name (map Frag texts ++ [Abort e]) acc
  = filter truthy texts ++ [data_error file_name e].
Proof.
  revert acc. induction texts as [|t texts IH]; intro acc; [reflexivity|].
  simpl. destruct (truthy t); simpl; now rewrite IH.
Qed.

(** C3, amended.  When the model iteration raises [e] after the fragments
    [texts], both streaming services yield the fragments relayed so far and
    then exactly one error fragment.  The text-chat handler relays them as
    ordinary chunks and goes on to the history update: the assistant turn
    holds the relayed fragments and the error text, and the terminal
    history event follows the error fragment whenever every prior turn
    carries a timestamp (an error event ends the stream otherwise). *)
Theorem abort_relayed_then_reconciled (message history : str) (now : datetime)
    (H : list ChatMessage) (texts : list str) (e : str) :
  eval (read_history history) = Normal H ->
  generate_content_stream (Messages (gemini_messages H message))
    = map Frag texts ++ [Abort e] ->
  text_chunks (map Frag texts ++ [Abort e]) = text_chunks (map Frag texts) ++ [text_error e]
  /\ (forall file_name,
        data_chunks file_name (map Frag texts ++ [Abort e]) []
        = filter truthy texts ++ [data_error file_name e])
  /\ updated_history (snd (chat message true history now))
     = Some (H ++ [user_turn message None None (replace_microsecond_0 now);
                   assistant_turn
                     (strip (spaced (text_chunks (map Frag texts) ++ [text_error e])))
                     (replace_microsecond_0 now)])
  /\ (Forall has_timestamp H ->
      exists history_dict,
        events_of (fst (chat message true history now))
        = map EvChunk (text_chunks (map Frag texts))
          ++ [EvChunk (text_error e); EvHistory history_dict (lit "complete")]
        /\ length history_dict = length H + 2)
  /\ (Exists (fun m => timestamp m = None) H ->
      events_of (fst (chat message true history now))
      = map EvChunk (text_chunks (map Frag texts))
        ++ [EvChunk (text_error e); EvError (str_of_exn AttributeError)]).
Proof.
  intros HH Hs.
  split; [apply text_chunks_app|]. split; [intro; apply data_chunks_abort|].
  rewrite chat_streaming_run, chat_stream_response_run, HH. cbv zeta.
  rewrite Hs, text_chunks_app. simpl fst; simpl snd. simpl text_chunks at 2 4 6.
  split; [reflexivity|]. split.
  - intro Hall.
    destruct (serialise_present chat_history_entry
                (H ++ [user_turn message None None (replace_microsecond_0 now);
                       assistant_turn
                         (strip (spaced (text_chunks (map Frag texts) ++ [text_error e])))
                         (replace_microsecond_0 now)])
                quiet_chat_history_entry chat_entry_present
                (new_turns_stamped H _ _ _ _ _ Hall)) as [hd [Hhd Hlen]].
    exists hd. simpl events_of. rewrite Hhd. simpl closing_events.
    rewrite map_app, <- app_assoc. split; [reflexivity|].
    rewrite Hlen, length_app. reflexivity.
  - intro Hex. simpl events_of.
    rewrite (serialise_absent chat_history_entry _ quiet_chat_history_entry
               chat_entry_cases chat_entry_absent (old_turn_unstamped H _ Hex)).
    simpl closing_events. now rewrite map_app, <- app_assoc.
Qed.

End Aborted.

(** C3 fails as stated: after [Hello] and the error fragment the stream
    goes on with the history event. *)
Lemma abort_does_not_end_stream :
  ~ abort_ends_stream (E := Demo.aborting) (lit "hey") (lit "[]") Demo.noon.
Proof.
  intro Hc.
  specialize (Hc [] [lit "Hello"] (lit "boom") eq_refl eq_refl).
  assert (Hne : text_chunks (map Frag [lit "Hello"]) <> []) by (vm_compute; discriminate).
  specialize (Hc Hne). vm_compute in Hc. discriminate Hc.
Qed.

Lemma abort_relayed_then_reconciled_witness :
  exists history_dict,
    events_of (fst (chat (E := Demo.aborting) (lit "hey") true (lit "[]") Demo.noon))
    = map EvChunk (text_chunks (map Frag [lit "Hello"]))
      ++ [EvChunk (text_error (lit "boom")); EvHistory history_dict (lit "complete")]
    /\ length history_dict = 2.
Proof.
  destruct (abort_relayed_then_reconciled (E := Demo.aborting)
              (lit "hey") (lit "[]") Demo.noon [] [lit "Hello"] (lit "boom")
              eq_refl eq_refl) as (_ & _ & _ & Hok & _).
  destruct (Hok (Forall_nil _)) as [hd [Hev Hlen]].
  exists hd. split; assumption.
Defined.

(* ================================================================= *)
(** ** C10: a prior turn without timestamp *)

Section Unstamped.
Context {E : Externals}.

Lemma eval_optional_absent {A} (parse : json -> option A) (v : option json) :
  v = None \/ v = Some JNull -> eval (optional parse v) = Normal None.
Proof. intros [-> | ->]; reflexivity. Qed.

(** The schema lets a message come without timestamp: validation then
    leaves the field [None]. *)
Lemma validated_without_timestamp (members : list (str * json)) (m : ChatMessage) :
  lookup (lit "timestamp") members = None \/ lookup (lit "timestamp") members = Some JNull ->
  eval (validate_message (JObj members)) = Normal m ->
  timestamp m = None.
Proof.
  intros Ht. unfold validate_message.
  rewrite eval_bind by apply quiet_required.
  destruct (eval (required pydantic_str _)) as [r| |]; try discriminate.
  rewrite eval_bind by apply quiet_required.
  destruct (eval (required pydantic_str _)) as [c| |]; try discriminate.
  rewrite eval_bind by apply quiet_optional.
  rewrite (eval_optional_absent pydantic_datetime _ Ht).
  rewrite eval_bind by apply quiet_optional.
  destruct (eval (optional pydantic_str _)) as [i| |]; try discriminate.
  rewrite eval_bind by apply quiet_optional.
  destruct (eval (optional pydantic_str _)) as [f| |]; try discriminate.
  intro Hm. injection Hm as <-. reflexivity.
Qed.

(** C10.  Whenever the history that validates holds a turn whose timestamp
    is [None] (which validation produces for a message sent without
    timestamp or with [null]), the text-chat endpoint fails after the model
    has answered: the stream relays the chunks and then ends with an error
    event, with no history event; the non-streaming call leaves the handler
    with [AttributeError], which FastAPI reports as status 500. *)
Theorem missing_timestamp_breaks_chat (message history : str) (now : datetime)
    (H : list ChatMessage) :
  eval (read_history history) = Normal H ->
  Exists (fun m => timestamp m = None) H ->
  (events_of (fst (chat message true history now))
   = map EvChunk (text_chunks (generate_content_stream (Messages (gemini_messages H message))))
     ++ [EvError (str_of_exn AttributeError)]
   /\ existsb is_history (events_of (fst (chat message true history now))) = false
   /\ calls (snd (chat message true history now)) = [Messages (gemini_messages H message)])
  /\ (fst (chat message false history now) = Unhandled AttributeError
      /\ status (fst (chat message false history now)) = 500
      /\ calls (snd (chat message false history now)) = [Messages (gemini_messages H message)])
  /\ (forall members m,
        lookup (lit "timestamp") members = None
        \/ lookup (lit "timestamp") members = Some JNull ->
        eval (validate_message (JObj members)) = Normal m ->
        timestamp m = None).
Proof.
  intros HH Hex. split; [|split; [|apply validated_without_timestamp]].
  - rewrite chat_streaming_run, chat_stream_response_run, HH. cbv zeta.
    simpl fst; simpl snd; simpl events_of.
    rewrite (serialise_absent chat_history_entry _ quiet_chat_history_entry
               chat_entry_cases chat_entry_absent (old_turn_unstamped H _ Hex)).
    simpl closing_events. repeat split.
    rewrite history_in_app, no_history_among_chunks. reflexivity.
  - rewrite chat_atomic_run, HH. cbv zeta.
    rewrite (serialise_absent chat_history_entry _ quiet_chat_history_entry
               chat_entry_cases chat_entry_absent (old_turn_unstamped H _ Hex)).
    repeat split.
Qed.

End Unstamped.

(** The theorem at a history of one turn sent without timestamp. *)
Lemma missing_timestamp_breaks_chat_witness :
  events_of (fst (chat (E := Demo.two_chunks) (lit "hey") true Demo.bare_history Demo.noon))
  = [EvChunk (lit "Hello"); EvChunk (lit "world");
     EvError (lit "'NoneType' object has no attribute 'isoformat'")]
  /\ fst (chat (E := Demo.two_chunks) (lit "hey") false Demo.bare_history Demo.noon)
     = Unhandled AttributeError.
Proof.
  assert (Hex : Exists (fun m => timestamp m = None)
                  [{| role := lit "user"; content := lit "hi"; timestamp := None;
                      image_url := None; file_url := None |}]).
  { constructor. reflexivity. }
  destruct (missing_timestamp_breaks_chat (E := Demo.two_chunks)
              (lit "hey") Demo.bare_history Demo.noon _ eq_refl Hex)
    as ((Hev & _ & _) & (Hfail & _ & _) & _).
  split; [exact Hev | exact Hfail].
Defined.

(* ================================================================= *)
(** ** C8: a model call that fails or says nothing, without streaming *)

Section Failures.
Context {E : Externals}.

(** C8, amended.  Without streaming, a model call that raises or returns
    no text still ends in a normal response: its reply is the error text,
    which starts with the cross mark, when the call raised, and the fixed
    placeholder, which carries no marker, when the call returned no text;
    that reply is the content of the assistant turn appended, after the
    user turn, to the prior history.  This holds for the text chat, when
    every prior turn carries a timestamp, and for every CSV request that
    asks the model, whose texts name the file: for an accepted upload, by
    the name of the upload. *)
Theorem failure_reply_committed (history : str) (now : datetime) (H : list ChatMessage) :
  eval (read_history history) = Normal H ->
  (forall message,
     Forall has_timestamp H ->
     failed_or_silent (generate_content (Messages (gemini_messages H message))) ->
     exists reply,
       chat message false history now
       = (Response reply
            (H ++ [user_turn message None None (replace_microsecond_0 now);
                   assistant_turn reply (replace_microsecond_0 now)]),
          {| calls := [Messages (gemini_messages H message)];
             updated_history :=
               Some (H ++ [user_turn message None None (replace_microsecond_0 now);
                           assistant_turn reply (replace_microsecond_0 now)]) |})
       /\ committed_content (snd (chat message false history now)) = Some reply
       /\ (forall e, generate_content (Messages (gemini_messages H message)) = GenRaise e ->
                     reply = cross_mark ++ lit " Error while generating text: " ++ e
                     /\ startswith reply cross_mark = true)
       /\ (generate_content (Messages (gemini_messages H message)) = GenText [] ->
           reply = lit "(No response from Gemini)"
           /\ startswith reply cross_mark = false))
  /\ (forall question file url p,
        calls (snd (chat_with_csv question file url false history now)) = [p] ->
        failed_or_silent (generate_content p) ->
        exists reply content_text file_name file_url,
          p = FullPrompt (full_prompt question (summarize_csv content_text) (Some file_name))
          /\ chat_with_csv question file url false history now
             = (Response reply
                  (H ++ [user_turn question None (Some file_url) (replace_microsecond_0 now);
                         assistant_turn reply (replace_microsecond_0 now)]),
                {| calls := [p];
                   updated_history :=
                     Some (H ++ [user_turn question None (Some file_url)
                                   (replace_microsecond_0 now);
                                 assistant_turn reply (replace_microsecond_0 now)]) |})
          /\ committed_content (snd (chat_with_csv question file url false history now))
             = Some reply
          /\ (forall e,
                generate_content p = GenRaise e ->
                reply = cross_mark ++ lit " Error analyzing **" ++ file_name ++ lit "**: " ++ e
                /\ startswith reply cross_mark = true)
          /\ (generate_content p = GenText [] ->
              reply = lit "(No response from Gemini about " ++ file_name ++ lit ")"
              /\ startswith reply cross_mark = false))
  /\ (forall question f url content_text,
        reaches_model question f content_text ->
        failed_or_silent (generate_content (analysis_prompt question f content_text)) ->
        exists reply,
          chat_with_csv question (Some f) url false history now
          = (Response reply
               (H ++ [user_turn question None
                        (Some (lit "data/processed/" ++ fmt (filename f)))
                        (replace_microsecond_0 now);
                      assistant_turn reply (replace_microsecond_0 now)]),
             {| calls := [analysis_prompt question f content_text];
                updated_history :=
                  Some (H ++ [user_turn question None
                                (Some (lit "data/processed/" ++ fmt (filename f)))
                                (replace_microsecond_0 now);
                              assistant_turn reply (replace_microsecond_0 now)]) |})
          /\ committed_content (snd (chat_with_csv question (Some f) url false history now))
             = Some reply
          /\ (forall e,
                generate_content (analysis_prompt question f content_text) = GenRaise e ->
                reply = cross_mark ++ lit " Error analyzing **"
                        ++ or_else (filename f) (lit "uploaded_file.csv") ++ lit "**: " ++ e
                /\ startswith reply cross_mark = true)
          /\ (generate_content (analysis_prompt question f content_text) = GenText [] ->
              reply = lit "(No response from Gemini about "
                      ++ or_else (filename f) (lit "uploaded_file.csv") ++ lit ")"
              /\ startswith reply cross_mark = false)).
Proof.
  intro HH. split; [|split].
  - intros message Hall Hfail.
    exists (text_reply (generate_content (Messages (gemini_messages H message)))).
    rewrite chat_atomic_run, HH. cbv zeta.
    destruct (serialise_present chat_history_entry _ quiet_chat_history_entry
                chat_entry_present
                (new_turns_stamped H message
                   (text_reply (generate_content (Messages (gemini_messages H message))))
                   None None (replace_microsecond_0 now) Hall)) as [hd [Hhd _]].
    rewrite Hhd. split; [reflexivity|]. split.
    { unfold committed_content. simpl snd. simpl updated_history. cbv iota beta.
      now rewrite last_of_two. }
    split.
    + intros e ->. split; reflexivity.
    + intros ->. split; reflexivity.
  - intros question file url p Hcalls Hfail. revert Hcalls.
    rewrite chat_with_csv_atomic_run, HH.
    destruct (load_csv_shape file url initial) as (o1 & -> & Ho1).
    destruct o1 as [[[content_text file_name] file_url]|e|]; try discriminate.
    rewrite answer_run.
    destruct (histogram_match question) as [column|]; [discriminate|]. cbv zeta.
    rewrite (summary_passes_check content_text). simpl fst; simpl snd.
    intro Hp. injection Hp as <-.
    exists (data_reply (Some file_name)
              (generate_content
                 (FullPrompt (full_prompt question (summarize_csv content_text)
                                (Some file_name))))),
      content_text, file_name, file_url.
    split; [reflexivity|]. split; [reflexivity|]. split.
    { unfold committed_content. simpl updated_history. cbv iota beta.
      now rewrite last_of_two. }
    split.
    + intros e ->. split; reflexivity.
    + intros ->. split; reflexivity.
  - intros question f url content_text Hreach Hfail.
    exists (data_reply (Some (or_else (filename f) (lit "uploaded_file.csv")))
              (generate_content (analysis_prompt question f content_text))).
    rewrite (csv_atomic_analysis question f url history now H content_text HH Hreach).
    split; [reflexivity|]. split.
    { unfold committed_content. simpl snd. simpl updated_history. cbv iota beta.
      now rewrite last_of_two. }
    split.
    + intros e ->. split; reflexivity.
    + intros ->. split; reflexivity.
Qed.

End Failures.

(** C8 fails as stated: when the model returns no text the reply is the
    placeholder, which does not start with the error marker. *)
Lemma silent_reply_not_marked :
  ~ failure_reply_marked (E := Demo.silent) (lit "hey") (lit "[]") Demo.noon.
Proof.
  intro Hc.
  destruct (Hc [] eq_refl (or_introl eq_refl)) as (reply & h & Hr & Hs & _).
  vm_compute in Hr. injection Hr as <- _.
  vm_compute in Hs. discriminate Hs.
Qed.

Lemma failure_reply_committed_witness :
  (exists reply,
     fst (chat (E := Demo.aborting) (lit "hey") false Demo.stamped_history Demo.noon)
     = Response reply
         ([{| role := lit "assistant"; content := lit "yo";
              timestamp := Some {| seconds := 1700000000; microsecond := 0 |};
              image_url := None; file_url := None |}]
          ++ [user_turn (lit "hey") None None (replace_microsecond_0 Demo.noon);
              assistant_turn reply (replace_microsecond_0 Demo.noon)])
     /\ startswith reply cross_mark = true)
  /\ committed_content
       (snd (chat_with_csv (E := Demo.silent) (lit "mean of price?")
               (Some Demo.prices_upload) None false Demo.stamped_history Demo.noon))
     = Some (lit "(No response from Gemini about prices.csv)").
Proof.
  assert (Hall : Forall has_timestamp
                   [{| role := lit "assistant"; content := lit "yo";
                       timestamp := Some {| seconds := 1700000000; microsecond := 0 |};
                       image_url := None; file_url := None |}]).
  { constructor; [discriminate | constructor]. }
  assert (Hreach : reaches_model (E := Demo.silent) (lit "mean of price?")
                     Demo.prices_upload Demo.prices_csv).
  { repeat split; vm_compute; reflexivity. }
  split.
  - destruct (proj1 (failure_reply_committed (E := Demo.aborting)
                Demo.stamped_history Demo.noon _ eq_refl) (lit "hey") Hall
                (or_intror (ex_intro _ (lit "quota exceeded") eq_refl)))
      as (reply & Hrun & _ & Hraise & _).
    exists reply. split; [now rewrite Hrun|].
    exact (proj2 (Hraise (lit "quota exceeded") eq_refl)).
  - destruct (proj2 (proj2 (failure_reply_committed (E := Demo.silent)
                Demo.stamped_history Demo.noon _ eq_refl)) (lit "mean of price?")
                Demo.prices_upload None Demo.prices_csv Hreach (or_introl eq_refl))
      as (reply & _ & Hcommitted & _ & Hsilent).
    rewrite Hcommitted. f_equal. exact (proj1 (Hsilent eq_refl)).
Defined.

(* ================================================================= *)
(** ** C5: the ten bins *)













(** [dropna] keeps the cells that are not missing, in order. *)
Lemma dropna_present (values : list (option number)) :
  filter present values = map Some (dropna values).
Proof.
  induction values as [|[v|] values IH]; simpl; [reflexivity | now f_equal | exact IH].
Qed.

Lemma map_Some_injective {A} (a b : list A) : map Some a = map Some b -> a = b.
Proof.
  revert b. induction a as [|x a IH]; intros [|y b] Hab; try discriminate; [reflexivity|].
  simpl in Hab. injection Hab as -> Hab. f_equal. now apply IH.
Qed.

(** The values the extractor hands to [np_histogram] are the non-missing
    values of the column. *)
Lemma numeric_values_non_missing (data : series) (cells : list number) :
  numeric_values data = Some cells <-> non_missing_values data cells.
Proof.
  destruct data as [values|values|values]; simpl.
  - rewrite dropna_present. split.
    + intro Hd. injection Hd as <-. reflexivity.
    + intro Hm. apply map_Some_injective in Hm. now rewrite Hm.
  - split; [intro Hd; now injection Hd as <- | now intros ->].
  - split; [discriminate | contradiction].
Qed.

Lemma non_missing_length (data : series) (cells : list number) :
  non_missing_values data cells -> length cells = non_missing data.
Proof.
  destruct data as [values|values|values]; simpl.
  - intro Hm. now rewrite Hm, length_map.
  - intros ->. now rewrite length_map.
  - contradiction.
Qed.

Section Histogram.
Context {E : Externals}.


(* ================================================================= *)
(** ** C6: resolving the requested column *)

Lemma eqb_str_eq (a b : str) : eqb_str a b = true <-> a = b.
Proof.
  revert b. induction a as [|x a IH]; intros [|y b]; simpl;
    try (split; [discriminate | discriminate]); [tauto|].
  rewrite andb_true_iff, N.eqb_eq, IH. split.
  - intros [-> ->]. reflexivity.
  - intro H. injection H as -> ->. split; reflexivity.
Qed.

Lemma find_column_none (target : str) (cols : list (str * series)) :
  (forall c, In c cols -> lower (fst c) <> target) ->
  find_column target cols = None.
Proof.
  induction cols as [|c cols IH]; intro Hno; [reflexivity|].
  simpl. destruct (eqb_str (lower (fst c)) target) eqn:Heq.
  - apply eqb_str_eq in Heq. exfalso. apply (Hno c); [now left | assumption].
  - apply IH. intros c' Hc'. apply Hno. now right.
Qed.

Lemma find_column_first (target : str) (before after : list (str * series))
    (c : str * series) :
  (forall c', In c' before -> lower (fst c') <> target) ->
  lower (fst c) = target ->
  find_column target (before ++ c :: after) = Some c.
Proof.
  intros Hno Hc. induction before as [|b before IH]; simpl.
  - now rewrite (proj2 (eqb_str_eq _ _) Hc).
  - destruct (eqb_str (lower (fst b)) target) eqn:Heq.
    + apply eqb_str_eq in Heq. exfalso. apply (Hno b); [now left | assumption].
    + apply IH. intros c' Hc'. apply Hno. now right.
Qed.

(** C6.  On a table that parses and is not empty, the Histogram Extractor
    takes the first column whose lower-cased name equals the lower-cased
    request.  With no such column it returns the error that quotes the
    requested name; when that column is not numeric it returns the error
    that quotes the column's own name; when it is numeric it returns the
    histogram that [np.histogram] computes, under the column's own name,
    or, when [np.histogram] raises, the error that carries the text of the
    exception.  Every outcome is a returned value of [hist_data]. *)
Theorem histogram_column_resolution (file_content column : str) (df : DataFrame) :
  read_csv file_content = Parsed df ->
  is_empty df = false ->
  ((forall c, In c (columns df) -> lower (fst c) <> lower column) ->
   generate_histogram_data file_content column
   = HistError (lit "Column '" ++ column ++ lit "' not found in CSV."))
  /\ (forall before name data after,
        columns df = before ++ (name, data) :: after ->
        (forall c, In c before -> lower (fst c) <> lower column) ->
        lower name = lower column ->
        match numeric_values data with
        | None =>
            generate_histogram_data file_content column
            = HistError (lit "Column '" ++ name ++ lit "' is not numeric.")
        | Some a =>
            match np_histogram a with
            | inr (hist, bins) =>
                generate_histogram_data file_content column = Hist name bins hist
            | inl e =>
                generate_histogram_data file_content column
                = HistError (lit "Failed to generate histogram: " ++ e)
            end
        end).
Proof.
  intros Hread Hne. unfold generate_histogram_data. rewrite Hread, Hne. split.
  - intro Hno. rewrite (find_column_none _ _ Hno).
    unfold quoted. now rewrite <- !app_assoc.
  - intros before name data after Hcols Hno Hname.
    rewrite Hcols, (find_column_first _ before after (name, data) Hno Hname).
    destruct (numeric_values data) as [a|].
    + destruct (np_histogram a) as [e|[hist bins]]; reflexivity.
    + unfold quoted. now rewrite <- !app_assoc.
Qed.

End Histogram.



Lemma histogram_column_resolution_witness :
  generate_histogram_data (E := Demo.silent) Demo.prices_csv (lit "age")
  = HistError (lit "Column 'age' not found in CSV.")
  /\ generate_histogram_data (E := Demo.silent) Demo.prices_csv (lit "NAME")
     = HistError (lit "Column 'Name' is not numeric.").
Proof.
  destruct (histogram_column_resolution (E := Demo.silent)
              Demo.prices_csv (lit "age") Demo.prices eq_refl eq_refl) as [Hnone _].
  destruct (histogram_column_resolution (E := Demo.silent)
              Demo.prices_csv (lit "NAME") Demo.prices eq_refl eq_refl) as [_ Hsome].
  split.
  - apply Hnone. intros c [<-|[<-|[]]]; vm_compute; discriminate.
  - apply (Hsome [] (lit "Name") (Object [Some (lit "a"); Some (lit "b"); Some (lit "c")])
             [(lit "Price", Numeric [Some (Finite (10 # 1)); Some (Finite (20 # 1));
                                     Some (Finite (35 # 1))])]
             eq_refl).
    + intros c [].
    + reflexivity.
Defined.

(* ================================================================= *)
(** ** C9: the CSV stream yields the answer twice *)

Lemma concat_filter_truthy (texts : list str) : concat (filter truthy texts) = concat texts.
Proof.
  induction texts as [|t texts IH]; [reflexivity|].
  destruct t; simpl; [assumption | now rewrite IH].
Qed.

Lemma data_chunks_done (file_name : option str) (texts : list str) (acc : str) :
  data_chunks file_name (map Frag texts) acc
  = filter truthy texts
    ++ (if truthy (strip (acc ++ concat texts)) then [strip (acc ++ concat texts)] else []).
Proof.
  revert acc. induction texts as [|t texts IH]; intro acc; simpl.
  - now rewrite app_nil_r.
  - destruct t as [|c t]; simpl truthy; cbv iota.
    + apply IH.
    + simpl. rewrite IH. now rewrite <- app_assoc.
Qed.

Lemma truthy_nonempty (s : str) : s <> [] -> truthy s = true.
Proof. destruct s; [congruence | reflexivity]. Qed.

Section Repeated.
Context {E : Externals}.

(** X3.  The router looks for the three characters U+201A U+00F9 U+00E5 at
    the head of the summary; [summarize_csv] starts its error texts with U+274C
    and its summaries with [Dataset shape]: the check never holds. *)
Theorem summary_never_flagged (content_text : str) :
  startswith (summarize_csv content_text) router_error_prefix = false.
Proof. exact (summary_passes_check content_text). Qed.

(** C9, amended.  In a streamed CSV analysis whose model stream ends
    without raising and whose concatenated text has a character that is
    not white space, the service yields each non-empty fragment and then
    one more chunk, the stripped concatenation of all of them; the client
    is sent exactly those chunks, and the assistant turn committed holds
    the concatenation followed by its stripped copy. *)
Theorem csv_stream_repeats_answer (question : str) (f : UploadFile) (url : option str)
    (history : str) (now : datetime) (H : list ChatMessage) (content_text : str)
    (texts : list str) :
  eval (read_history history) = Normal H ->
  reaches_model question f content_text ->
  generate_content_stream (analysis_prompt question f content_text) = map Frag texts ->
  strip (concat texts) <> [] ->
  (forall file_name,
     data_chunks file_name (map Frag texts) []
     = filter truthy texts ++ [strip (concat texts)])
  /\ chunks_of (events_of (fst (chat_with_csv question (Some f) url true history now)))
     = filter truthy texts ++ [strip (concat texts)]
  /\ committed_content (snd (chat_with_csv question (Some f) url true history now))
     = Some (concat texts ++ strip (concat texts)).
Proof.
  intros HH (Hup & Hmatch) Hstream Hsome.
  pose proof (summary_passes_check content_text) as Hgate.
  assert (Hchunks : forall file_name,
            data_chunks file_name (map Frag texts) []
            = filter truthy texts ++ [strip (concat texts)]).
  { intro file_name. rewrite data_chunks_done. simpl app.
    now rewrite (truthy_nonempty _ Hsome). }
  split; [exact Hchunks|].
  unfold chat_with_csv, respond_stream.
  rewrite csv_stream_response_run, HH, (load_csv_streaming_upload f url content_text _ Hup).
  simpl fst; simpl snd. rewrite answer_streaming_run, Hmatch. cbv zeta. rewrite Hgate.
  unfold analysis_prompt in Hstream. rewrite Hstream, Hchunks.
  split.
  - simpl fst. simpl events_of. simpl app.
    now rewrite chunks_of_app, chunks_of_chunks, chunks_of_closing, app_nil_r.
  - unfold committed_content. simpl snd. simpl updated_history. cbv iota beta.
    rewrite last_of_two. simpl content. unfold full_or_reply. simpl fst; simpl snd.
    now rewrite concat_app, concat_filter_truthy, (app_nil_r (strip _) : concat [_] = _).
Qed.

End Repeated.

(** C9 fails as stated: a stream of one blank fragment is relayed once;
    no final chunk follows it. *)
Lemma blank_answer_not_repeated : ~ repeats_answer None [lit " "].
Proof.
  intro Hc.
  assert (Hex : exists t, In t [lit " "] /\ t <> []).
  { exists (lit " "). split; [now left | discriminate]. }
  specialize (Hc Hex). vm_compute in Hc. discriminate Hc.
Qed.

Lemma csv_stream_repeats_answer_witness :
  chunks_of (events_of (fst
    (chat_with_csv (E := Demo.two_chunks) (lit "what is the average of column Price?")
       (Some Demo.prices_upload) None true (lit "[]") Demo.noon)))
  = [lit "Hello "; lit " world"; lit "Hello  world"]
  /\ committed_content (snd
       (chat_with_csv (E := Demo.two_chunks) (lit "what is the average of column Price?")
          (Some Demo.prices_upload) None true (lit "[]") Demo.noon))
     = Some (lit "Hello  worldHello  world").
Proof.
  assert (Hreach : reaches_model (E := Demo.two_chunks)
                     (lit "what is the average of column Price?")
                     Demo.prices_upload Demo.prices_csv).
  { repeat split; vm_compute; reflexivity. }
  assert (Hsome : strip (concat [lit "Hello "; lit " world"]) <> [])
    by (vm_compute; discriminate).
  destruct (csv_stream_repeats_answer (E := Demo.two_chunks)
              (lit "what is the average of column Price?") Demo.prices_upload None
              (lit "[]") Demo.noon [] Demo.prices_csv [lit "Hello "; lit " world"]
              eq_refl Hreach eq_refl Hsome) as (_ & Hsent & Hkept).
  split; [exact Hsent | exact Hkept].
Defined.

(* ================================================================= *)
(** ** C4: a [history] field that is not JSON *)

Section Malformed.
Context {E : Externals}.

Lemma read_history_invalid (history : str) :
  truthy history = true -> json_loads history = None ->
  eval (read_history history) = Raised invalid_history.
Proof.
  intros Ht Hj. unfold read_history.
  rewrite eval_bind by apply quiet_loads_history_guarded.
  unfold loads_history_guarded. now rewrite Ht, Hj.
Qed.

(** C4.  A non-empty [history] field that the JSON decoder rejects.  The
    text-chat and CSV endpoints answer 422 without streaming, and with
    streaming emit one error event and nothing else, with no history update
    and no model call; so does the stream of the image endpoint.  The
    non-streaming branch of the image endpoint decodes the field outside
    any [try], lets [JSONDecodeError] escape, and the status is 500. *)
Theorem malformed_history_status (history : str) :
  truthy history = true ->
  json_loads history = None ->
  (forall message now,
     status (fst (chat message false history now)) = 422
     /\ chat message true history now
        = (StreamingResponse [EvError (str_of_exn invalid_history)], initial))
  /\ (forall question file url now,
        status (fst (chat_with_csv question file url false history now)) = 422
        /\ chat_with_csv question file url true history now
           = (StreamingResponse [EvError (str_of_exn invalid_history)], initial))
  /\ (forall question file now,
        fst (chat_with_image question file false history now) = Unhandled JSONDecodeError
        /\ status (fst (chat_with_image question file false history now)) = 500
        /\ chat_with_image question file true history now
           = (StreamingResponse [EvError (str_of_exn JSONDecodeError)], initial)).
Proof.
  intros Ht Hj. pose proof (read_history_invalid history Ht Hj) as HH.
  split; [|split].
  - intros message now. rewrite chat_atomic_run, chat_streaming_run,
      chat_stream_response_run, HH. split; reflexivity.
  - intros question file url now. rewrite chat_with_csv_atomic_run.
    unfold chat_with_csv, respond_stream.
    rewrite csv_stream_response_run, HH. split; reflexivity.
  - intros question file now.
    unfold chat_with_image, respond, respond_stream, image_stream_response, try_except.
    rewrite !bind_quiet_run by apply quiet_loads_history.
    unfold loads_history. rewrite Ht, Hj. repeat split.
Qed.

End Malformed.

Lemma malformed_history_status_witness :
  status (fst (chat (E := Demo.silent) (lit "hey") false (lit "{not valid") Demo.noon)) = 422
  /\ status (fst (chat_with_image (E := Demo.silent) (lit "what is this?")
                    Demo.prices_upload false (lit "{not valid") Demo.noon)) = 500.
Proof.
  destruct (malformed_history_status (E := Demo.silent) (lit "{not valid") eq_refl eq_refl)
    as (Hchat & _ & Himage).
  split; [apply Hchat | apply Himage].
Defined.

(* ================================================================= *)
(** ** C7: the histogram route *)

Section Bypass.
Context {E : Externals}.

(** X1.  A question the pattern matches never reaches the model,
    streaming or not. *)
Theorem histogram_request_skips_model (question : str) (file : option UploadFile)
    (url : option str) (stream : bool) (history : str) (now : datetime) (column : str) :
  histogram_match question = Some column ->
  calls (snd (chat_with_csv question file url stream history now)) = [].
Proof.
  intro Hm. destruct stream.
  - unfold chat_with_csv, respond_stream. rewrite csv_stream_response_run.
    destruct (eval (read_history history)); try reflexivity.
    destruct (load_csv_streaming_shape file url initial) as (evs1 & o1 & -> & _).
    destruct o1; try reflexivity.
    rewrite answer_streaming_run, Hm. reflexivity.
  - rewrite chat_with_csv_atomic_run.
    destruct (eval (read_history history)); try reflexivity.
    destruct (load_csv_shape file url initial) as (o1 & -> & _).
    destruct o1; try reflexivity.
    rewrite answer_run, Hm. reflexivity.
Qed.

(** X2.  The captured column resolves to a numeric column of the uploaded
    table, whose non-missing values are [cells].  When [np.histogram]
    returns counts and bins for them, the reply is the banner followed by
    the serialised histogram; when it raises, the reply is the error text
    of the extractor, with the text of the exception. *)
Theorem histogram_request_reply (question : str) (f : UploadFile) (url : option str)
    (history : str) (now : datetime) (H : list ChatMessage) (content_text column : str)
    (df : DataFrame) (name : str) (data : series) (cells : list number) :
  eval (read_history history) = Normal H ->
  upload_accepted f content_text ->
  histogram_match question = Some column ->
  read_csv content_text = Parsed df ->
  is_empty df = false ->
  find_column (lower column) (columns df) = Some (name, data) ->
  non_missing_values data cells ->
  (forall hist bins,
     np_histogram cells = inr (hist, bins) ->
     exists history_out,
       fst (chat_with_csv question (Some f) url false history now)
       = Response (histogram_banner ++ lit " Histogram data for '" ++ column ++ lit "':" ++ nl
                   ++ dumps_hist (Hist name bins hist))
                  history_out)
  /\ (forall e,
        np_histogram cells = inl e ->
        exists history_out,
          fst (chat_with_csv question (Some f) url false history now)
          = Response (lit "Failed to generate histogram: " ++ e) history_out).
Proof.
  intros HH Hup Hm Hread Hne Hfind Hcells.
  pose proof (proj2 (numeric_values_non_missing data cells) Hcells) as Hnum.
  rewrite chat_with_csv_atomic_run, HH, (load_csv_upload f url content_text _ Hup).
  simpl fst; simpl snd. rewrite answer_run, Hm.
  unfold generate_histogram_data. rewrite Hread, Hne, Hfind, Hnum. split.
  - intros hist bins ->. eexists. simpl fst. unfold histogram_reply, quoted.
    now rewrite <- !app_assoc.
  - intros e ->. eexists. reflexivity.
Qed.

End Bypass.

Lemma histogram_request_skips_model_witness :
  calls (snd (chat_with_csv (E := Demo.two_chunks) (lit "histogram of Price")
                (Some Demo.prices_upload) None true (lit "[]") Demo.noon)) = [].
Proof.
  apply (histogram_request_skips_model (E := Demo.two_chunks) (lit "histogram of Price")
           (Some Demo.prices_upload) None true (lit "[]") Demo.noon (lit "price")).
  vm_compute. reflexivity.
Defined.

Lemma histogram_request_reply_witness :
  (exists history_out,
     fst (chat_with_csv (E := Demo.two_chunks) (lit "histogram of Price")
            (Some Demo.prices_upload) None false (lit "[]") Demo.noon)
     = Response
         (histogram_banner ++ lit " Histogram data for 'price':" ++ nl
          ++ lit "{column: Price, bins: [100/10, 125/10, 150/10, 175/10, 200/10, 225/10, "
          ++ lit "250/10, 275/10, 300/10, 325/10, 350/10], "
          ++ lit "counts: [1, 0, 0, 0, 1, 0, 0, 0, 0, 1]}")
         history_out)
  /\ (exists history_out,
        fst (chat_with_csv (E := Cases.unbounded) (lit "histogram of x")
               (Some Cases.unbounded_upload) None false (lit "[]") Demo.noon)
        = Response
            (lit "Failed to generate histogram: "
             ++ lit "autodetected range of [1.0, inf] is not finite")
            history_out).
Proof.
  assert (Hup : upload_accepted (E := Demo.two_chunks) Demo.prices_upload Demo.prices_csv).
  { repeat split; vm_compute; reflexivity. }
  assert (Hup' : upload_accepted (E := Cases.unbounded) Cases.unbounded_upload
                   Cases.unbounded_csv).
  { repeat split; vm_compute; reflexivity. }
  split.
  - destruct (proj1 (histogram_request_reply (E := Demo.two_chunks) (lit "histogram of Price")
                Demo.prices_upload None (lit "[]") Demo.noon [] Demo.prices_csv (lit "price")
                Demo.prices (lit "Price")
                (Numeric [Some (Finite (10 # 1)); Some (Finite (20 # 1));
                          Some (Finite (35 # 1))])
                [Finite (10 # 1); Finite (20 # 1); Finite (35 # 1)]
                eq_refl Hup eq_refl eq_refl eq_refl eq_refl eq_refl) _ _ eq_refl) as [h Hh].
    exists h. rewrite Hh. vm_compute. reflexivity.
  - exact (proj2 (histogram_request_reply (E := Cases.unbounded) (lit "histogram of x")
                Cases.unbounded_upload None (lit "[]") Demo.noon [] Cases.unbounded_csv
                (lit "x") Cases.unbounded_table (lit "x")
                (Numeric [Some (Finite (1 # 1)); Some (Infinite false)])
                [Finite (1 # 1); Infinite false]
                eq_refl Hup' eq_refl eq_refl eq_refl eq_refl eq_refl)
             (lit "autodetected range of [1.0, inf] is not finite") eq_refl).
Defined.

(** C7, at the request of the specification's scenario.  In
    [plot histogram of Price] the pattern takes [plot] as the trigger and
    captures [histogram] as the column, so a table with a numeric [Price]
    column gets the column-not-found error for reply, with or without
    streaming.  The model is not called.  The shorter request
    [histogram of Price] captures [price]. *)
Theorem plot_histogram_of_price :
  histogram_match (E := Demo.silent) (lit "plot histogram of Price") = Some (lit "histogram")
  /\ fst (chat_with_csv (E := Demo.silent) (lit "plot histogram of Price")
            (Some Demo.prices_upload) None false (lit "[]") Demo.noon)
     = Response (lit "Column 'histogram' not found in CSV.")
         [user_turn (lit "plot histogram of Price") None
            (Some (lit "data/processed/prices.csv")) (replace_microsecond_0 Demo.noon);
          assistant_turn (lit "Column 'histogram' not found in CSV.")
            (replace_microsecond_0 Demo.noon)]
  /\ replies_of (events_of (fst
       (chat_with_csv (E := Demo.silent) (lit "plot histogram of Price")
          (Some Demo.prices_upload) None true (lit "[]") Demo.noon)))
     = [lit "Column 'histogram' not found in CSV."]
  /\ calls (snd (chat_with_csv (E := Demo.silent) (lit "plot histogram of Price")
                   (Some Demo.prices_upload) None false (lit "[]") Demo.noon)) = []
  /\ histogram_match (E := Demo.silent) (lit "histogram of Price") = Some (lit "price").
Proof. repeat split; vm_compute; reflexivity. Qed.

(* ================================================================= *)
(** ** What reading and serialising can raise *)

Lemma raises_only_ret {A} (P : exn -> Prop) (a : A) : raises_only P (ret a).
Proof. exact I. Qed.

Lemma raises_only_raise {A} (P : exn -> Prop) (e : exn) : P e -> raises_only P (@raise A e).
Proof. intro H. exact H. Qed.

Lemma raises_only_bind {A B} (P : exn -> Prop) (m : gen A) (k : A -> gen B) :
  quiet m -> raises_only P m -> (forall a, raises_only P (k a)) -> raises_only P (bind m k).
Proof.
  intros Hq Hm Hk. unfold raises_only in *. rewrite eval_bind by assumption.
  destruct (eval m); [apply Hk | assumption | assumption].
Qed.

Lemma raises_only_for_each {A B} (P : exn -> Prop) (f : A -> gen B) (xs : list A) :
  (forall x, quiet (f x)) -> (forall x, raises_only P (f x)) ->
  raises_only P (for_each f xs).
Proof.
  intros Hq Hf. induction xs as [|x xs IH]; simpl.
  - apply raises_only_ret.
  - apply raises_only_bind; [apply Hq | apply Hf |]. intro y.
    apply raises_only_bind; [now apply quiet_for_each | exact IH |].
    intro ys. apply raises_only_ret.
Qed.

Section Outcomes.
Context {E : Externals}.

Lemma raises_only_required {A} (parse : json -> option A) (v : option json) :
  raises_only validation_error (required parse v).
Proof.
  destruct v as [j|]; simpl; [destruct (parse j)|];
    first [apply raises_only_ret | apply raises_only_raise; right; reflexivity].
Qed.

Lemma raises_only_optional {A} (parse : json -> option A) (v : option json) :
  raises_only validation_error (optional parse v).
Proof.
  destruct v as [j|]; simpl; [|apply raises_only_ret].
  destruct j; try apply raises_only_ret; simpl;
    match goal with |- context [parse ?j] => destruct (parse j) end;
    first [apply raises_only_ret | apply raises_only_raise; right; reflexivity].
Qed.

Lemma raises_only_validate_message (msg : json) :
  raises_only validation_error (validate_message msg).
Proof.
  destruct msg; try (apply raises_only_raise; left; reflexivity). simpl.
  repeat (apply raises_only_bind;
          [first [apply quiet_required | apply quiet_optional]
          |first [apply raises_only_required | apply raises_only_optional]
          |intro]).
  apply raises_only_ret.
Qed.

Lemma raises_only_history_messages_of (v : json) :
  raises_only validation_error (history_messages_of v).
Proof.
  apply raises_only_bind; [apply quiet_iterate | |].
  - destruct v; first [apply raises_only_ret | apply raises_only_raise; left; reflexivity].
  - intro items. apply raises_only_for_each;
      [apply quiet_validate_message | apply raises_only_validate_message].
Qed.

Lemma raises_only_weaken {A} (P Q : exn -> Prop) (m : gen A) :
  (forall e, P e -> Q e) -> raises_only P m -> raises_only Q m.
Proof. intros HPQ. unfold raises_only. destruct (eval m); auto. Qed.

Lemma raises_only_read_history (history : str) :
  raises_only reading_error (read_history history).
Proof.
  apply raises_only_bind; [apply quiet_loads_history_guarded | |].
  - unfold loads_history_guarded.
    destruct (truthy history); [destruct (json_loads history)|];
      first [apply raises_only_ret | apply raises_only_raise; left; reflexivity].
  - intro v. apply (raises_only_weaken validation_error); [now right|].
    apply raises_only_history_messages_of.
Qed.

Lemma read_history_never_returns (history : str) : eval (read_history history) <> Returned.
Proof.
  pose proof (raises_only_read_history history) as H. unfold raises_only in H.
  intro Hr. now rewrite Hr in H.
Qed.

Lemma raises_only_timestamp (entry : ChatMessage -> gen json) (l : list ChatMessage) :
  (forall m, quiet (entry m)) ->
  (forall m, eval (entry m) = Raised AttributeError \/ exists j, eval (entry m) = Normal j) ->
  raises_only (fun e => e = AttributeError) (for_each entry l).
Proof.
  intros Hq Hc. apply raises_only_for_each; [assumption|].
  intro m. unfold raises_only. destruct (Hc m) as [-> | [j ->]]; [reflexivity | exact I].
Qed.

(** After the history update a stream ends with exactly one event. *)
Lemma closing_is_one_terminal (entry : ChatMessage -> gen json) (l : list ChatMessage) :
  (forall m, quiet (entry m)) ->
  (forall m, eval (entry m) = Raised AttributeError \/ exists j, eval (entry m) = Normal j) ->
  exists final,
    closing_events (eval (for_each entry l)) = [final] /\ is_terminal final = true.
Proof.
  intros Hq Hc. pose proof (raises_only_timestamp entry l Hq Hc) as H.
  unfold raises_only in H.
  destruct (eval (for_each entry l)); [| |destruct H]; eexists; split; reflexivity.
Qed.

(* ================================================================= *)
(** ** Runs of the image stream *)

Lemma quiet_image_history_entry (msg : ChatMessage) : quiet (image_history_entry msg).
Proof.
  apply quiet_bind; [apply quiet_timestamp_isoformat | intro; apply quiet_ret].
Qed.

Lemma image_entry_present (m : ChatMessage) :
  has_timestamp m -> exists j, eval (image_history_entry m) = Normal j.
Proof.
  unfold has_timestamp, image_history_entry.
  rewrite eval_bind by apply quiet_timestamp_isoformat.
  unfold timestamp_isoformat. intro Hm.
  destruct (timestamp m); [eexists; reflexivity | congruence].
Qed.

Lemma read_history_unguarded_bind {B} (history : str) (k : list ChatMessage -> gen B)
    (s : run_state) :
  bind (loads_history history)
       (fun history_list => bind (history_messages_of history_list) k) s
  = match eval (read_history_unguarded history) with
    | Normal H => k H s
    | Raised e => ([], Raised e, s)
    | Returned => ([], Returned, s)
    end.
Proof.
  rewrite bind_quiet_run by apply quiet_loads_history.
  unfold read_history_unguarded. rewrite eval_bind by apply quiet_loads_history.
  destruct (eval (loads_history history)); try reflexivity.
  apply bind_quiet_run, quiet_history_messages_of.
Qed.

Lemma image_stream_response_run (question : str) (file : UploadFile) (history : str)
    (now : datetime) :
  image_stream_response question file true history now initial =
  match eval (read_history_unguarded history) with
  | Normal H =>
      match save_uploaded_image file with
      | inl e => ([EvError (str_of_exn e)], Normal tt, initial)
      | inr image_path =>
          let chunks := fst (ask_gemini_with_image_streaming question image_path) in
          match snd (ask_gemini_with_image_streaming question image_path) with
          | Some e => (map EvChunk chunks ++ [EvError (str_of_exn e)], Normal tt, initial)
          | None =>
              let updated :=
                H ++ [user_turn question (Some (uploads_url image_path)) None
                        (replace_microsecond_0 now);
                      assistant_turn (strip (concat chunks)) (replace_microsecond_0 now)] in
              (map EvChunk chunks ++ closing_events (eval (for_each image_history_entry updated)),
               match eval (for_each image_history_entry updated) with
               | Returned => Returned
               | _ => Normal tt
               end,
               {| calls := []; updated_history := Some updated |})
          end
      end
  | Raised e => ([EvError (str_of_exn e)], Normal tt, initial)
  | Returned => ([], Returned, initial)
  end.
Proof.
  unfold image_stream_response, try_except.
  rewrite read_history_unguarded_bind.
  destruct (eval (read_history_unguarded history)) as [H|e|]; try reflexivity.
  unfold bind at 1.
  destruct (save_uploaded_image file) as [e|image_path]; [reflexivity|].
  unfold ret at 1. cbv iota beta.
  destruct (ask_gemini_with_image_streaming question image_path) as [chunks failure].
  unfold bind at 1. unfold bind at 1. rewrite relay_plain_run.
  destruct failure as [e|]; simpl.
  - now rewrite app_nil_r.
  - unfold bind, assign_updated_history, yield, ret. simpl.
    rewrite (quiet_for_each image_history_entry _ quiet_image_history_entry).
    destruct (eval (for_each image_history_entry _)); simpl;
      rewrite ?app_nil_r; reflexivity.
Qed.

Lemma image_entry_cases (m : ChatMessage) :
  eval (image_history_entry m) = Raised AttributeError
  \/ exists j, eval (image_history_entry m) = Normal j.
Proof.
  unfold image_history_entry. rewrite eval_bind by apply quiet_timestamp_isoformat.
  unfold timestamp_isoformat. destruct (timestamp m); [right; eexists|left]; reflexivity.
Qed.

Lemma read_history_unguarded_never_returns (history : str) :
  eval (read_history_unguarded history) <> Returned.
Proof.
  assert (H : raises_only (fun e => e = JSONDecodeError \/ validation_error e)
                (read_history_unguarded history)).
  { apply raises_only_bind; [apply quiet_loads_history | |].
    - unfold loads_history.
      destruct (truthy history); [destruct (json_loads history)|];
        first [apply raises_only_ret | apply raises_only_raise; left; reflexivity].
    - intro v. apply (raises_only_weaken validation_error); [now right|].
      apply raises_only_history_messages_of. }
  unfold raises_only in H. intro Hr. now rewrite Hr in H.
Qed.

(* ================================================================= *)
(** ** The order of events in a stream *)

Lemma orderly_lone_error (e : str) : orderly [EvError e].
Proof. exists [], (EvError e). repeat split. left. now exists []. Qed.

(** X4.  Every stream of the three endpoints is either relayed fragments
    only, or one reply, or nothing, followed by exactly one terminal event,
    a history event or an error event: nothing comes after the terminal
    event, fragments and a reply never mix, and no stream is empty. *)
Theorem streams_are_orderly :
  (forall message history now,
     orderly (events_of (fst (chat message true history now))))
  /\ (forall question file url history now,
        orderly (events_of (fst (chat_with_csv question file url true history now))))
  /\ (forall question file history now,
        orderly (events_of (fst (chat_with_image question file true history now)))).
Proof.
  split; [|split].
  - intros message history now.
    rewrite chat_streaming_run, chat_stream_response_run.
    pose proof (read_history_never_returns history) as Hnr.
    destruct (eval (read_history history)) as [H|e|]; [| apply orderly_lone_error | congruence].
    cbv zeta. simpl fst. simpl events_of.
    destruct (closing_is_one_terminal chat_history_entry
                (H ++ [user_turn message None None (replace_microsecond_0 now);
                       assistant_turn
                         (strip (spaced (text_chunks
                            (generate_content_stream (Messages (gemini_messages H message))))))
                         (replace_microsecond_0 now)])
                quiet_chat_history_entry chat_entry_cases) as [final [-> Hf]].
    eexists _, final. repeat split; [assumption|]. left. eauto.
  - intros question file url history now.
    unfold chat_with_csv, respond_stream. rewrite csv_stream_response_run.
    pose proof (read_history_never_returns history) as Hnr.
    destruct (eval (read_history history)) as [H|e|]; [| apply orderly_lone_error | congruence].
    destruct (load_csv_streaming_shape file url initial) as (evs1 & o1 & -> & Ho1).
    destruct o1 as [loaded|e|].
    2: { subst evs1. apply orderly_lone_error. }
    2: { destruct Ho1 as [e ->]. apply orderly_lone_error. }
    subst evs1. rewrite answer_streaming_run.
    destruct (histogram_match question) as [column|]; cbv zeta.
    + simpl fst. simpl events_of. simpl app.
      match goal with |- context [closing_events (eval (for_each csv_history_entry ?l))] =>
        destruct (closing_is_one_terminal csv_history_entry l
                    quiet_csv_history_entry csv_entry_cases) as [final [-> Hf]] end.
      exists [EvReply (histogram_reply column
                         (generate_histogram_data (fst (fst loaded)) column))], final.
      repeat split; [assumption|]. right. eauto.
    + destruct (startswith _ _); [apply orderly_lone_error|].
      simpl fst. simpl events_of. simpl app.
      match goal with |- context [closing_events (eval (for_each csv_history_entry ?l))] =>
        destruct (closing_is_one_terminal csv_history_entry l
                    quiet_csv_history_entry csv_entry_cases) as [final [-> Hf]] end.
      eexists _, final. repeat split; [assumption|]. left. eauto.
  - intros question file history now.
    unfold chat_with_image, respond_stream. rewrite image_stream_response_run.
    pose proof (read_history_unguarded_never_returns history) as Hnr.
    destruct (eval (read_history_unguarded history)) as [H|e|];
      [| apply orderly_lone_error | congruence].
    destruct (save_uploaded_image file) as [e|image_path]; [apply orderly_lone_error|].
    cbv zeta.
    destruct (snd (ask_gemini_with_image_streaming question image_path)) as [e|].
    + simpl fst. simpl events_of.
      eexists _, (EvError (str_of_exn e)). repeat split. left. eauto.
    + simpl fst. simpl events_of.
      match goal with |- context [closing_events (eval (for_each image_history_entry ?l))] =>
        destruct (closing_is_one_terminal image_history_entry l
                    quiet_image_history_entry image_entry_cases) as [final [-> Hf]] end.
      eexists _, final. repeat split; [assumption|]. left. eauto.
Qed.

(* ================================================================= *)
(** ** How often, and with what, the model is asked *)

(** X5.  No request asks the model more than once.  A text-chat request
    asks exactly once when its history reads, with the messages composed
    from that history and the new message, and not at all otherwise. *)
Theorem model_asked_at_most_once :
  (forall message stream history now,
     calls (snd (chat message stream history now))
     = match eval (read_history history) with
       | Normal H => [Messages (gemini_messages H message)]
       | _ => []
       end)
  /\ (forall question file url stream history now,
        length (calls (snd (chat_with_csv question file url stream history now))) <= 1).
Proof.
  split.
  - intros message [] history now.
    + rewrite chat_streaming_run, chat_stream_response_run.
      destruct (eval (read_history history)); reflexivity.
    + rewrite chat_atomic_run. destruct (eval (read_history history)); reflexivity.
  - intros question file url [] history now.
    + unfold chat_with_csv, respond_stream. rewrite csv_stream_response_run.
      destruct (eval (read_history history)); simpl; try lia.
      destruct (load_csv_streaming_shape file url initial) as (evs1 & o1 & -> & _).
      destruct o1; simpl; try lia.
      rewrite answer_streaming_run.
      destruct (histogram_match question); cbv zeta; simpl; try lia.
      destruct (startswith _ _); simpl; lia.
    + rewrite chat_with_csv_atomic_run.
      destruct (eval (read_history history)); simpl; try lia.
      destruct (load_csv_shape file url initial) as (o1 & -> & _).
      destruct o1; simpl; try lia.
      rewrite answer_run.
      destruct (histogram_match question); cbv zeta; simpl; try lia.
      destruct (startswith _ _); simpl; lia.
Qed.

(** X6.  The CSV endpoint does not replay the conversation to the model:
    two requests that differ only in their (readable) history and in the
    time they arrive send the model the same prompts. *)
Theorem csv_prompt_ignores_history (question : str) (file : option UploadFile)
    (url : option str) (stream : bool) (history1 history2 : str) (now1 now2 : datetime)
    (H1 H2 : list ChatMessage) :
  eval (read_history history1) = Normal H1 ->
  eval (read_history history2) = Normal H2 ->
  calls (snd (chat_with_csv question file url stream history1 now1))
  = calls (snd (chat_with_csv question file url stream history2 now2)).
Proof.
  intros HH1 HH2. destruct stream.
  - unfold chat_with_csv, respond_stream. rewrite !csv_stream_response_run, HH1, HH2.
    destruct (load_csv_streaming file url initial) as [[evs1 [loaded|e|]] s1]; try reflexivity.
    destruct (answer_streaming _ _ _ _ s1) as [[evs2 [rf|e|]] s2]; reflexivity.
  - rewrite !chat_with_csv_atomic_run, HH1, HH2.
    destruct (load_csv file url initial) as [[evs1 [loaded|e|]] s1]; try reflexivity.
    destruct (answer _ _ _ s1) as [[evs2 [rf|e|]] s2]; reflexivity.
Qed.

End Outcomes.

Lemma csv_prompt_ignores_history_witness :
  calls (snd (chat_with_csv (E := Demo.two_chunks) (lit "what is the average of column Price?")
                (Some Demo.prices_upload) None true (lit "[]") Demo.noon))
  = calls (snd (chat_with_csv (E := Demo.two_chunks) (lit "what is the average of column Price?")
                  (Some Demo.prices_upload) None true Demo.stamped_history
                  {| seconds := 5; microsecond := 0 |})).
Proof.
  exact (csv_prompt_ignores_history (E := Demo.two_chunks)
           (lit "what is the average of column Price?") (Some Demo.prices_upload) None true
           (lit "[]") Demo.stamped_history Demo.noon {| seconds := 5; microsecond := 0 |}
           [] _ eq_refl eq_refl).
Defined.

(** X7.  The messages composed for the model keep the order and the
    contents of the history and end with the new message under the role
    [user]; the role [assistant] is sent as [model], every other role as it
    is, so no message goes out under the role [assistant]. *)
Theorem composed_messages (H : list ChatMessage) (message : str) :
  map snd (gemini_messages H message) = map content H ++ [message]
  /\ map fst (gemini_messages H message)
     = map (fun m => if eqb_str (role m) (lit "assistant") then lit "model" else role m) H
       ++ [lit "user"]
  /\ Forall (fun p => fst p <> lit "assistant") (gemini_messages H message)
  /\ length (gemini_messages H message) = length H + 1.
Proof.
  unfold gemini_messages. repeat split.
  - rewrite map_app, map_map. reflexivity.
  - rewrite map_app, map_map. reflexivity.
  - apply Forall_app. split.
    + apply Forall_map, Forall_forall. intros m _. simpl.
      destruct (eqb_str (role m) (lit "assistant")) eqn:Hr; [discriminate|].
      intro Heq. apply eqb_str_eq in Heq. congruence.
    + repeat constructor. discriminate.
  - rewrite length_app, length_map. reflexivity.
Qed.

(* ================================================================= *)
(** ** Requests that end before the model is asked *)

Section Rejections.
Context {E : Externals}.

Lemma read_history_decoded (history : str) (v : json) :
  truthy history = true -> json_loads history = Some v ->
  eval (read_history history) = eval (history_messages_of v).
Proof.
  intros Ht Hj. unfold read_history.
  rewrite eval_bind by apply quiet_loads_history_guarded.
  unfold loads_history_guarded. now rewrite Ht, Hj.
Qed.

Lemma status_of_validation_error (e : exn) :
  validation_error e -> status (Unhandled e) = 500.
Proof. intros [-> | ->]; reflexivity. Qed.

Lemma read_history_unguarded_decoded (history : str) (v : json) :
  truthy history = true -> json_loads history = Some v ->
  eval (read_history_unguarded history) = eval (history_messages_of v).
Proof.
  intros Ht Hj. unfold read_history_unguarded.
  rewrite eval_bind by apply quiet_loads_history.
  unfold loads_history. now rewrite Ht, Hj.
Qed.

(** An item that cannot become a message makes the constructor raise. *)
Lemma no_message_raises (item : json) :
  no_message item ->
  exists e, validation_error e /\ eval (validate_message item) = Raised e.
Proof.
  destruct item as [ | b | q | s | items | members]; simpl;
    try (intros _; exists TypeError; split; [now left | reflexivity]).
  intros [Hrole | Hcontent].
  - exists ValidationError. split; [now right|].
    rewrite eval_bind by apply quiet_required. now rewrite Hrole.
  - rewrite eval_bind by apply quiet_required.
    pose proof (raises_only_required pydantic_str (lookup (lit "role") members)) as Hr.
    unfold raises_only in Hr.
    destruct (eval (required pydantic_str (lookup (lit "role") members))) as [r|e|];
      [| now exists e | contradiction].
    exists ValidationError. split; [now right|].
    rewrite eval_bind by apply quiet_required. now rewrite Hcontent.
Qed.

(** The loop over the items stops at the first item that raises. *)
Lemma for_each_raises {A B} (P : exn -> Prop) (f : A -> gen B) (xs : list A) :
  (forall x, quiet (f x)) ->
  (forall x, raises_only P (f x)) ->
  Exists (fun x => exists e, P e /\ eval (f x) = Raised e) xs ->
  exists e, P e /\ eval (for_each f xs) = Raised e.
Proof.
  intros Hq Hr Hex. induction Hex as [x xs (e & He & Hx) | x xs Hex IH];
    rewrite eval_for_each_cons by assumption.
  - exists e. now rewrite Hx.
  - pose proof (Hr x) as Hx. unfold raises_only in Hx.
    destruct (eval (f x)) as [y|e|]; [| now exists e | contradiction].
    destruct IH as (e & He & ->). now exists e.
Qed.

Lemma no_message_list_raises (v : json) :
  no_message_list v ->
  exists e, validation_error e /\ eval (history_messages_of v) = Raised e.
Proof.
  intro Hv. unfold history_messages_of. rewrite eval_bind by apply quiet_iterate.
  assert (Hitems : forall items,
            Exists no_message items ->
            exists e, validation_error e /\ eval (for_each validate_message items) = Raised e).
  { intros items Hex.
    apply for_each_raises;
      [apply quiet_validate_message | apply raises_only_validate_message |].
    apply Exists_exists in Hex. destruct Hex as (item & Hin & Hno).
    apply Exists_exists. exists item. split; [assumption | now apply no_message_raises]. }
  destruct v as [ | b | q | s | items | members]; simpl in *;
    try (exists TypeError; split; [now left | reflexivity]).
  - destruct s as [|c s]; [congruence|].
    apply Hitems. simpl. now left.
  - now apply Hitems.
  - destruct members as [|kv members]; [congruence|].
    apply Hitems. simpl. now left.
Qed.

(** X8.  A non-empty [history] field that decodes to JSON [v].  When [v]
    is no list of messages (a number, a boolean or [null]; a non-empty
    string or dict; a list with an item that is no dict or lacks [role] or
    [content]), building the messages raises [TypeError] or a validation
    error before the model is asked; the handlers turn only the decoding
    error into 422, so without streaming the status is 500, and with
    streaming, in all three endpoints, the client gets one error event.
    When [v] is an empty dict, an empty string or an empty list, the field
    reads as no history at all. *)
Theorem unusable_history_status (history : str) (v : json) :
  truthy history = true ->
  json_loads history = Some v ->
  (no_message_list v ->
   exists e,
     (e = TypeError \/ e = ValidationError)
     /\ eval (read_history history) = Raised e
     /\ (forall message now,
           fst (chat message false history now) = Unhandled e
           /\ status (fst (chat message false history now)) = 500
           /\ chat message true history now
              = (StreamingResponse [EvError (str_of_exn e)], initial))
     /\ (forall question file url now,
           fst (chat_with_csv question file url false history now) = Unhandled e
           /\ status (fst (chat_with_csv question file url false history now)) = 500
           /\ chat_with_csv question file url true history now
              = (StreamingResponse [EvError (str_of_exn e)], initial))
     /\ (forall question file now,
           chat_with_image question file true history now
           = (StreamingResponse [EvError (str_of_exn e)], initial)))
  /\ (v = JObj [] \/ v = JStr [] \/ v = JArr [] ->
      eval (read_history history) = Normal []).
Proof.
  intros Ht Hj.
  pose proof (read_history_decoded history v Ht Hj) as HH.
  pose proof (read_history_unguarded_decoded history v Ht Hj) as HU.
  split.
  - intro Hv. destruct (no_message_list_raises v Hv) as (e & Hkind & He).
    rewrite He in HH, HU. exists e.
    split; [exact Hkind|]. split; [exact HH|]. split; [|split].
    + intros message now.
      rewrite chat_atomic_run, chat_streaming_run, chat_stream_response_run, HH.
      simpl fst. rewrite (status_of_validation_error e Hkind). repeat split.
    + intros question file url now. rewrite chat_with_csv_atomic_run.
      unfold chat_with_csv, respond_stream. rewrite csv_stream_response_run, HH.
      simpl fst. rewrite (status_of_validation_error e Hkind). repeat split.
    + intros question file now. unfold chat_with_image, respond_stream.
      now rewrite image_stream_response_run, HU.
  - rewrite HH. intros [-> | [-> | ->]]; reflexivity.
Qed.

(** X9.  With a readable history: a CSV request with neither file nor URL,
    and a CSV request whose uploaded file is blank, end at once.  With
    streaming the client gets one error event naming the condition; without
    streaming the status is 400 with the same text.  The model is not
    asked and no history is built. *)
Theorem csv_source_required (question history : str) (now : datetime)
    (H : list ChatMessage) :
  eval (read_history history) = Normal H ->
  (forall url,
     url = None \/ url = Some [] ->
     chat_with_csv question None url true history now
     = (StreamingResponse [EvError (lit "Must provide either file or URL.")], initial)
     /\ chat_with_csv question None url false history now
        = (Unhandled (HTTPException 400 (lit "Must provide either file or URL.")), initial))
  /\ (forall f url content_text,
        decode_utf8_sig (content_bytes f) = Some content_text ->
        strip content_text = [] ->
        chat_with_csv question (Some f) url true history now
        = (StreamingResponse [EvError (lit "The CSV file is empty or contains no data.")],
           initial)
        /\ chat_with_csv question (Some f) url false history now
           = (Unhandled (HTTPException 400 (lit "The CSV file is empty or contains no data.")),
              initial)).
Proof.
  intro HH. split.
  - intros url Hu. rewrite chat_with_csv_atomic_run.
    unfold chat_with_csv, respond_stream. rewrite csv_stream_response_run, HH.
    destruct Hu as [-> | ->]; split; reflexivity.
  - intros f url text Hd Hblank. rewrite chat_with_csv_atomic_run.
    unfold chat_with_csv, respond_stream. rewrite csv_stream_response_run, HH.
    unfold load_csv_streaming, load_csv. rewrite Hd, Hblank. split; reflexivity.
Qed.

(** X10.  A download that fails never yields the HTTP 400 the service
    writes: [csv_service] takes [HTTPException] from [http.client], whose
    constructor accepts no keyword argument, so the [raise] itself raises
    [TypeError].  Without streaming the status is 500; with streaming the
    client gets one error event.  The same holds for an upload over the
    size limit. *)
Theorem failed_download_status (question history : str) (now : datetime)
    (H : list ChatMessage) (u : str) :
  eval (read_history history) = Normal H ->
  truthy u = true ->
  requests_get u = None ->
  fst (chat_with_csv question None (Some u) false history now) = Unhandled TypeError
  /\ status (fst (chat_with_csv question None (Some u) false history now)) = 500
  /\ chat_with_csv question None (Some u) true history now
     = (StreamingResponse [EvError (str_of_exn TypeError)], initial)
  /\ (forall f url content_text,
        decode_utf8_sig (content_bytes f) = Some content_text ->
        truthy (strip content_text) = true ->
        (MAX_CSV_SIZE <? N.of_nat (length (content_bytes f)))%N = true ->
        fst (chat_with_csv question (Some f) url false history now) = Unhandled TypeError
        /\ chat_with_csv question (Some f) url true history now
           = (StreamingResponse [EvError (str_of_exn TypeError)], initial)).
Proof.
  intros HH Hu Hget.
  assert (Hatomic : chat_with_csv question None (Some u) false history now
                    = (Unhandled TypeError, initial)).
  { rewrite chat_with_csv_atomic_run, HH.
    unfold load_csv, download_csv_from_url. now rewrite Hu, Hget. }
  split; [now rewrite Hatomic|]. split; [now rewrite Hatomic|]. split.
  - unfold chat_with_csv, respond_stream. rewrite csv_stream_response_run, HH.
    unfold load_csv_streaming, download_csv_from_url. now rewrite Hu, Hget.
  - intros f url text Hd Ht Hbig. split.
    + rewrite chat_with_csv_atomic_run, HH.
      unfold load_csv, save_uploaded_csv. rewrite Hd, Ht. simpl negb. cbv iota.
      rewrite Hbig. reflexivity.
    + unfold chat_with_csv, respond_stream.
      rewrite csv_stream_response_run, HH.
      unfold load_csv_streaming, save_uploaded_csv. rewrite Hd, Ht. simpl negb. cbv iota.
      rewrite Hbig. reflexivity.
Qed.

End Rejections.

Lemma unusable_history_status_witness :
  status (fst (chat (E := Cases.loose) (lit "hey") false (lit "[{}]") Demo.noon)) = 500
  /\ (exists e, chat (E := Cases.loose) (lit "hey") true (lit "[5]") Demo.noon
                = (StreamingResponse [EvError (Demo.exn_text e)], initial)).
Proof.
  split.
  - destruct (proj1 (unusable_history_status (E := Cases.loose) (lit "[{}]") (JArr [JObj []])
                       eq_refl eq_refl))
      as (e & _ & _ & Hchat & _).
    + constructor. now left.
    + apply (Hchat (lit "hey") Demo.noon).
  - destruct (proj1 (unusable_history_status (E := Cases.loose) (lit "[5]")
                       (JArr [JNum (5 # 1)%Q]) eq_refl eq_refl))
      as (e & _ & _ & Hchat & _).
    + constructor. exact I.
    + exists e. apply (Hchat (lit "hey") Demo.noon).
Defined.

Lemma csv_source_required_witness :
  chat_with_csv (E := Demo.two_chunks) (lit "mean of Price?") None None true (lit "[]") Demo.noon
  = (StreamingResponse [EvError (lit "Must provide either file or URL.")], initial)
  /\ status (fst (chat_with_csv (E := Demo.two_chunks) (lit "mean of Price?")
                    (Some Cases.blank_upload) None false (lit "[]") Demo.noon)) = 400.
Proof.
  destruct (csv_source_required (E := Demo.two_chunks) (lit "mean of Price?") (lit "[]")
              Demo.noon [] eq_refl) as [Hnone Hblank].
  split.
  - apply (Hnone None). now left.
  - destruct (Hblank Cases.blank_upload None (lit "  " ++ nl) eq_refl eq_refl) as [_ Hb].
    now rewrite Hb.
Defined.

Lemma failed_download_status_witness :
  status (fst (chat_with_csv (E := Cases.lenient) (lit "mean of Price?") None
                 (Some (lit "http://example.org/prices.csv")) false (lit "[]") Demo.noon))
  = 500
  /\ fst (chat_with_csv (E := Cases.lenient) (lit "mean of Price?")
            (Some Cases.huge_upload) None false (lit "[]") Demo.noon)
     = Unhandled TypeError.
Proof.
  destruct (failed_download_status (E := Cases.lenient) (lit "mean of Price?") (lit "[]")
              Demo.noon [] (lit "http://example.org/prices.csv") eq_refl eq_refl eq_refl)
    as (_ & Hstatus & _ & Hhuge).
  split; [exact Hstatus|].
  apply (Hhuge Cases.huge_upload None (lit "a,b") eq_refl eq_refl).
  unfold Cases.huge_upload, content_bytes.
  rewrite repeat_length, N2Nat.id. reflexivity.
Defined.

(* ================================================================= *)
(** ** The CSV endpoint after the analysis *)

Section CsvOutcomes.
Context {E : Externals}.

(** X11.  A prior turn without timestamp breaks the CSV endpoint only when
    it streams: the stream relays the whole answer and then ends with the
    error event of [AttributeError] in place of the history event; the
    non-streaming branch serialises no timestamp and answers normally, the
    unstamped turn still in the history it returns. *)
Theorem missing_timestamp_breaks_csv_stream (question : str) (f : UploadFile)
    (url : option str) (history : str) (now : datetime) (H : list ChatMessage)
    (content_text : str) :
  eval (read_history history) = Normal H ->
  Exists (fun m => timestamp m = None) H ->
  reaches_model question f content_text ->
  (events_of (fst (chat_with_csv question (Some f) url true history now))
   = map EvChunk (data_chunks (Some (or_else (filename f) (lit "uploaded_file.csv")))
                    (generate_content_stream (analysis_prompt question f content_text)) [])
     ++ [EvError (str_of_exn AttributeError)]
   /\ calls (snd (chat_with_csv question (Some f) url true history now))
      = [analysis_prompt question f content_text])
  /\ (exists reply u a,
        fst (chat_with_csv question (Some f) url false history now)
        = Response reply (H ++ [u; a])
        /\ status (fst (chat_with_csv question (Some f) url false history now)) = 200).
Proof.
  intros HH Hex Hreach. split.
  - unfold chat_with_csv, respond_stream.
    rewrite (csv_streaming_analysis question f url history now H content_text HH Hreach).
    simpl fst; simpl snd. simpl events_of.
    rewrite (serialise_absent csv_history_entry _ quiet_csv_history_entry
               csv_entry_cases csv_entry_absent (old_turn_unstamped H _ Hex)).
    split; reflexivity.
  - rewrite (csv_atomic_analysis question f url history now H content_text HH Hreach).
    eexists _, _, _. split; reflexivity.
Qed.

(** X12.  A summary that reports a failure is not stopped by the router:
    when the uploaded content does not parse, or parses to an empty table,
    [summarize_csv] returns a text that starts with the cross mark, and the
    request goes on to ask the model about that text and answers
    normally. *)
Theorem failed_summary_reaches_model (question : str) (f : UploadFile) (url : option str)
    (history : str) (now : datetime) (H : list ChatMessage) (content_text : str) :
  eval (read_history history) = Normal H ->
  reaches_model question f content_text ->
  (forall df, read_csv content_text = Parsed df -> is_empty df = true) ->
  startswith (summarize_csv content_text) cross_mark = true
  /\ calls (snd (chat_with_csv question (Some f) url false history now))
     = [FullPrompt (full_prompt question (summarize_csv content_text)
                      (Some (or_else (filename f) (lit "uploaded_file.csv"))))]
  /\ status (fst (chat_with_csv question (Some f) url false history now)) = 200
  /\ calls (snd (chat_with_csv question (Some f) url true history now))
     = [FullPrompt (full_prompt question (summarize_csv content_text)
                      (Some (or_else (filename f) (lit "uploaded_file.csv"))))].
Proof.
  intros HH Hreach Hbad. split.
  - unfold summarize_csv.
    destruct (read_csv content_text) as [|e|df]; try reflexivity.
    now rewrite (Hbad df eq_refl).
  - rewrite (csv_atomic_analysis question f url history now H content_text HH Hreach).
    unfold chat_with_csv, respond_stream.
    rewrite (csv_streaming_analysis question f url history now H content_text HH Hreach).
    repeat split.
Qed.

(** X13.  A histogram request gets the same reply with and without
    streaming: the stream carries it as its one reply event, with no chunk,
    and commits it as the assistant turn.  An error of the extractor is
    such a reply, not an error event and not an error status. *)
Theorem histogram_reply_in_both_modes (question : str) (f : UploadFile) (url : option str)
    (history : str) (now : datetime) (H : list ChatMessage) (content_text column : str) :
  eval (read_history history) = Normal H ->
  upload_accepted f content_text ->
  histogram_match question = Some column ->
  (exists u a,
     fst (chat_with_csv question (Some f) url false history now)
     = Response (histogram_reply column (generate_histogram_data content_text column))
         (H ++ [u; a])
     /\ content a = histogram_reply column (generate_histogram_data content_text column))
  /\ replies_of (events_of (fst (chat_with_csv question (Some f) url true history now)))
     = [histogram_reply column (generate_histogram_data content_text column)]
  /\ chunks_of (events_of (fst (chat_with_csv question (Some f) url true history now))) = []
  /\ committed_content (snd (chat_with_csv question (Some f) url true history now))
     = Some (histogram_reply column (generate_histogram_data content_text column))
  /\ (forall e, generate_histogram_data content_text column = HistError e ->
                histogram_reply column (generate_histogram_data content_text column) = e).
Proof.
  intros HH Hup Hmatch. split; [|split; [|split; [|split]]].
  - rewrite chat_with_csv_atomic_run, HH, (load_csv_upload f url content_text _ Hup).
    simpl fst; simpl snd. rewrite answer_run, Hmatch. eexists _, _. split; reflexivity.
  - unfold chat_with_csv, respond_stream.
    rewrite csv_stream_response_run, HH, (load_csv_streaming_upload f url content_text _ Hup).
    simpl fst; simpl snd. rewrite answer_streaming_run, Hmatch. cbv zeta.
    simpl fst. simpl events_of. simpl app. simpl replies_of.
    destruct (eval (for_each csv_history_entry _)); reflexivity.
  - unfold chat_with_csv, respond_stream.
    rewrite csv_stream_response_run, HH, (load_csv_streaming_upload f url content_text _ Hup).
    simpl fst; simpl snd. rewrite answer_streaming_run, Hmatch. cbv zeta.
    simpl fst. simpl events_of. simpl app. simpl chunks_of.
    destruct (eval (for_each csv_history_entry _)); reflexivity.
  - unfold chat_with_csv, respond_stream.
    rewrite csv_stream_response_run, HH, (load_csv_streaming_upload f url content_text _ Hup).
    simpl fst; simpl snd. rewrite answer_streaming_run, Hmatch. cbv zeta.
    unfold committed_content. simpl snd. simpl updated_history. cbv iota beta.
    rewrite last_of_two. simpl content. unfold full_or_reply. simpl fst; simpl snd.
    destruct (histogram_reply column (generate_histogram_data content_text column));
      reflexivity.
  - intros e ->. reflexivity.
Qed.

Lemma find_column_found (target : str) (cols : list (str * series)) (c : str * series) :
  find_column target cols = Some c -> In c cols /\ lower (fst c) = target.
Proof.
  induction cols as [|c' cols IH]; simpl; [discriminate|].
  destruct (eqb_str (lower (fst c')) target) eqn:Heq.
  - intro Hc. injection Hc as <-. split; [now left | now apply eqb_str_eq].
  - intro Hc. destruct (IH Hc). split; [now right | assumption].
Qed.

(** X14.  The Histogram Extractor returns a histogram only for a column of
    the parsed, non-empty table whose name equals the request up to case
    and whose values are numeric; the name it reports is the table's own
    spelling, and the counts and bins are what [np.histogram] returned for
    the column's non-missing values, in the order of the rows. *)
Theorem histogram_only_for_numeric_column (file_content column name : str)
    (bins : list Q) (counts : list nat) :
  generate_histogram_data file_content column = Hist name bins counts ->
  exists df data cells,
    read_csv file_content = Parsed df
    /\ is_empty df = false
    /\ In (name, data) (columns df)
    /\ lower name = lower column
    /\ non_missing_values data cells
    /\ length cells = non_missing data
    /\ np_histogram cells = inr (counts, bins).
Proof.
  unfold generate_histogram_data.
  destruct (read_csv file_content) as [|e|df] eqn:Hread; try discriminate.
  destruct (is_empty df) eqn:Hne; try discriminate.
  destruct (find_column (lower column) (columns df)) as [[matching data]|] eqn:Hfind;
    try discriminate.
  destruct (numeric_values data) as [a|] eqn:Hnum; try discriminate.
  destruct (np_histogram a) as [e|[hist edges]] eqn:Hnp; try discriminate.
  intro Hh. injection Hh as <- <- <-.
  destruct (find_column_found _ _ _ Hfind) as [Hin Hlow].
  apply numeric_values_non_missing in Hnum.
  exists df, data, a. repeat split; try assumption.
  now apply non_missing_length.
Qed.

End CsvOutcomes.

Lemma missing_timestamp_breaks_csv_stream_witness :
  events_of (fst (chat_with_csv (E := Demo.two_chunks)
                    (lit "what is the average of column Price?")
                    (Some Demo.prices_upload) None true Demo.bare_history Demo.noon))
  = [EvChunk (lit "Hello "); EvChunk (lit " world"); EvChunk (lit "Hello  world");
     EvError (lit "'NoneType' object has no attribute 'isoformat'")]
  /\ status (fst (chat_with_csv (E := Demo.two_chunks)
                    (lit "what is the average of column Price?")
                    (Some Demo.prices_upload) None false Demo.bare_history Demo.noon)) = 200.
Proof.
  assert (Hreach : reaches_model (E := Demo.two_chunks)
                     (lit "what is the average of column Price?")
                     Demo.prices_upload Demo.prices_csv).
  { repeat split; vm_compute; reflexivity. }
  assert (Hex : Exists (fun m => timestamp m = None)
                  [{| role := lit "user"; content := lit "hi"; timestamp := None;
                      image_url := None; file_url := None |}]).
  { constructor. reflexivity. }
  destruct (missing_timestamp_breaks_csv_stream (E := Demo.two_chunks)
              (lit "what is the average of column Price?") Demo.prices_upload None
              Demo.bare_history Demo.noon _ Demo.prices_csv eq_refl Hex Hreach)
    as ((Hev & _) & (reply & u & a & _ & Hstatus)).
  split; [exact Hev | exact Hstatus].
Defined.

Lemma failed_summary_reaches_model_witness :
  startswith (summarize_csv (E := Demo.two_chunks) (content_bytes Cases.garbled_upload))
    cross_mark = true
  /\ length (calls (snd (chat_with_csv (E := Demo.two_chunks) (lit "mean of b?")
                           (Some Cases.garbled_upload) None false (lit "[]") Demo.noon))) = 1
  /\ status (fst (chat_with_csv (E := Demo.two_chunks) (lit "mean of b?")
                    (Some Cases.garbled_upload) None false (lit "[]") Demo.noon)) = 200.
Proof.
  assert (Hreach : reaches_model (E := Demo.two_chunks) (lit "mean of b?")
                     Cases.garbled_upload (content_bytes Cases.garbled_upload)).
  { repeat split; vm_compute; reflexivity. }
  assert (Hbad : forall df,
            read_csv (Externals := Demo.two_chunks) (content_bytes Cases.garbled_upload)
            = Parsed df -> is_empty df = true).
  { intros df Hdf. vm_compute in Hdf. discriminate Hdf. }
  destruct (failed_summary_reaches_model (E := Demo.two_chunks) (lit "mean of b?")
              Cases.garbled_upload None (lit "[]") Demo.noon []
              (content_bytes Cases.garbled_upload) eq_refl Hreach Hbad)
    as (Hmark & Hcalls & Hstatus & _).
  split; [exact Hmark|]. split; [now rewrite Hcalls | exact Hstatus].
Defined.

Lemma histogram_reply_in_both_modes_witness :
  replies_of (events_of (fst (chat_with_csv (E := Demo.two_chunks) (lit "chart of weight")
                                (Some Demo.prices_upload) None true (lit "[]") Demo.noon)))
  = [lit "Column 'weight' not found in CSV."]
  /\ status (fst (chat_with_csv (E := Demo.two_chunks) (lit "chart of weight")
                    (Some Demo.prices_upload) None false (lit "[]") Demo.noon)) = 200.
Proof.
  assert (Hup : upload_accepted (E := Demo.two_chunks) Demo.prices_upload Demo.prices_csv).
  { repeat split; vm_compute; reflexivity. }
  destruct (histogram_reply_in_both_modes (E := Demo.two_chunks) (lit "chart of weight")
              Demo.prices_upload None (lit "[]") Demo.noon [] Demo.prices_csv (lit "weight")
              eq_refl Hup eq_refl) as ((u & a & Hresp & _) & Hreply & _ & _ & Herr).
  split.
  - rewrite Hreply, (Herr _ eq_refl). reflexivity.
  - now rewrite Hresp.
Defined.

Lemma histogram_only_for_numeric_column_witness :
  exists df data cells,
    read_csv (Externals := Demo.two_chunks) Demo.prices_csv = Parsed df
    /\ is_empty df = false
    /\ In (lit "Price", data) (columns df)
    /\ Demo.ascii_lower (lit "Price") = Demo.ascii_lower (lit "price")
    /\ non_missing_values data cells
    /\ length cells = non_missing data
    /\ np_histogram (Externals := Demo.two_chunks) cells
       = inr ([1; 0; 0; 0; 1; 0; 0; 0; 0; 1],
              snd (ten_bins [10 # 1; 20 # 1; 35 # 1]%Q)).
Proof.
  apply (histogram_only_for_numeric_column (E := Demo.two_chunks)
           Demo.prices_csv (lit "price") (lit "Price")).
  vm_compute. reflexivity.
Defined.

(* ================================================================= *)
(** ** The stream of the image endpoint *)

Section ImageStream.
Context {E : Externals}.

(** X15.  The stream of the image endpoint relays the fragments of the
    image service as they are.  When the service ends without raising, the
    assistant turn committed is the stripped concatenation of the
    fragments, with no separator, and the user turn carries the URL of the
    saved image; the history event follows when every prior turn has a
    timestamp.  When the service raises, or the image cannot be saved, the
    stream ends with the error event and no history is built: unlike the
    text and CSV services, nothing folds the failure into the answer. *)
Theorem image_stream_outcome (question : str) (file : UploadFile) (history : str)
    (now : datetime) (H : list ChatMessage) :
  eval (read_history_unguarded history) = Normal H ->
  (forall e, save_uploaded_image file = inl e ->
     chat_with_image question file true history now
     = (StreamingResponse [EvError (str_of_exn e)], initial))
  /\ (forall image_path chunks e,
        save_uploaded_image file = inr image_path ->
        ask_gemini_with_image_streaming question image_path = (chunks, Some e) ->
        chat_with_image question file true history now
        = (StreamingResponse (map EvChunk chunks ++ [EvError (str_of_exn e)]), initial))
  /\ (forall image_path chunks,
        save_uploaded_image file = inr image_path ->
        ask_gemini_with_image_streaming question image_path = (chunks, None) ->
        chunks_of (events_of (fst (chat_with_image question file true history now))) = chunks
        /\ updated_history (snd (chat_with_image question file true history now))
           = Some (H ++ [user_turn question (Some (uploads_url image_path)) None
                           (replace_microsecond_0 now);
                         assistant_turn (strip (concat chunks)) (replace_microsecond_0 now)])
        /\ (Forall has_timestamp H ->
            exists history_dict,
              events_of (fst (chat_with_image question file true history now))
              = map EvChunk chunks ++ [EvHistory history_dict (lit "complete")]
              /\ length history_dict = length H + 2)).
Proof.
  intro HH. unfold chat_with_image, respond_stream.
  rewrite image_stream_response_run, HH.
  split; [|split].
  - intros e ->. reflexivity.
  - intros image_path chunks e -> ->. reflexivity.
  - intros image_path chunks -> ->. cbv zeta. simpl fst; simpl snd. simpl events_of.
    split; [|split].
    + rewrite chunks_of_app, chunks_of_chunks, chunks_of_closing. apply app_nil_r.
    + reflexivity.
    + intro Hall.
      destruct (serialise_present image_history_entry
                  (H ++ [user_turn question (Some (uploads_url image_path)) None
                           (replace_microsecond_0 now);
                         assistant_turn (strip (concat chunks)) (replace_microsecond_0 now)])
                  quiet_image_history_entry image_entry_present) as (hd & Hhd & Hlen).
      { apply Forall_app. split; [assumption|].
        repeat constructor; unfold has_timestamp; simpl; discriminate. }
      exists hd. rewrite Hhd. split; [reflexivity|].
      rewrite Hlen, length_app. simpl. lia.
Qed.

End ImageStream.

Lemma image_stream_outcome_witness :
  chat_with_image (E := Cases.blurred) (lit "what is this?") Demo.prices_upload true
    (lit "[]") Demo.noon
  = (StreamingResponse [EvChunk (lit "a "); EvError (lit "image unreadable")], initial)
  /\ updated_history (snd (chat_with_image (E := Demo.two_chunks) (lit "what is this?")
                             Demo.prices_upload true (lit "[]") Demo.noon))
     = Some [user_turn (lit "what is this?")
               (Some (lit "http://127.0.0.1:8000/temp_uploads/cat.png")) None
               (replace_microsecond_0 Demo.noon);
             assistant_turn (lit "a cat") (replace_microsecond_0 Demo.noon)].
Proof.
  split.
  - exact (proj1 (proj2 (image_stream_outcome (E := Cases.blurred) (lit "what is this?")
                           Demo.prices_upload (lit "[]") Demo.noon [] eq_refl))
             (lit "data/temp_uploads/cat.png") [lit "a "]
             (Exception (lit "image unreadable")) eq_refl eq_refl).
  - exact (proj1 (proj2 (proj2 (proj2 (image_stream_outcome (E := Demo.two_chunks)
                           (lit "what is this?") Demo.prices_upload (lit "[]") Demo.noon []
                           eq_refl))
             (lit "data/temp_uploads/cat.png") [lit "a "; lit "cat"] eq_refl eq_refl))).
Defined.

(* ================================================================= *)
(** ** Where the CSV text comes from *)

Lemma last_segment_no_slash (s acc : str) :
  ~ In 47%N acc -> ~ In 47%N (last_segment s acc).
Proof.
  revert acc. induction s as [|c s IH]; intros acc Hacc; simpl; [assumption|].
  destruct (c =? 47)%N eqn:Hc.
  - apply IH. intros [].
  - apply IH. intro Hin. apply in_app_or in Hin. destruct Hin as [Hin|[Hin|[]]].
    + now apply Hacc.
    + subst c. discriminate Hc.
Qed.

Section CsvSource.
Context {E : Externals}.

Lemma load_csv_streaming_url (u text : str) (s : run_state) :
  truthy u = true -> requests_get u = Some text ->
  load_csv_streaming None (Some u) s
  = ([], Normal (text, or_else (Some (last_segment u [])) (lit "remote_file.csv"), u), s).
Proof.
  intros Hu Hget. unfold load_csv_streaming, download_csv_from_url, bind.
  now rewrite Hu, Hget.
Qed.

Lemma load_csv_url (u text : str) (s : run_state) :
  truthy u = true -> requests_get u = Some text ->
  load_csv None (Some u) s
  = ([], Normal (text, or_else (Some (last_segment u [])) (lit "remote_file.csv"), u), s).
Proof.
  intros Hu Hget. unfold load_csv, download_csv_from_url, bind.
  now rewrite Hu, Hget.
Qed.

(** X16.  An uploaded file shadows the URL: with a file, the URL changes
    nothing.  With no file, a URL that downloads, and a question that is no
    histogram request: the model is asked once about the summary of the
    downloaded text, under a file name that is the part of the URL after its
    last slash, or [remote_file.csv] when the URL ends in a slash, so the
    name is never empty and holds no slash; the user turn committed carries
    the URL itself as its [file_url]. *)
Theorem csv_from_url (question u history : str) (now : datetime) (H : list ChatMessage)
    (text : str) :
  eval (read_history history) = Normal H ->
  truthy u = true ->
  requests_get u = Some text ->
  histogram_match question = None ->
  (forall f url1 url2 stream,
     chat_with_csv question (Some f) url1 stream history now
     = chat_with_csv question (Some f) url2 stream history now)
  /\ or_else (Some (last_segment u [])) (lit "remote_file.csv") <> []
  /\ ~ In 47%N (or_else (Some (last_segment u [])) (lit "remote_file.csv"))
  /\ (forall stream,
        calls (snd (chat_with_csv question None (Some u) stream history now))
        = [FullPrompt (full_prompt question (summarize_csv text)
             (Some (or_else (Some (last_segment u [])) (lit "remote_file.csv"))))]
        /\ exists reply,
             updated_history (snd (chat_with_csv question None (Some u) stream history now))
             = Some (H ++ [user_turn question None (Some u) (replace_microsecond_0 now);
                           assistant_turn reply (replace_microsecond_0 now)])).
Proof.
  intros HH Hu Hget Hmatch. split; [|split; [|split]].
  - intros f url1 url2 stream. reflexivity.
  - unfold or_else. destruct (last_segment u []) eqn:Hl; simpl; discriminate.
  - unfold or_else.
    destruct (truthy (last_segment u [])).
    + apply last_segment_no_slash. intros [].
    + intro Hin. vm_compute in Hin. intuition discriminate.
  - intros [|].
    + unfold chat_with_csv, respond_stream.
      rewrite csv_stream_response_run, HH, (load_csv_streaming_url u text _ Hu Hget).
      simpl fst; simpl snd. rewrite answer_streaming_run, Hmatch. cbv zeta.
      rewrite (summary_passes_check text). split; [reflexivity|].
      eexists. reflexivity.
    + rewrite chat_with_csv_atomic_run, HH, (load_csv_url u text _ Hu Hget).
      simpl fst; simpl snd. rewrite answer_run, Hmatch. cbv zeta.
      rewrite (summary_passes_check text). split; [reflexivity|].
      eexists. reflexivity.
Qed.

End CsvSource.

Lemma csv_from_url_witness :
  calls (snd (chat_with_csv (E := Cases.online) (lit "mean of price?") None
                (Some (lit "https://example.org/data/")) false (lit "[]") Demo.noon))
  = [FullPrompt (full_prompt (lit "mean of price?")
                   (summarize_csv (E := Cases.online) Demo.prices_csv)
                   (Some (lit "remote_file.csv")))].
Proof.
  exact (proj1 (proj2 (proj2 (proj2 (csv_from_url (E := Cases.online) (lit "mean of price?")
                  (lit "https://example.org/data/") (lit "[]") Demo.noon []
                  Demo.prices_csv eq_refl eq_refl eq_refl eq_refl))) false)).
Defined.

(* ================================================================= *)
(** ** What the histogram pattern matches *)

Lemma startswith_prefix (s p : str) :
  startswith s p = true -> s = p ++ skipn (length p) s.
Proof.
  revert s. induction p as [|y p IH]; intros s Hs; [reflexivity|].
  destruct s as [|x s]; [discriminate|]. simpl in Hs.
  apply andb_prop in Hs. destruct Hs as [Hxy Hs]. apply N.eqb_eq in Hxy. subst y.
  simpl. f_equal. now apply IH.
Qed.

Lemma Forall_lstrip (P : N -> Prop) (s : str) : Forall P s -> Forall P (lstrip s).
Proof.
  induction 1 as [|c s Hc Hs IH]; simpl; [constructor|].
  destruct (isspace c); [assumption | now constructor].
Qed.

Lemma Forall_strip (P : N -> Prop) (s : str) : Forall P s -> Forall P (strip s).
Proof.
  intro Hs. unfold strip, rstrip.
  apply Forall_rev, Forall_lstrip, Forall_rev, Forall_lstrip, Hs.
Qed.

Lemma greedy_star_reaches {A} (p : N -> bool) (s : str) (b : option N)
    (g : list (nat * str)) (k : cursor -> option A) (res : A) :
  greedy_star p b s g k = Some res ->
  exists w c', k c' = Some res /\ Forall (fun x => p x = true) w /\
               s = w ++ ahead c' /\ groups c' = g.
Proof.
  revert b. induction s as [|x s IH]; intros b; simpl.
  - intro Hk. exists [], {| behind := b; ahead := []; groups := g |}. auto.
  - destruct (p x) eqn:Hp.
    + destruct (greedy_star p (Some x) s g k) as [r|] eqn:Hrec.
      * intro Hr. injection Hr as ->.
        destruct (IH _ Hrec) as (w & c' & Hk & Hw & Hs & Hg).
        exists (x :: w), c'. repeat split; auto. simpl. now f_equal.
      * intro Hk. exists [], {| behind := b; ahead := x :: s; groups := g |}. auto.
    + intro Hk. exists [], {| behind := b; ahead := x :: s; groups := g |}. auto.
Qed.

Lemma lazy_star_reaches {A} (p : N -> bool) (s : str) (b : option N)
    (g : list (nat * str)) (k : cursor -> option A) (res : A) :
  lazy_star p b s g k = Some res ->
  exists w c', k c' = Some res /\ Forall (fun x => p x = true) w /\
               s = w ++ ahead c' /\ groups c' = g.
Proof.
  revert b. induction s as [|x s IH]; intros b; simpl.
  - destruct (k {| behind := b; ahead := []; groups := g |}) as [r|] eqn:Hk; [|discriminate].
    intro Hr. injection Hr as ->.
    exists [], {| behind := b; ahead := []; groups := g |}. auto.
  - destruct (k {| behind := b; ahead := x :: s; groups := g |}) as [r|] eqn:Hk.
    + intro Hr. injection Hr as ->.
      exists [], {| behind := b; ahead := x :: s; groups := g |}. auto.
    + destruct (p x) eqn:Hp; [|discriminate]. intro Hrec.
      destruct (IH _ Hrec) as (w & c' & Hk' & Hw & Hs & Hg).
      exists (x :: w), c'. repeat split; auto. simpl. now f_equal.
Qed.

(** Whatever [run] finds, it finds by a match of the pattern. *)
Lemma run_reaches {A} (word : N -> bool) (r : regex) :
  forall (c : cursor) (k : cursor -> option A) (res : A),
    run word r c k = Some res ->
    exists c', k c' = Some res /\ reaches word r c c'.
Proof.
  induction r as [|s|p|p|p|r1 IH1 r2 IH2|r1 IH1 r2 IH2|n r1 IH1| |];
    intros c k res; simpl.
  - intro Hk. now exists c.
  - destruct (startswith (ahead c) s) eqn:Hs; [|discriminate].
    intro Hk. eexists. split; [exact Hk | split; [reflexivity | reflexivity]].
  - intro Hr. destruct (greedy_star_reaches _ _ _ _ _ _ Hr) as (w & c' & Hk & Hw & Hs & Hg).
    exists c'. split; [assumption|]. now exists w.
  - destruct c as [b s g]; simpl. destruct s as [|x s'].
    + intro Hk. eexists. split; [exact Hk | now left].
    + destruct (p x) eqn:Hp.
      * destruct (k {| behind := Some x; ahead := s'; groups := g |}) as [r|] eqn:Hk.
        -- intro Hr. injection Hr as ->.
           eexists. split; [exact Hk|]. right. exists x. simpl. auto.
        -- intro Hk'. eexists. split; [exact Hk' | now left].
      * intro Hk. eexists. split; [exact Hk | now left].
  - destruct c as [b s g]; simpl. destruct s as [|x s']; [discriminate|].
    destruct (p x) eqn:Hp; [|discriminate]. intro Hr.
    destruct (lazy_star_reaches _ _ _ _ _ _ Hr) as (w & c' & Hk & Hw & Hs & Hg).
    exists c'. split; [assumption|]. exists (x :: w). simpl.
    repeat split; [discriminate | now constructor | now f_equal | assumption].
  - intro Hr. destruct (IH1 _ _ _ Hr) as (c1 & Hr2 & H1).
    destruct (IH2 _ _ _ Hr2) as (c' & Hk & H2).
    exists c'. split; [assumption|]. now exists c1.
  - destruct (run word r1 c k) as [r|] eqn:Hr1.
    + intro Hr. injection Hr as ->. destruct (IH1 _ _ _ Hr1) as (c' & Hk & H1).
      exists c'. split; [assumption | now left].
    + intro Hr. destruct (IH2 _ _ _ Hr) as (c' & Hk & H2).
      exists c'. split; [assumption | now right].
  - intro Hr. destruct (IH1 _ _ _ Hr) as (c1 & Hk & H1).
    eexists. split; [exact Hk|]. exists c1. split; [assumption | reflexivity].
  - destruct (ahead c) as [|x [|y s]] eqn:Hs.
    + intro Hk. exists c. repeat split; auto.
    + destruct (x =? 10)%N eqn:Hx; [|discriminate]. apply N.eqb_eq in Hx. subst x.
      intro Hk. exists c. repeat split; auto.
    + discriminate.
  - destruct (xorb _ _) eqn:Hx; [|discriminate].
    intro Hk. exists c. repeat split; auto.
Qed.

(** A pattern without groups moves over a piece of the text and leaves the
    groups alone. *)
Lemma reaches_groupless (word : N -> bool) (r : regex) :
  groupless r ->
  forall c c', reaches word r c c' ->
    groups c' = groups c /\ exists w, ahead c = w ++ ahead c'.
Proof.
  induction r as [|s|p|p|p|r1 IH1 r2 IH2|r1 IH1 r2 IH2|n r1 IH1| |];
    simpl; intros Hg c c' Hr.
  - subst c'. split; [reflexivity | now exists []].
  - destruct Hr as [Hs ->]. simpl. split; [reflexivity|].
    exists s. now apply startswith_prefix.
  - destruct Hr as (w & _ & Hs & Hgr). split; [assumption | now exists w].
  - destruct Hr as [-> | (x & _ & Hs & Hgr)].
    + split; [reflexivity | now exists []].
    + split; [assumption | now exists [x]].
  - destruct Hr as (w & _ & _ & Hs & Hgr). split; [assumption | now exists w].
  - destruct Hg as [Hg1 Hg2]. destruct Hr as (c1 & H1 & H2).
    destruct (IH1 Hg1 _ _ H1) as [Ha (w1 & Hw1)].
    destruct (IH2 Hg2 _ _ H2) as [Hb (w2 & Hw2)].
    split; [congruence|]. exists (w1 ++ w2). now rewrite Hw1, Hw2, app_assoc.
  - destruct Hg as [Hg1 Hg2]. destruct Hr as [H1 | H2]; [now apply IH1 | now apply IH2].
  - contradiction.
  - destruct Hr as [-> _]. split; [reflexivity | now exists []].
  - destruct Hr as [-> _]. split; [reflexivity | now exists []].
Qed.

(** A match of [trigger_words] starts with one of its literals. *)
Lemma reaches_trigger_words (word : N -> bool) (c c' : cursor) :
  reaches word trigger_words c c' ->
  exists t, In t trigger_literals /\ ahead c = t ++ ahead c' /\ groups c' = groups c.
Proof.
  unfold trigger_words, trigger_literals. simpl.
  intro Hr.
  repeat (destruct Hr as [[Hs ->] | Hr];
          [eexists; split;
           [| split; [apply startswith_prefix in Hs; exact Hs | reflexivity]];
           simpl; tauto |]).
  destruct Hr as [Hs ->].
  eexists; split; [| split; [apply startswith_prefix in Hs; exact Hs | reflexivity]].
  simpl; tauto.
Qed.

Lemma search_from_run (word : N -> bool) (r : regex) (s : str) (b : option N)
    (g : list (nat * str)) :
  search_from word r b s = Some g ->
  exists b' before s',
    s = before ++ s' /\
    run word r {| behind := b'; ahead := s'; groups := [] |} (fun c => Some (groups c))
    = Some g.
Proof.
  revert b. induction s as [|x s IH]; intro b; simpl.
  - destruct (run word r _ _) as [g'|] eqn:Hr; [|discriminate].
    intro Hg. injection Hg as ->. now exists b, [], [].
  - destruct (run word r _ _) as [g'|] eqn:Hr.
    + intro Hg. injection Hg as ->. now exists b, [], (x :: s).
    + intro Hs. destruct (IH _ Hs) as (b' & before & s' & -> & Hrun).
      now exists b', (x :: before), s'.
Qed.

Lemma firstn_consumed (w rest : str) :
  firstn (length (w ++ rest) - length rest) (w ++ rest) = w.
Proof.
  rewrite length_app, Nat.add_sub. rewrite firstn_app, Nat.sub_diag, firstn_all.
  simpl. apply app_nil_r.
Qed.

Lemma groupless_connectives : groupless connectives.
Proof. simpl. tauto. Qed.

Lemma groupless_column_words : groupless column_words.
Proof. simpl. tauto. Qed.

Lemma groupless_closing : groupless closing.
Proof. simpl. tauto. Qed.

(** The anatomy of a match of the histogram pattern that starts with no
    group captured: a trigger literal, a stretch without capture, and the
    captured run of word characters and spaces. *)
Lemma reaches_histogram_pattern (word : N -> bool) (c c' : cursor) :
  groups c = [] ->
  reaches word (histogram_pattern word) c c' ->
  exists t between w after,
    In t trigger_literals /\
    ahead c = t ++ between ++ w ++ after /\
    w <> [] /\
    Forall (fun x => (word x || isspace x) = true) w /\
    group 1 (groups c') = Some w.
Proof.
  intros Hg0 Hr. unfold histogram_pattern in Hr. cbn [seq_of reaches] in Hr.
  destruct Hr as (c1 & Htrig & c2 & Hs1 & c3 & Hconn & c4 & Hs2 & c5 & Hcol & c6 & Hs3
                  & c7 & Hq1 & c8 & Hgrp & c9 & Hq2 & Hclose).
  destruct (reaches_trigger_words _ _ _ Htrig) as (t & Ht & Ha1 & Hg1).
  destruct (reaches_groupless word (Star isspace) I _ _ Hs1) as [Hg2 (w2 & Ha2)].
  destruct (reaches_groupless word connectives groupless_connectives _ _ Hconn)
    as [Hg3 (w3 & Ha3)].
  destruct (reaches_groupless word (Star isspace) I _ _ Hs2) as [Hg4 (w4 & Ha4)].
  destruct (reaches_groupless word column_words groupless_column_words _ _ Hcol)
    as [Hg5 (w5 & Ha5)].
  destruct (reaches_groupless word (Star isspace) I _ _ Hs3) as [Hg6 (w6 & Ha6)].
  destruct (reaches_groupless word (Opt is_quote) I _ _ Hq1) as [Hg7 (w7 & Ha7)].
  destruct Hgrp as (c8' & (w & Hwne & Hw & Ha8 & Hg8) & ->).
  destruct (reaches_groupless word (Opt is_quote) I _ _ Hq2) as [Hg9 _].
  destruct Hclose as (c10 & Hcl & ->).
  destruct (reaches_groupless word closing groupless_closing _ _ Hcl) as [Hg10 _].
  exists t, (w2 ++ w3 ++ w4 ++ w5 ++ w6 ++ w7), w, (ahead c8').
  split; [assumption|]. split.
  - rewrite Ha1, Ha2, Ha3, Ha4, Ha5, Ha6, Ha7, Ha8. now rewrite <- !app_assoc.
  - split; [assumption|]. split; [assumption|].
    simpl. rewrite Hg10, Hg9. simpl.
    rewrite Ha8. now rewrite firstn_consumed.
Qed.

Section Routing.
Context {E : Externals}.

(** X17.  A question is taken as a histogram request only if its
    lower-cased text holds one of the eight trigger words; the column handed
    to the extractor is then the stripped form of a non-empty run of word
    characters and white space that stands after that word in the text, so
    it holds nothing but word characters and white space: no quote and no
    punctuation reaches the extractor. *)
Theorem histogram_request_shape (question column : str) :
  histogram_match question = Some column ->
  exists before t between w after,
    lower question = before ++ t ++ between ++ w ++ after
    /\ In t trigger_literals
    /\ w <> []
    /\ Forall (fun x => (word_char x || isspace x) = true) w
    /\ column = strip w
    /\ Forall (fun x => (word_char x || isspace x) = true) column.
Proof.
  unfold histogram_match.
  destruct (search word_char (histogram_pattern word_char) (lower question)) as [g|] eqn:Hs;
    [|discriminate].
  intro Hc. injection Hc as <-.
  destruct (search_from_run _ _ _ _ _ Hs) as (b' & before & s' & Hq & Hrun).
  destruct (run_reaches _ _ _ _ _ Hrun) as (c' & Hg & Hreach).
  injection Hg as <-.
  destruct (reaches_histogram_pattern _ {| behind := b'; ahead := s'; groups := [] |} _
              eq_refl Hreach)
    as (t & between & w & after & Ht & Ha & Hne & Hw & Hgrp).
  simpl in Ha. rewrite Hgrp.
  exists before, t, between, w, after.
  repeat split; try assumption.
  - now rewrite Hq, Ha.
  - now apply Forall_strip.
Qed.

End Routing.

Lemma histogram_request_shape_witness :
  exists before t between w after,
    Demo.ascii_lower (lit "Histogram of 'Unit Price' please")
    = before ++ t ++ between ++ w ++ after
    /\ In t trigger_literals
    /\ w <> []
    /\ Forall (fun x => (word_char (E := Demo.two_chunks) x || isspace x) = true) w
    /\ lit "unit" = strip w
    /\ Forall (fun x => (word_char (E := Demo.two_chunks) x || isspace x) = true) (lit "unit").
Proof.
  apply (histogram_request_shape (E := Demo.two_chunks)
           (lit "Histogram of 'Unit Price' please") (lit "unit")).
  vm_compute. reflexivity.
Defined.

(* ================================================================= *)
(** ** A history event read back *)

Section ReadBack.
Context {E : Externals}.

Lemma optional_str_read_back (o : option str) :
  strings_validate -> eval (optional pydantic_str (Some (opt_json o))) = Normal o.
Proof.
  intro Hstr. destruct o as [s|]; simpl; [|reflexivity]. now rewrite Hstr.
Qed.

(** Validation of a dict whose fields are as the serialisers write them. *)
Lemma validate_written (members : list (str * json)) (r c ts : str) (t : datetime)
    (i f : option str) :
  strings_validate ->
  lookup (lit "role") members = Some (JStr r) ->
  lookup (lit "content") members = Some (JStr c) ->
  lookup (lit "timestamp") members = Some (JStr ts) ->
  pydantic_datetime (JStr ts) = Some t ->
  eval (optional pydantic_str (lookup (lit "image_url") members)) = Normal i ->
  eval (optional pydantic_str (lookup (lit "file_url") members)) = Normal f ->
  eval (validate_message (JObj members))
  = Normal {| role := r; content := c; timestamp := Some t; image_url := i; file_url := f |}.
Proof.
  intros Hstr Hr Hc Ht Hback Hi Hf. unfold validate_message.
  rewrite Hr, Hc, Ht.
  rewrite eval_bind by apply quiet_required. simpl required. rewrite Hstr.
  change (eval (ret r)) with (Normal r). cbv iota beta.
  rewrite eval_bind by exact (quiet_required pydantic_str (Some (JStr c))). rewrite Hstr.
  change (eval (ret c)) with (Normal c). cbv iota beta.
  rewrite eval_bind by apply quiet_optional. simpl optional. rewrite Hback.
  change (eval (ret (Some t))) with (Normal (Some t)). cbv iota beta.
  rewrite eval_bind by apply quiet_optional. rewrite Hi.
  rewrite eval_bind by apply quiet_optional. rewrite Hf.
  reflexivity.
Qed.

Lemma chat_entry_read_back (m : ChatMessage) :
  strings_validate -> timestamp_round_trips m ->
  exists j, eval (chat_history_entry m) = Normal j
            /\ eval (validate_message j) = Normal (kept false false m).
Proof.
  intros Hstr (t & Ht & Hback). rewrite eval_chat_history_entry, Ht.
  eexists. split; [reflexivity|].
  unfold kept. rewrite Ht.
  apply (validate_written _ _ _ (isoformat t)); try assumption; reflexivity.
Qed.

Lemma csv_entry_read_back (m : ChatMessage) :
  strings_validate -> timestamp_round_trips m ->
  exists j, eval (csv_history_entry m) = Normal j
            /\ eval (validate_message j) = Normal (kept false true m).
Proof.
  intros Hstr (t & Ht & Hback). rewrite eval_csv_history_entry, Ht.
  eexists. split; [reflexivity|].
  unfold kept. rewrite Ht.
  apply (validate_written _ _ _ (isoformat t)); try assumption; try reflexivity.
  exact (optional_str_read_back (file_url m) Hstr).
Qed.

Lemma image_entry_read_back (m : ChatMessage) :
  strings_validate -> timestamp_round_trips m ->
  exists j, eval (image_history_entry m) = Normal j
            /\ eval (validate_message j) = Normal (kept true false m).
Proof.
  intros Hstr (t & Ht & Hback).
  unfold image_history_entry. rewrite eval_bind by apply quiet_timestamp_isoformat.
  unfold timestamp_isoformat. rewrite Ht.
  change (eval (ret (isoformat t))) with (Normal (isoformat t)). cbv iota beta.
  eexists. split; [reflexivity|].
  unfold kept. rewrite Ht.
  apply (validate_written _ _ _ (isoformat t)); try assumption; try reflexivity.
  exact (optional_str_read_back (image_url m) Hstr).
Qed.

Lemma entries_read_back (entry : ChatMessage -> gen json) (image file : bool)
    (h : list ChatMessage) :
  (forall m, quiet (entry m)) ->
  (forall m, timestamp_round_trips m ->
     exists j, eval (entry m) = Normal j
               /\ eval (validate_message j) = Normal (kept image file m)) ->
  Forall timestamp_round_trips h ->
  exists history_dict,
    eval (for_each entry h) = Normal history_dict
    /\ eval (for_each validate_message history_dict) = Normal (map (kept image file) h).
Proof.
  intros Hq Hentry Hh. induction Hh as [|m h Hm Hh IH].
  - exists []. split; reflexivity.
  - destruct IH as (hd & Hhd & Hread). destruct (Hentry m Hm) as (j & Hj & Hv).
    exists (j :: hd). split.
    + rewrite eval_for_each_cons, Hj, Hhd by assumption. reflexivity.
    + rewrite eval_for_each_cons, Hv, Hread by apply quiet_validate_message. reflexivity.
Qed.

Lemma read_sent_back (history : str) (history_dict : list json) :
  sent_back history history_dict ->
  eval (read_history history) = eval (for_each validate_message history_dict).
Proof.
  intros [Ht Hj]. unfold read_history.
  rewrite eval_bind by apply quiet_loads_history_guarded.
  unfold loads_history_guarded. rewrite Ht, Hj.
  change (eval (ret (JArr history_dict))) with (@Normal json (JArr history_dict)).
  cbv iota beta. unfold history_messages_of.
  rewrite eval_bind by apply quiet_iterate. reflexivity.
Qed.

(** X18.  The history a stream sends can be sent back as the [history]
    field of the next request: when the validator reads the written time
    stamps back, a history whose turns all carry one serialises, and
    reading the result gives the same turns with their role, content and
    timestamp.  The text endpoint writes neither [image_url] nor
    [file_url], so both come back empty; the CSV endpoint keeps [file_url]
    and loses [image_url]; the image endpoint keeps [image_url] and loses
    [file_url]. *)
Theorem history_event_read_back (h : list ChatMessage) :
  strings_validate ->
  Forall timestamp_round_trips h ->
  (exists history_dict,
     eval (for_each chat_history_entry h) = Normal history_dict
     /\ forall history, sent_back history history_dict ->
          eval (read_history history) = Normal (map (kept false false) h))
  /\ (exists history_dict,
        eval (for_each csv_history_entry h) = Normal history_dict
        /\ forall history, sent_back history history_dict ->
             eval (read_history history) = Normal (map (kept false true) h))
  /\ (exists history_dict,
        eval (for_each image_history_entry h) = Normal history_dict
        /\ forall history, sent_back history history_dict ->
             eval (read_history_unguarded history) = Normal (map (kept true false) h)).
Proof.
  intros Hstr Hh. split; [|split].
  - destruct (entries_read_back chat_history_entry false false h quiet_chat_history_entry
                (fun m => chat_entry_read_back m Hstr) Hh) as (hd & Hhd & Hread).
    exists hd. split; [assumption|]. intros history Hsent.
    now rewrite (read_sent_back history hd Hsent).
  - destruct (entries_read_back csv_history_entry false true h quiet_csv_history_entry
                (fun m => csv_entry_read_back m Hstr) Hh) as (hd & Hhd & Hread).
    exists hd. split; [assumption|]. intros history Hsent.
    now rewrite (read_sent_back history hd Hsent).
  - destruct (entries_read_back image_history_entry true false h quiet_image_history_entry
                (fun m => image_entry_read_back m Hstr) Hh) as (hd & Hhd & Hread).
    exists hd. split; [assumption|]. intros history [Ht Hj].
    unfold read_history_unguarded. rewrite eval_bind by apply quiet_loads_history.
    unfold loads_history. rewrite Ht, Hj.
    change (eval (ret (JArr hd))) with (@Normal json (JArr hd)).
    cbv iota beta. unfold history_messages_of.
    rewrite eval_bind by apply quiet_iterate. exact Hread.
Qed.

End ReadBack.

Lemma history_event_read_back_witness :
  eval (for_each (csv_history_entry (E := Echo.world)) [Echo.turn]) = Normal Echo.written
  /\ eval (read_history (E := Echo.world) Echo.echo) = Normal [kept false true Echo.turn].
Proof.
  assert (Hstr : strings_validate (E := Echo.world)) by (intro s; reflexivity).
  assert (Hh : Forall (timestamp_round_trips (E := Echo.world)) [Echo.turn]).
  { constructor; [|constructor]. eexists. split; reflexivity. }
  destruct (history_event_read_back (E := Echo.world) [Echo.turn] Hstr Hh)
    as (_ & (hd & Hhd & Hread) & _).
  assert (Hw : hd = Echo.written).
  { assert (Hc : eval (for_each (csv_history_entry (E := Echo.world)) [Echo.turn])
                 = Normal Echo.written) by reflexivity.
    rewrite Hhd in Hc. now injection Hc. }
  subst hd. split; [exact Hhd|].
  apply Hread. split; reflexivity.
Defined.

(* ================================================================= *)
(** ** A model that says nothing *)

Section Silence.
Context {E : Externals}.

Lemma text_chunks_silent (response : list stream_item) :
  Forall (fun item => item = Frag []) response -> text_chunks response = [].
Proof. induction 1 as [|item rest -> _ IH]; [reflexivity | exact IH]. Qed.

Lemma data_chunks_silent (file_name : option str) (response : list stream_item) :
  Forall (fun item => item = Frag []) response -> data_chunks file_name response [] = [].
Proof. induction 1 as [|item rest -> _ IH]; [reflexivity | exact IH]. Qed.

(** X19.  When the model produces no text, the two modes part, in the text
    chat and in the CSV analysis alike.  Without streaming, the services
    put a placeholder in its place, and the placeholder is the reply and
    the content of the assistant turn appended.  With streaming, no
    chunk is relayed, the stream is the history event alone, and the
    assistant turn committed is the empty string. *)
Theorem silent_model_by_mode (history : str) (now : datetime) (H : list ChatMessage) :
  eval (read_history history) = Normal H ->
  Forall has_timestamp H ->
  (forall message,
     generate_content (Messages (gemini_messages H message)) = GenText [] ->
     Forall (fun item => item = Frag [])
       (generate_content_stream (Messages (gemini_messages H message))) ->
     fst (chat message false history now)
     = Response no_response
         (H ++ [user_turn message None None (replace_microsecond_0 now);
                assistant_turn no_response (replace_microsecond_0 now)])
     /\ committed_content (snd (chat message false history now)) = Some no_response
     /\ (exists history_dict,
           events_of (fst (chat message true history now))
           = [EvHistory history_dict (lit "complete")])
     /\ committed_content (snd (chat message true history now)) = Some [])
  /\ (forall question f url content_text,
        reaches_model question f content_text ->
        generate_content (analysis_prompt question f content_text) = GenText [] ->
        Forall (fun item => item = Frag [])
          (generate_content_stream (analysis_prompt question f content_text)) ->
        fst (chat_with_csv question (Some f) url false history now)
        = Response
            (no_data_response (Some (or_else (filename f) (lit "uploaded_file.csv"))))
            (H ++ [user_turn question None
                     (Some (lit "data/processed/" ++ fmt (filename f)))
                     (replace_microsecond_0 now);
                   assistant_turn
                     (no_data_response (Some (or_else (filename f) (lit "uploaded_file.csv"))))
                     (replace_microsecond_0 now)])
        /\ committed_content (snd (chat_with_csv question (Some f) url false history now))
           = Some (no_data_response (Some (or_else (filename f) (lit "uploaded_file.csv"))))
        /\ (exists history_dict,
              events_of (fst (chat_with_csv question (Some f) url true history now))
              = [EvHistory history_dict (lit "complete")])
        /\ committed_content (snd (chat_with_csv question (Some f) url true history now))
           = Some []).
Proof.
  intros HH Hall. split.
  - intros message Hgen Hstream.
    rewrite chat_atomic_run, chat_streaming_run, chat_stream_response_run, HH. cbv zeta.
    rewrite Hgen, (text_chunks_silent _ Hstream).
    destruct (serialise_present chat_history_entry _ quiet_chat_history_entry
                chat_entry_present
                (new_turns_stamped H message (text_reply (GenText [])) None None
                   (replace_microsecond_0 now) Hall)) as (hd1 & Hhd1 & _).
    destruct (serialise_present chat_history_entry _ quiet_chat_history_entry
                chat_entry_present
                (new_turns_stamped H message (strip (spaced [])) None None
                   (replace_microsecond_0 now) Hall)) as (hd2 & Hhd2 & _).
    rewrite Hhd1, Hhd2. simpl fst; simpl snd.
    split; [reflexivity|]. split.
    + unfold committed_content. simpl updated_history. cbv iota beta. now rewrite last_of_two.
    + split; [exists hd2; reflexivity|].
      unfold committed_content. simpl updated_history. cbv iota beta. now rewrite last_of_two.
  - intros question f url content_text Hreach Hgen Hstream.
    rewrite (csv_atomic_analysis question f url history now H content_text HH Hreach).
    unfold chat_with_csv, respond_stream.
    rewrite (csv_streaming_analysis question f url history now H content_text HH Hreach).
    rewrite Hgen, (data_chunks_silent _ _ Hstream).
    destruct (serialise_present csv_history_entry _ quiet_csv_history_entry
                csv_entry_present
                (new_turns_stamped H question (concat (@nil str)) None
                   (Some (lit "data/processed/" ++ fmt (filename f)))
                   (replace_microsecond_0 now) Hall)) as (hd & Hhd & _).
    rewrite Hhd. simpl fst; simpl snd.
    split; [reflexivity|]. split.
    { unfold committed_content. simpl updated_history. cbv iota beta.
      now rewrite last_of_two. }
    split; [exists hd; reflexivity|].
    unfold committed_content. simpl updated_history. cbv iota beta. now rewrite last_of_two.
Qed.

End Silence.

Lemma silent_model_by_mode_witness :
  committed_content (snd (chat (E := Demo.world (GenText []) [Frag []; Frag []])
                            (lit "hello") false (lit "[]") Demo.noon))
  = Some (lit "(No response from Gemini)")
  /\ committed_content (snd (chat (E := Demo.world (GenText []) [Frag []; Frag []])
                               (lit "hello") true (lit "[]") Demo.noon))
     = Some [].
Proof.
  destruct (proj1 (silent_model_by_mode (E := Demo.world (GenText []) [Frag []; Frag []])
                     (lit "[]") Demo.noon [] eq_refl (Forall_nil _))
              (lit "hello") eq_refl
              (Forall_cons _ eq_refl (Forall_cons _ eq_refl (Forall_nil _))))
    as (_ & Hatomic & _ & Hstream).
  split; [exact Hatomic | exact Hstream].
Defined.
